(** * Traffic micro-simulation post-processing: a shallow embedding

    The development embeds the calibration helpers of the repository

      - [src/calibration/postprocessing_plot_util.py]
        ([__revert_dict_of_dict], [convert_flow_per_time_to_list],
        [get_linear_regression]) and
      - [src/calibration/calibration_util.py]
        ([ExternalDemandProfile.export_to_file] and
        [ExternalDemandProfile.__import_from_file])

    and proves the properties the specification states about them.

    Python dictionaries keep their insertion order and the code depends on
    it ([list(d.values())[0]], iteration over [items()]), so a dictionary is
    an association list whose keys are pairwise distinct.  Exceptions are
    values of an error monad.  Python floats are IEEE-754 binary64 numbers,
    taken from [SpecFloat].  The file system, which the export and import
    of a profile read and write, is a finite map from paths to nodes. *)

From Stdlib Require Import SpecFloat.
From stdpp Require Import base decidable option list strings gmap.

(** * Part I: the embedding *)

(** ** Exceptions and the error monad *)

Inductive exn : Type :=
  | IndexError
  | KeyError
  | AssertionError
  | ValueError
  | TypeError
  | FileNotFoundError
  | IsADirectoryError
  | UnpicklingError
  | Exception (msg : string).

#[global] Instance exn_eq_dec : EqDecision exn.
Proof. solve_decision. Defined.

Inductive result (A : Type) : Type :=
  | Ok (a : A)
  | Raise (e : exn).
Arguments Ok {A} a.
Arguments Raise {A} e.

#[global] Instance result_ret : MRet result := fun A a => Ok a.
#[global] Instance result_bind : MBind result := fun A B f m =>
  match m with
  | Ok a => f a
  | Raise e => Raise e
  end.

(** [for x in xs: body], threading the loop state and stopping at the first
    exception. *)
Fixpoint for_each {A S : Type} (xs : list A) (body : A -> S -> result S)
    (s : S) : result S :=
  match xs with
  | [] => Ok s
  | x :: xs' => s' ← body x s; for_each xs' body s'
  end.

(** [l[i]] on a Python list. *)
Definition list_getitem {A : Type} (l : list A) (i : nat) : result A :=
  match l !! i with
  | Some a => Ok a
  | None => Raise IndexError
  end.

(** [assert b]. *)
Definition py_assert (b : bool) : result unit :=
  if b then Ok () else Raise AssertionError.

(** ** Python dictionaries *)

Definition dict (K V : Type) : Type := list (K * V).

Section Dict.
Context {K V : Type} `{EqDecision K}.

Definition dict_keys (d : dict K V) : list K := d.*1.
Definition dict_values (d : dict K V) : list V := d.*2.
Definition dict_items (d : dict K V) : list (K * V) := d.

(** [d.get(k)]: the value stored under [k], if any. *)
Fixpoint dict_get (d : dict K V) (k : K) : option V :=
  match d with
  | [] => None
  | (k', v) :: d' => if decide (k = k') then Some v else dict_get d' k
  end.

(** [d[k]]. *)
Definition dict_getitem (d : dict K V) (k : K) : result V :=
  match dict_get d k with
  | Some v => Ok v
  | None => Raise KeyError
  end.

(** [d[k] = v]: an existing key keeps its place, a new key goes last. *)
Fixpoint dict_setitem (d : dict K V) (k : K) (v : V) : dict K V :=
  match d with
  | [] => [(k, v)]
  | (k', v') :: d' =>
      if decide (k = k') then (k', v) :: d'
      else (k', v') :: dict_setitem d' k v
  end.

(** [{key(x): value(x) for x in xs}]; [f x] evaluates the pair. *)
Definition dict_comp {A : Type} (f : A -> result (K * V)) (xs : list A)
    : result (dict K V) :=
  for_each xs (fun x acc => kv ← f x; Ok (dict_setitem acc kv.1 kv.2)) [].

(** The invariant of a Python dictionary: no key occurs twice. *)
Definition dict_wf (d : dict K V) : Prop := NoDup (dict_keys d).

(** [d1 == d2] as CPython decides it: same size, and every key of [d1] is
    a key of [d2] with an equal value. *)
Definition dict_eqb (veq : V -> V -> bool) (d1 d2 : dict K V) : bool :=
  Nat.eqb (length d1) (length d2)
  && forallb (fun kv =>
       match dict_get d2 kv.1 with
       | Some v' => veq kv.2 v'
       | None => false
       end) d1.
End Dict.

(** ** The data model *)

(** [datetime.time], at the hour:minute resolution the notebooks use. *)
Record time : Type := Time { hour : nat; minute : nat }.

#[global] Instance time_eq_dec : EqDecision time.
Proof. solve_decision. Defined.

(** [ExternalId] is a [str]. *)
Abbreviation ExternalId := string.

(** Python's [float]: binary64. *)
Definition Float : Type := spec_float.

#[global] Instance Float_eq_dec : EqDecision Float.
Proof. unfold Float. solve_decision. Defined.

Definition prec : Z := 53.
Definition emax : Z := 1024.

Definition float_of_Z (z : Z) : Float := binary_normalize prec emax z 0 false.
Definition fzero : Float := S754_zero false.
Definition fadd : Float -> Float -> Float := SFadd prec emax.
Definition fsub : Float -> Float -> Float := SFsub prec emax.
Definition fmul : Float -> Float -> Float := SFmul prec emax.
Definition fdiv : Float -> Float -> Float := SFdiv prec emax.

Definition is_nan (x : Float) : bool :=
  match x with S754_nan => true | _ => false end.

(** ** Transposition of a dictionary of dictionaries

    [postprocessing_plot_util.py], lines 190-195:
<<
    return {y: {x: dict_to_return[x][y] for x in dict_to_return}
            for y in list(dict_to_return.values())[0]}
>> *)

Section Revert.
Context {X Y V : Type} `{EqDecision X, EqDecision Y}.

(** The inner comprehension [{x: T[x][y] for x in T}]. *)
Definition revert_inner (T : dict X (dict Y V)) (y : Y) : result (dict X V) :=
  dict_comp (fun x =>
      row ← dict_getitem T x; v ← dict_getitem row y; Ok (x, v))
    (dict_keys T).

(** The outer comprehension, over the keys [ys] of the first row. *)
Definition revert_outer (T : dict X (dict Y V)) (ys : list Y)
    : result (dict Y (dict X V)) :=
  dict_comp (fun y => inner ← revert_inner T y; Ok (y, inner)) ys.

Definition __revert_dict_of_dict (dict_to_return : dict X (dict Y V))
    : result (dict Y (dict X V)) :=
  first ← list_getitem (dict_values dict_to_return) 0;
  revert_outer dict_to_return (dict_keys first).
End Revert.

(** *** Vocabulary of the specification for tables *)

Section Tables.
Context {X Y V : Type} `{EqDecision X, EqDecision Y}.

(** The sample stored under outer key [x] and inner key [y], if any. *)
Definition dict_get2 (T : dict X (dict Y V)) (x : X) (y : Y) : option V :=
  row ← dict_get T x; dict_get row y.

(** Number of samples of a table. *)
Definition entry_count (T : dict X (dict Y V)) : nat :=
  sum_list (length <$> dict_values T).

(** The table and each of its rows are dictionaries. *)
Definition table_wf (T : dict X (dict Y V)) : Prop :=
  dict_wf T /\ Forall dict_wf (dict_values T).

(** Every outer key holds the same set of inner keys. *)
Definition table_uniform (T : dict X (dict Y V)) : Prop :=
  forall r r', r ∈ dict_values T -> r' ∈ dict_values T ->
    forall y, y ∈ dict_keys r <-> y ∈ dict_keys r'.

(** The shape of the transpose of a table [T] whose first row is [r0]. *)
Definition transpose_of (T : dict X (dict Y V)) (r0 : dict Y V)
    (R : dict Y (dict X V)) : Prop :=
  dict_keys R = dict_keys r0 /\
  forall y inner, (y, inner) ∈ R ->
    dict_keys inner = dict_keys T /\
    forall x, dict_get inner x = dict_get2 T x y.

(** A well-formed Time-Keyed Table: not empty, and the same entities under
    every time key. *)
Definition well_formed_table (T : dict X (dict Y V)) : Prop :=
  T <> [] /\ table_wf T /\ table_uniform T.

(** Every row holds at least one sample. *)
Definition table_populated (T : dict X (dict Y V)) : Prop :=
  forall r, r ∈ dict_values T -> r <> [].

(** Python's [T1 == T2] on dictionaries of dictionaries; the samples are
    the same objects on both sides, so they are compared by identity. *)
Definition table_eqb `{EqDecision V} (T1 T2 : dict X (dict Y V)) : bool :=
  dict_eqb (dict_eqb (fun a b : V => bool_decide (a = b))) T1 T2.
End Tables.

(** ** Paired real and simulated flow

    [postprocessing_plot_util.py], lines 23-98.  The leading
    [assert all(isinstance(time, datetime.time) ...)] holds by typing here:
    [time_list] is a list of [time].  [np.array(l).reshape(-1, 1)] turns the
    list [l] into a column; a column is the list of its entries. *)

Section Flow.
Context {V : Type}.

Inductive flow_lists : Type :=
  | AllFlow (all_real_flow_list all_simulated_flow_list : list V)
  | CityPemsFlow (city_real_flow_list city_simulated_flow_list
                  pems_real_flow_list pems_simulated_flow_list : list V).

(** [city_common_id in detector_external_id], on strings. *)
Definition str_contains (needle hay : string) : bool :=
  match String.index 0 needle hay with
  | Some _ => true
  | None => false
  end.

(** Body of the inner loop, no [city_common_id]. *)
Definition collect_all_step (simulated_flow_dict : dict ExternalId V)
    (item : ExternalId * V) (acc : list V * list V)
    : result (list V * list V) :=
  let '(detector_external_id, real_flow_value) := item in
  let '(all_real_flow_list, all_simulated_flow_list) := acc in
  let all_real_flow_list := all_real_flow_list ++ [real_flow_value] in
  simulated_flow_value ← dict_getitem simulated_flow_dict detector_external_id;
  Ok (all_real_flow_list, all_simulated_flow_list ++ [simulated_flow_value]).

(** Body of the inner loop with a [city_common_id]. *)
Definition collect_city_pems_step (city_common_id : string)
    (simulated_flow_dict : dict ExternalId V)
    (item : ExternalId * V) (acc : (list V * list V) * (list V * list V))
    : result ((list V * list V) * (list V * list V)) :=
  let '(detector_external_id, real_flow_value) := item in
  let '((city_real, city_simulated), (pems_real, pems_simulated)) := acc in
  if str_contains city_common_id detector_external_id then
    let city_real := city_real ++ [real_flow_value] in
    simulated_flow_value ←
      dict_getitem simulated_flow_dict detector_external_id;
    Ok ((city_real, city_simulated ++ [simulated_flow_value]),
        (pems_real, pems_simulated))
  else
    let pems_real := pems_real ++ [real_flow_value] in
    simulated_flow_value ←
      dict_getitem simulated_flow_dict detector_external_id;
    Ok ((city_real, city_simulated),
        (pems_real, pems_simulated ++ [simulated_flow_value])).

(** Body of the outer loop: both rows are fetched before the inner loop. *)
Definition collect_time_step {S : Type}
    (real_flow_per_time simulated_flow_per_time : dict time (dict ExternalId V))
    (inner : dict ExternalId V -> ExternalId * V -> S -> result S)
    (t : time) (acc : S) : result S :=
  real_flow_dict ← dict_getitem real_flow_per_time t;
  simulated_flow_dict ← dict_getitem simulated_flow_per_time t;
  for_each (dict_items real_flow_dict) (inner simulated_flow_dict) acc.

Definition convert_flow_per_time_to_list
    (real_flow_per_time simulated_flow_per_time : dict time (dict ExternalId V))
    (time_list : list time) (city_common_id : option string)
    : result flow_lists :=
  match city_common_id with
  | None =>
      '(all_real_flow_list, all_simulated_flow_list) ←
        for_each time_list
          (collect_time_step real_flow_per_time simulated_flow_per_time
             collect_all_step)
          ([], []);
      _ ← py_assert (Nat.eqb (length all_real_flow_list)
                             (length all_simulated_flow_list));
      Ok (AllFlow all_real_flow_list all_simulated_flow_list)
  | Some city_common_id =>
      '((city_real, city_simulated), (pems_real, pems_simulated)) ←
        for_each time_list
          (collect_time_step real_flow_per_time simulated_flow_per_time
             (collect_city_pems_step city_common_id))
          (([], []), ([], []));
      _ ← py_assert (Nat.eqb (length city_real) (length city_simulated));
      _ ← py_assert (Nat.eqb (length pems_real) (length pems_simulated));
      Ok (CityPemsFlow city_real city_simulated pems_real pems_simulated)
  end.

(** *** The sequences the specification describes

    Times in [time_list] order and, within a time, the entities of the real
    row in their order. *)

Definition real_sequence (real_table : dict time (dict ExternalId V))
    (time_list : list time) : list V :=
  flat_map (fun t =>
    match dict_get real_table t with
    | Some real_row => dict_values real_row
    | None => []
    end) time_list.

Definition simulated_sequence
    (real_table simulated_table : dict time (dict ExternalId V))
    (time_list : list time) : list V :=
  flat_map (fun t =>
    match dict_get real_table t, dict_get simulated_table t with
    | Some real_row, Some simulated_row =>
        flat_map (fun entity =>
          match dict_get simulated_row entity with
          | Some v => [v]
          | None => []
          end) (dict_keys real_row)
    | _, _ => []
    end) time_list.

(** Every listed time is a key of both tables. *)
Definition times_present
    (real_table simulated_table : dict time (dict ExternalId V))
    (time_list : list time) : Prop :=
  forall t, t ∈ time_list ->
    t ∈ dict_keys real_table /\ t ∈ dict_keys simulated_table.

(** Under every listed time, each entity of the real row is in the
    simulated row. *)
Definition entities_present
    (real_table simulated_table : dict time (dict ExternalId V))
    (time_list : list time) : Prop :=
  forall t real_row simulated_row, t ∈ time_list ->
    dict_get real_table t = Some real_row ->
    dict_get simulated_table t = Some simulated_row ->
    forall entity, entity ∈ dict_keys real_row ->
      entity ∈ dict_keys simulated_row.

(** The length invariant of the accumulators. *)
Definition paired (acc : list V * list V) : Prop :=
  length acc.1 = length acc.2.

(** A Paired Sample Sequence: both components have the same length. *)
Definition balanced (res : flow_lists) : Prop :=
  match res with
  | AllFlow r s => length r = length s
  | CityPemsFlow cr cs pr ps =>
      length cr = length cs /\ length pr = length ps
  end.
End Flow.
Arguments flow_lists V : clear implicits.

(** ** Linear regression between real and simulated data

    [postprocessing_plot_util.py], lines 101-134.  The inputs are the
    columns [convert_flow_per_time_to_list] returns: arrays of shape
    [(n, 1)]. *)

(** [intercept_] of a fitted [LinearRegression]: the float [0.0] when no
    intercept is fitted, otherwise an array of shape [(n_targets,)]. *)
Inductive intercept_value : Type :=
  | Scalar (x : Float)
  | Array1 (xs : list Float).

(** The attributes [get_linear_regression] reads from the fitted object.
    For one feature and one target [coef_] has shape [(1, 1)]; the field
    holds its entry. *)
Record fitted_model : Type := FittedModel {
  coef_ : Float;
  intercept_ : intercept_value
}.

(** The Regression Utility ([sklearn.linear_model.LinearRegression]), an
    external collaborator: construction with [fit_intercept] followed by
    [fit], and [score]. *)
Class RegressionUtility : Type := {
  lr_fit : bool -> list Float -> list Float -> result fitted_model;
  lr_score : fitted_model -> list Float -> list Float -> result Float
}.

(** What the library documents about [intercept_]: it is set to [0.0] if
    [fit_intercept = False], and is an array with one entry per target
    otherwise. *)
Class RegressionContract (lr : RegressionUtility) : Prop := {
  fit_no_intercept : forall x y m,
    lr_fit false x y = Ok m -> intercept_ m = Scalar fzero;
  fit_with_intercept : forall x y m,
    lr_fit true x y = Ok m -> exists b, intercept_ m = Array1 [b]
}.

(** [abs] on a float or, element-wise, on an array. *)
Definition py_abs (i : intercept_value) : intercept_value :=
  match i with
  | Scalar x => Scalar (SFabs x)
  | Array1 xs => Array1 (SFabs <$> xs)
  end.

(** [intercept[0]]: a float is not subscriptable ([TypeError]; a NumPy
    scalar raises [IndexError] instead, a case the contract below
    excludes). *)
Definition intercept_getitem0 (i : intercept_value) : result intercept_value :=
  match i with
  | Scalar _ => Raise TypeError
  | Array1 xs => x ← list_getitem xs 0; Ok (Scalar x)
  end.

(** [np.dot(x, slope) + intercept] for a column [x] and a 1x1 [slope]:
    the sum broadcasts a scalar, or an array of shape [(k,)] to [(n, k)]. *)
Definition predict (x : list Float) (slope : Float) (i : intercept_value)
    : list (list Float) :=
  (fun xi =>
     match i with
     | Scalar c => [fadd (fmul xi slope) c]
     | Array1 cs => (fun c => fadd (fmul xi slope) c) <$> cs
     end) <$> x.

(** [np.maximum]: a NaN wins. *)
Definition np_maximum (a b : Float) : Float :=
  if is_nan a then a
  else if is_nan b then b
  else if SFltb a b then b else a.

(** [x.max()]: undefined on an empty array. *)
Definition np_max (x : list Float) : result Float :=
  match x with
  | [] => Raise ValueError
  | x0 :: xs => Ok (foldl np_maximum x0 xs)
  end.

Section Regression.
Context {lr : RegressionUtility}.

Definition get_linear_regression
    (real_data_list simulated_data_list : list Float)
    (enforce_intercept : bool)
    : result (Float * intercept_value * Float * Float * list (list Float)) :=
  lin_reg_object ←
    lr_fit (negb enforce_intercept) real_data_list simulated_data_list;
  let slope := coef_ lin_reg_object in
  let intercept := py_abs (intercept_ lin_reg_object) in
  r_sq ← lr_score lin_reg_object real_data_list simulated_data_list;
  let yhat := predict real_data_list slope intercept in
  max_val ← np_max real_data_list;
  intercept_float ←
    (if negb enforce_intercept then intercept_getitem0 intercept
     else Ok intercept);
  Ok (slope, intercept_float, r_sq, max_val, yhat).
End Regression.

(** A returned intercept that is never below zero. *)
Definition non_negative (i : intercept_value) : Prop :=
  exists x, i = Scalar x /\ SFltb x fzero = false /\
    (is_nan x = false -> SFleb fzero x = true).

(** *** A reference Regression Utility

    Closed-form ordinary least squares in binary64 arithmetic, behind the
    input checks of the library: at least one sample, and as many targets
    as samples.  It is the instance the statements about
    [get_linear_regression] are run on. *)

Definition fsum (xs : list Float) : Float := foldl fadd fzero xs.

Definition fmean (xs : list Float) : Float :=
  fdiv (fsum xs) (float_of_Z (Z.of_nat (length xs))).

(** Slope of the least-squares line through the points, after the means
    [xm] and [ym] are taken off; zero when [x] does not vary. *)
Definition ols_slope (xm ym : Float) (x y : list Float) : Float :=
  let sxx := fsum ((fun xi => fmul (fsub xi xm) (fsub xi xm)) <$> x) in
  let sxy :=
    fsum (zip_with (fun xi yi => fmul (fsub xi xm) (fsub yi ym)) x y) in
  if SFeqb sxx fzero then fzero else fdiv sxy sxx.

Definition ols_fit (fit_intercept : bool) (x y : list Float)
    : result fitted_model :=
  if Nat.eqb (length x) 0 then Raise ValueError
  else if negb (Nat.eqb (length x) (length y)) then Raise ValueError
  else if fit_intercept then
    let xm := fmean x in
    let ym := fmean y in
    let b := ols_slope xm ym x y in
    Ok (FittedModel b (Array1 [fsub ym (fmul b xm)]))
  else
    Ok (FittedModel (ols_slope fzero fzero x y) (Scalar fzero)).

(** Coefficient of determination; not defined with fewer than two
    samples. *)
Definition ols_score (m : fitted_model) (x y : list Float) : result Float :=
  if Nat.ltb (length y) 2 then Ok S754_nan
  else
    let c := match intercept_ m with
             | Scalar c => c
             | Array1 cs => default fzero (head cs)
             end in
    let ym := fmean y in
    let ss_res :=
      fsum (zip_with (fun xi yi =>
              let d := fsub yi (fadd (fmul xi (coef_ m)) c) in fmul d d) x y) in
    let ss_tot := fsum ((fun yi => fmul (fsub yi ym) (fsub yi ym)) <$> y) in
    Ok (fsub (float_of_Z 1) (fdiv ss_res ss_tot)).

Definition ols : RegressionUtility :=
  {| lr_fit := ols_fit; lr_score := ols_score |}.

(** ** The serialized external-demand profile

    [calibration_util.py], lines 32-152. *)

(** The attributes of an [ExternalDemandData]; an attribute [__init__]
    sets to [None] is an option. *)
Record ExternalDemandData : Type := {
  origin_centroid_id : ExternalId;
  origin_detector_id : option ExternalId;
  destination_centroid_id : ExternalId;
  destination_detector_id : option ExternalId;
  streetlight_afternoon_flow : Float;
  from_detector_afternoon_flow : option Float;
  to_detector_afternoon_flow : option Float;
  from_demand_per_timestep : dict time Float;
  to_demand_per_timestep : dict time Float
}.

(** The Python objects a pickle of this code base may hold. *)
#[local] Unset Elimination Schemes.
Inductive pyobj : Type :=
  | PyNone
  | PyInt (z : Z)
  | PyFloat (x : Float)
  | PyStr (s : string)
  | PyList (items : list pyobj)
  | PyDict (items : list (pyobj * pyobj))
  | PyExternalDemandData (d : ExternalDemandData).
#[local] Set Elimination Schemes.

(** [isinstance(o, list)] and [isinstance(o, ExternalDemandData)]. *)
Definition isinstance_list (o : pyobj) : bool :=
  match o with PyList _ => true | _ => false end.

Definition isinstance_ExternalDemandData (o : pyobj) : bool :=
  match o with PyExternalDemandData _ => true | _ => false end.

(** [o[0]] on an object known to be a list. *)
Definition pyobj_getitem0 (o : pyobj) : result pyobj :=
  match o with
  | PyList items => list_getitem items 0
  | _ => Raise TypeError
  end.

(** What a path of the file system holds: a file with the pickle of an
    object, a file with other bytes, or a directory. *)
Inductive node : Type :=
  | Pickled (payload : pyobj)
  | OtherBytes
  | Directory.

(** The world outside the interpreter: the file system and the warnings
    shown so far. *)
Record world : Type := World {
  fs : gmap string node;
  warnings_shown : list string
}.

(** Computations that read and change the world and may raise. *)
Definition IO (A : Type) : Type := world -> result A * world.

#[global] Instance IO_ret : MRet IO := fun A a w => (Ok a, w).
#[global] Instance IO_bind : MBind IO := fun A B f m w =>
  match m w with
  | (Ok a, w') => f a w'
  | (Raise e, w') => (Raise e, w')
  end.

Definition io_raise {A : Type} (e : exn) : IO A := fun w => (Raise e, w).

(** A computation that leaves the world alone. *)
Definition io_lift {A : Type} (r : result A) : IO A := fun w => (r, w).

(** [os.path.exists]: files and directories both exist. *)
Definition path_exists (filepath : string) : IO bool :=
  fun w => (Ok (bool_decide (is_Some (fs w !! filepath))), w).

(** [warnings.warn]. *)
Definition warnings_warn (message : string) : IO unit :=
  fun w => (Ok (), World (fs w) (warnings_shown w ++ [message])).

(** [open(filepath, 'wb')]: creates the file or truncates it; the
    directory that is to hold the path is taken to exist and to be
    writable. *)
Definition open_wb (filepath : string) : IO string :=
  fun w =>
    match fs w !! filepath with
    | Some Directory => (Raise IsADirectoryError, w)
    | _ => (Ok filepath, World (<[filepath := OtherBytes]> (fs w))
                               (warnings_shown w))
    end.

(** [open(filepath, 'rb')]. *)
Definition open_rb (filepath : string) : IO string :=
  fun w =>
    match fs w !! filepath with
    | None => (Raise FileNotFoundError, w)
    | Some Directory => (Raise IsADirectoryError, w)
    | Some _ => (Ok filepath, w)
    end.

(** [pickle.dump(obj, file)] on a file opened for writing. *)
Definition pickle_dump (obj : pyobj) (file : string) : IO unit :=
  fun w => (Ok (), World (<[file := Pickled obj]> (fs w)) (warnings_shown w)).

(** [pickle.load(file)] on a file opened for reading. *)
Definition pickle_load (file : string) : IO pyobj :=
  fun w =>
    match fs w !! file with
    | Some (Pickled obj) => (Ok obj, w)
    | _ => (Raise UnpicklingError, w)
    end.

(** An [ExternalDemandProfile].  [ext_demand_matrix] is annotated
    [List[ExternalDemandData]], but holds whatever list was assigned. *)
Record ExternalDemandProfile : Type := {
  ext_demand_matrix : list pyobj
}.

Definition no_data_message : string :=
  "ExternalDemandProfile has no data. Export aborted.".
Definition overwrite_message : string :=
  "File already exists at filepath. Overwriting file.".
Definition wrong_type_message : string :=
  "File has incorrect data type. Import aborted.".

Definition export_to_file (self : ExternalDemandProfile) (filepath : string)
    : IO unit :=
  if Nat.eqb (length (ext_demand_matrix self)) 0 then
    io_raise (Exception no_data_message)
  else
    file_exists ← path_exists filepath;
    _ ← (if file_exists : bool then warnings_warn overwrite_message
         else mret ());
    file ← open_wb filepath;
    pickle_dump (PyList (ext_demand_matrix self)) file.

(** The condition of the [if]: [and] evaluates its right operand only when
    the left one is true. *)
Definition import_type_check (imported_data : pyobj) : result bool :=
  if isinstance_list imported_data then
    first ← pyobj_getitem0 imported_data;
    Ok (isinstance_ExternalDemandData first)
  else Ok false.

(** [__import_from_file]; the result is [self] after the call.  The
    assignment is reached only when the check found a list. *)
Definition __import_from_file (self : ExternalDemandProfile)
    (filepath : string) : IO ExternalDemandProfile :=
  imported_data ← (file ← open_rb filepath; pickle_load file);
  type_matches ← io_lift (import_type_check imported_data);
  if type_matches : bool then
    match imported_data with
    | PyList items => mret {| ext_demand_matrix := items |}
    | _ => io_raise TypeError
    end
  else io_raise (Exception wrong_type_message).

(** [ExternalDemandProfile(filepath)]. *)
Definition ExternalDemandProfile_init (filepath : string)
    : IO ExternalDemandProfile :=
  let self := {| ext_demand_matrix := [] |} in
  if bool_decide (filepath = EmptyString) then mret self
  else __import_from_file self filepath.

(** *** Vocabulary of the specification for the profile file *)

(** The errors of the specification's taxonomy, as the code raises them:
    the first two are the [Exception]s of [export_to_file] and
    [__import_from_file], the others come from the interpreter
    ([list(...)[0]] on an empty list, [d[k]] on a missing key, a failed
    [assert]). *)
Definition EmptyCollectionError : exn := Exception no_data_message.
Definition TypeMismatchError : exn := Exception wrong_type_message.
Definition EmptyInputError : exn := IndexError.
Definition MissingKeyError : exn := KeyError.
Definition LengthMismatchError : exn := AssertionError.

(** The shape check as the specification words it: the payload is a
    sequence, and its first element, when there is one, is a record. *)
Definition expected_shape (payload : pyobj) : bool :=
  match payload with
  | PyList [] => true
  | PyList (first :: _) => isinstance_ExternalDemandData first
  | _ => false
  end.

(** ** Sample data

    The tables of the specification's examples, and two irregular ones. *)

Definition t0900 : time := Time 9 0.
Definition t0915 : time := Time 9 15.

(** [{09:00: {"d1": 10.0, "d2": 20.0}, 09:15: {"d1": 12.0, "d2": 18.0}}] *)
Definition sample_table : dict time (dict ExternalId Float) :=
  [ (t0900, [("d1"%string, float_of_Z 10); ("d2"%string, float_of_Z 20)]);
    (t0915, [("d1"%string, float_of_Z 12); ("d2"%string, float_of_Z 18)]) ].

(** [{09:00: {"d1": 10.0, "d2": 20.0}, 09:15: {"d1": 12.0}}]: the second
    time key lacks ["d2"]. *)
Definition ragged_table : dict time (dict ExternalId Float) :=
  [ (t0900, [("d1"%string, float_of_Z 10); ("d2"%string, float_of_Z 20)]);
    (t0915, [("d1"%string, float_of_Z 12)]) ].

(** [{09:00: {}}]: one time key and no entity. *)
Definition bare_table : dict time (dict ExternalId Float) :=
  [ (t0900, []) ].

(** [{09:00: {"d1": 10.0}}] and [{09:00: {"d1": 8.0}}]. *)
Definition sample_real_table : dict time (dict ExternalId Float) :=
  [ (t0900, [("d1"%string, float_of_Z 10)]) ].
Definition sample_simulated_table : dict time (dict ExternalId Float) :=
  [ (t0900, [("d1"%string, float_of_Z 8)]) ].

(** A record of the external-demand profile, as [__init__] and the
    StreetLight import leave it. *)
Definition sample_demand_data : ExternalDemandData :=
  {| origin_centroid_id := "ext_1";
     origin_detector_id := None;
     destination_centroid_id := "ext_2";
     destination_detector_id := None;
     streetlight_afternoon_flow := float_of_Z 120;
     from_detector_afternoon_flow := None;
     to_detector_afternoon_flow := None;
     from_demand_per_timestep := [];
     to_demand_per_timestep := [] |}.

Definition sample_profile : ExternalDemandProfile :=
  {| ext_demand_matrix := [PyExternalDemandData sample_demand_data] |}.

Definition blank_profile : ExternalDemandProfile :=
  {| ext_demand_matrix := [] |}.

(** A world whose only path holds [n], and in which no warning was shown
    yet. *)
Definition profile_path : string := "profile.pkl".
Definition world_holding (n : node) : world :=
  World {[ profile_path := n ]} [].

(** [{09:00: {"d1": 10.0}, 09:15: {"d1": 12.0, "d2": 18.0}}]: the second
    time key has an entity the first one lacks. *)
Definition wider_table : dict time (dict ExternalId Float) :=
  [ (t0900, [("d1"%string, float_of_Z 10)]);
    (t0915, [("d1"%string, float_of_Z 12); ("d2"%string, float_of_Z 18)]) ].

(** ** The simulation output database and the tables read from it

    [postprocessing_plot_util.py], lines 198-446. *)

(** [InternalId] is an [int]. *)
Abbreviation InternalId := Z.

(** Modelled from the spec: the classes [AimsunMacroOutputDatabase] and
    [AimsunMicroOutputDatabase] of [postprocessing_util], a module that is
    not among the sources.  The Simulation Output Source answers point
    queries such as "flow at detector X at time T"; a query reads the
    output of a finished simulation, so it returns a value or raises and
    changes nothing. *)
Module AimsunMacroOutputDatabase.
Record t : Type := {
  get_detector_flow : ExternalId -> result Float
}.
End AimsunMacroOutputDatabase.

Module AimsunMicroOutputDatabase.
Record t : Type := {
  get_detector_flow : ExternalId -> time -> result Float;
  get_total_rgap : time -> result (Float * Float);
  get_road_section_speed : InternalId -> time -> result Float;
  get_centroid_ext_int_ids : result (list (InternalId * ExternalId));
  get_od_travel_time : ExternalId -> InternalId -> time -> result Float;
  get_od_demand : ExternalId -> InternalId -> time -> result Float;
  get_total_delay_time : time -> result Float
}.
End AimsunMicroOutputDatabase.

(** Lines 198-228. *)
Definition process_macro_simulated_flow_data
    (simulation_results_database : dict time AimsunMacroOutputDatabase.t)
    (detector_external_id_list : list ExternalId)
    : result (dict time (dict ExternalId Float)
              * dict ExternalId (dict time Float)) :=
  simulated_flow_per_time ←
    dict_comp (fun t =>
        row ← dict_comp (fun detector_external_id =>
                  database ← dict_getitem simulation_results_database t;
                  flow ← AimsunMacroOutputDatabase.get_detector_flow
                           database detector_external_id;
                  Ok (detector_external_id, flow))
                detector_external_id_list;
        Ok (t, row))
      (dict_keys simulation_results_database);
  simulated_flow_per_detector ← __revert_dict_of_dict simulated_flow_per_time;
  Ok (simulated_flow_per_time, simulated_flow_per_detector).

(** Lines 231-263. *)
Definition process_micro_simulated_flow_data
    (simulation_results_database : AimsunMicroOutputDatabase.t)
    (time_list : list time) (detector_external_id_list : list ExternalId)
    : result (dict time (dict ExternalId Float)
              * dict ExternalId (dict time Float)) :=
  simulated_flow_per_time ←
    dict_comp (fun t =>
        row ← dict_comp (fun detector_external_id =>
                  flow ← AimsunMicroOutputDatabase.get_detector_flow
                           simulation_results_database
                           detector_external_id t;
                  Ok (detector_external_id, flow))
                detector_external_id_list;
        Ok (t, row))
      time_list;
  simulated_flow_per_detector ← __revert_dict_of_dict simulated_flow_per_time;
  Ok (simulated_flow_per_time, simulated_flow_per_detector).

(** Lines 266-290: two lists filled side by side. *)
Definition process_micro_total_rgap_data
    (simulation_results_database : AimsunMicroOutputDatabase.t)
    (time_list : list time) : result (list Float * list Float) :=
  for_each time_list (fun time_step '(rgaps_instantaneous, rgaps_experienced) =>
      '(rgap_inst, rgap_exp) ←
        AimsunMicroOutputDatabase.get_total_rgap
          simulation_results_database time_step;
      Ok (rgaps_instantaneous ++ [rgap_inst], rgaps_experienced ++ [rgap_exp]))
    ([], []).

(** Lines 293-322. *)
Definition process_micro_road_speed_data
    (simulation_results_database : AimsunMicroOutputDatabase.t)
    (road_int_ids : list InternalId) (time_list : list time)
    : result (dict time (dict InternalId Float)) :=
  for_each time_list (fun time_step simulated_road_speeds_per_time =>
      speeds_of_roads ←
        for_each road_int_ids (fun road_int_id speeds_of_roads =>
            speed_of_road ←
              AimsunMicroOutputDatabase.get_road_section_speed
                simulation_results_database road_int_id time_step;
            Ok (dict_setitem speeds_of_roads road_int_id speed_of_road))
          [];
      Ok (dict_setitem simulated_road_speeds_per_time time_step
            speeds_of_roads))
    [].

(** Lines 325-347: [id_pair] is a pair (internal id, external id). *)
Definition find_centroid_internal_ids
    (simulation_results_database : AimsunMicroOutputDatabase.t)
    (centroids_ext_id_list : list ExternalId)
    : result (dict ExternalId InternalId) :=
  all_internal_external_ids ←
    AimsunMicroOutputDatabase.get_centroid_ext_int_ids
      simulation_results_database;
  for_each all_internal_external_ids (fun id_pair centroid_ext_to_int_id =>
      if bool_decide (id_pair.2 ∈ centroids_ext_id_list) then
        Ok (dict_setitem centroid_ext_to_int_id id_pair.2 id_pair.1)
      else Ok centroid_ext_to_int_id)
    [].

(** The three nested loops lines 371-385 and 415-429 share: one table per
    origin, one row per destination, one sample per time step.  The query
    receives the external id of the origin and the internal id of the
    destination. *)
Definition od_table
    (query : ExternalId -> InternalId -> time -> result Float)
    (external_centroids_ext_int_id_dict : dict ExternalId InternalId)
    (time_list : list time)
    : result (dict ExternalId (dict ExternalId (dict time Float))) :=
  for_each (dict_keys external_centroids_ext_int_id_dict)
    (fun origin_centroid_ext_id simulated_all_data =>
      origin_centroid_data ←
        for_each (dict_items external_centroids_ext_int_id_dict)
          (fun '(dest_centroid_ext_id, dest_centroid_int_id)
               origin_centroid_data =>
            od_centroid_data ←
              for_each time_list (fun time_step od_centroid_data =>
                  od_value ← query origin_centroid_ext_id
                               dest_centroid_int_id time_step;
                  Ok (dict_setitem od_centroid_data time_step od_value))
                [];
            Ok (dict_setitem origin_centroid_data dest_centroid_ext_id
                  od_centroid_data))
          [];
      Ok (dict_setitem simulated_all_data origin_centroid_ext_id
            origin_centroid_data))
    [].

(** Lines 350-386. *)
Definition process_micro_travel_time_data
    (simulation_results_database : AimsunMicroOutputDatabase.t)
    (external_centroids_ext_int_id_dict : dict ExternalId InternalId)
    (time_list : list time)
    : result (dict ExternalId (dict ExternalId (dict time Float))) :=
  od_table
    (AimsunMicroOutputDatabase.get_od_travel_time simulation_results_database)
    external_centroids_ext_int_id_dict time_list.

(** Lines 389-430: the route distances are read with [get_od_demand]. *)
Definition process_micro_route_distance_data
    (simulation_results_database : AimsunMicroOutputDatabase.t)
    (external_centroids_ext_int_id_dict : dict ExternalId InternalId)
    (time_list : list time)
    : result (dict ExternalId (dict ExternalId (dict time Float))) :=
  od_table
    (AimsunMicroOutputDatabase.get_od_demand simulation_results_database)
    external_centroids_ext_int_id_dict time_list.

(** Lines 433-443. *)
Definition process_network_delay_time_data
    (simulation_results_database : AimsunMicroOutputDatabase.t)
    (time_intervals : list time) : result (list Float) :=
  for_each time_intervals (fun t delay_times =>
      delay ← AimsunMicroOutputDatabase.get_total_delay_time
                simulation_results_database t;
      Ok (delay_times ++ [delay]))
    [].

(** *** Vocabulary for the added properties *)

(** The sample of a three-level table. *)
Definition dict_get3 {A B C V : Type}
    `{EqDecision A, EqDecision B, EqDecision C}
    (d : dict A (dict B (dict C V))) (a : A) (b : B) (c : C) : option V :=
  table ← dict_get d a; dict_get2 table b c.

(** The real samples of the detectors [keep] selects, time-major. *)
Definition classified_real_sequence {V : Type} (keep : ExternalId -> bool)
    (real_table : dict time (dict ExternalId V)) (time_list : list time)
    : list V :=
  flat_map (fun t =>
    match dict_get real_table t with
    | Some real_row => (filter (fun kv => Is_true (keep kv.1)) real_row).*2
    | None => []
    end) time_list.

(** The simulated samples of the detectors [keep] selects among those of
    the real row. *)
Definition classified_simulated_sequence {V : Type} (keep : ExternalId -> bool)
    (real_table simulated_table : dict time (dict ExternalId V))
    (time_list : list time) : list V :=
  flat_map (fun t =>
    match dict_get real_table t, dict_get simulated_table t with
    | Some real_row, Some simulated_row =>
        flat_map (fun entity =>
          match dict_get simulated_row entity with
          | Some v => [v]
          | None => []
          end) (filter (fun e => Is_true (keep e)) (dict_keys real_row))
    | _, _ => []
    end) time_list.

(** The table comprehension
    [{x: {y: q(x, y) for y in ys} for x in xs}]. *)
Definition keyed_table {X Y V : Type} `{EqDecision X, EqDecision Y}
    (q : X -> Y -> result V) (xs : list X) (ys : list Y)
    : result (dict X (dict Y V)) :=
  dict_comp (fun x =>
      row ← dict_comp (fun y => v ← q x y; Ok (y, v)) ys; Ok (x, row))
    xs.

(** A database that answers every flow query with the sum of the hour and
    the length of the detector name, and a database that knows no
    detector. *)
Definition sample_micro_database : AimsunMicroOutputDatabase.t :=
  {| AimsunMicroOutputDatabase.get_detector_flow :=
       fun d t => Ok (float_of_Z (Z.of_nat (hour t + String.length d)));
     AimsunMicroOutputDatabase.get_total_rgap :=
       fun t => Ok (float_of_Z (Z.of_nat (hour t)),
                    float_of_Z (Z.of_nat (minute t)));
     AimsunMicroOutputDatabase.get_road_section_speed :=
       fun r t => Ok (float_of_Z (r + Z.of_nat (hour t)));
     AimsunMicroOutputDatabase.get_centroid_ext_int_ids :=
       Ok [(1%Z, "ext_1"%string); (2%Z, "ext_2"%string);
           (3%Z, "ext_1"%string)];
     AimsunMicroOutputDatabase.get_od_travel_time :=
       fun o d t => Ok (float_of_Z (d + Z.of_nat (String.length o + hour t)));
     AimsunMicroOutputDatabase.get_od_demand :=
       fun o d t => Ok (float_of_Z (d * 2));
     AimsunMicroOutputDatabase.get_total_delay_time :=
       fun t => if bool_decide (hour t < 24) then Ok (float_of_Z 5)
                else Raise ValueError |}.

Definition sample_macro_database : AimsunMacroOutputDatabase.t :=
  {| AimsunMacroOutputDatabase.get_detector_flow :=
       fun d => Ok (float_of_Z (Z.of_nat (String.length d))) |}.

(** ** The real flow data

    [postprocessing_plot_util.py], lines 137-187. *)

(** [datetime.timedelta], as a whole number of minutes: the real data is
    keyed by the end of each quarter of an hour.  Negative durations, on
    which [datetime.datetime.min + time_key] overflows, have no
    counterpart. *)
Abbreviation timedelta := nat.

(** Modelled from the spec: the class [AimsunFlowRealDataSet] of
    [aimsun_input_utils], a module that is not among the sources, and the
    class of the elements of its [flow_data_set].  The Real Data Source
    exposes, per real-world detector, a mapping from a time-of-day key to
    a raw flow count; the attributes are the ones the function reads. *)
Record FlowRealData : Type := {
  external_id : ExternalId;
  flow_data : dict timedelta Float
}.

Record AimsunFlowRealDataSet : Type := {
  flow_data_set : list FlowRealData
}.

(** [datetime.timedelta(hours=time.hour, minutes=time.minute)]. *)
Definition timedelta_of_time (t : time) : timedelta :=
  hour t * 60 + minute t.

(** [(datetime.datetime.min + time_key).time()]: the time of day, whole
    days dropped. *)
Definition time_of_timedelta (time_key : timedelta) : time :=
  Time ((time_key / 60) mod 24) (time_key mod 60).

(** [a < b] and [a <= b] on [datetime.time]. *)
Definition time_ltb (a b : time) : bool :=
  (hour a <? hour b)%nat || ((hour a =? hour b)%nat && (minute a <? minute b)%nat).

Definition time_leb (a b : time) : bool := negb (time_ltb b a).

(** [min(l)] and [max(l)]: the first of the smallest, respectively
    largest, elements; undefined on an empty list. *)
Definition py_min (l : list time) : result time :=
  match l with
  | [] => Raise ValueError
  | x :: xs => Ok (foldl (fun m y => if time_ltb y m then y else m) x xs)
  end.

Definition py_max (l : list time) : result time :=
  match l with
  | [] => Raise ValueError
  | x :: xs => Ok (foldl (fun m y => if time_ltb m y then y else m) x xs)
  end.

(** [f"flow_{flow_real_data.external_id}"]. *)
Definition flow_id (flow_real_data : FlowRealData) : ExternalId :=
  ("flow_" ++ external_id flow_real_data)%string.

(** [if id not in l: l.append(id)]. *)
Definition append_if_new (l : list ExternalId) (id : ExternalId)
    : list ExternalId :=
  if bool_decide (id ∈ l) then l else l ++ [id].

(** The body of the first inner loop, lines 165-173. *)
Definition real_flow_per_time_step (t : time) (flow_real_data : FlowRealData)
    (acc : dict ExternalId Float * list ExternalId)
    : result (dict ExternalId Float * list ExternalId) :=
  let '(flow_per_time_dict, detector_external_id_list) := acc in
  let detector_external_id := flow_id flow_real_data in
  let detector_external_id_list :=
    append_if_new detector_external_id_list detector_external_id in
  let time_in_timedelta := timedelta_of_time t + 15 in
  flow ← dict_getitem (flow_data flow_real_data) time_in_timedelta;
  Ok (dict_setitem flow_per_time_dict detector_external_id
        (fmul flow (float_of_Z 4)),
      detector_external_id_list).

(** The body of the innermost loop of the second part, lines 181-184;
    the chained comparison evaluates [max(time_list)] only when the first
    comparison holds. *)
Definition real_flow_per_detector_step (time_list : list time)
    (item : timedelta * Float) (flow_per_detector_dict : dict time Float)
    : result (dict time Float) :=
  let '(time_key, flow_val) := item in
  let t := time_of_timedelta time_key in
  lowest ← py_min time_list;
  if time_leb lowest t then
    highest ← py_max time_list;
    if time_leb t highest then
      Ok (dict_setitem flow_per_detector_dict t
            (fmul flow_val (float_of_Z 4)))
    else Ok flow_per_detector_dict
  else Ok flow_per_detector_dict.

Definition process_real_flow_data
    (real_flow_dataset : AimsunFlowRealDataSet) (time_list : list time)
    : result (dict time (dict ExternalId Float)
              * dict ExternalId (dict time Float)
              * list ExternalId) :=
  '(real_flow_per_time, detector_external_id_list) ←
    for_each time_list
      (fun t '(real_flow_per_time, detector_external_id_list) =>
         '(flow_per_time_dict, detector_external_id_list) ←
           for_each (flow_data_set real_flow_dataset)
             (real_flow_per_time_step t) ([], detector_external_id_list);
         Ok (dict_setitem real_flow_per_time t flow_per_time_dict,
             detector_external_id_list))
      ([], []);
  real_flow_per_detector ←
    for_each detector_external_id_list
      (fun detector_external_id real_flow_per_detector =>
         flow_per_detector_dict ←
           for_each (flow_data_set real_flow_dataset)
             (fun flow_real_data flow_per_detector_dict =>
                if bool_decide (flow_id flow_real_data = detector_external_id)
                then
                  for_each (dict_items (flow_data flow_real_data))
                    (real_flow_per_detector_step time_list)
                    flow_per_detector_dict
                else Ok flow_per_detector_dict)
             [];
         Ok (dict_setitem real_flow_per_detector detector_external_id
               flow_per_detector_dict))
      [];
  Ok (real_flow_per_time, real_flow_per_detector, detector_external_id_list).

(** The detectors of a data set, each once, in the order of their first
    record. *)
Definition detector_ids (real_flow_dataset : AimsunFlowRealDataSet)
    : list ExternalId :=
  foldl append_if_new [] (flow_id <$> flow_data_set real_flow_dataset).

(** Two detectors of a real data set, with counts at 09:00, 09:15 and
    09:30. *)
Definition sample_real_dataset : AimsunFlowRealDataSet :=
  {| flow_data_set :=
       [ {| external_id := "d1";
            flow_data := [(540, float_of_Z 3); (555, float_of_Z 5);
                          (570, float_of_Z 7)] |};
         {| external_id := "d2";
            flow_data := [(540, float_of_Z 2); (555, float_of_Z 4);
                          (570, float_of_Z 6)] |} ] |}.

(** *** Vocabulary for the properties of the real flow data *)

(** The sample the first part stores for a time and a record: four times
    the count found a quarter of an hour later. *)
Definition real_flow_value (t : time) (flow_real_data : FlowRealData)
    : result Float :=
  flow ← dict_getitem (flow_data flow_real_data) (timedelta_of_time t + 15);
  Ok (fmul flow (float_of_Z 4)).

(** The row the first part builds for a time. *)
Definition real_flow_row (real_flow_dataset : AimsunFlowRealDataSet)
    (t : time) : result (dict ExternalId Float) :=
  for_each (flow_data_set real_flow_dataset) (fun flow_real_data acc =>
      v ← real_flow_value t flow_real_data;
      Ok (dict_setitem acc (flow_id flow_real_data) v)) [].

(** [min(time_list) <= t <= max(time_list)]. *)
Definition in_time_range (time_list : list time) (t : time) : bool :=
  match py_min time_list, py_max time_list with
  | Ok lowest, Ok highest => time_leb lowest t && time_leb t highest
  | _, _ => false
  end.

(** The records of a data set have pairwise distinct identifiers, and
    their counts are keyed within one day. *)
Definition distinct_detectors (real_flow_dataset : AimsunFlowRealDataSet)
    : Prop :=
  NoDup (external_id <$> flow_data_set real_flow_dataset).

Definition keyed_within_a_day (real_flow_dataset : AimsunFlowRealDataSet)
    : Prop :=
  forall flow_real_data, flow_real_data ∈ flow_data_set real_flow_dataset ->
    dict_wf (flow_data flow_real_data) /\
    forall time_key, time_key ∈ dict_keys (flow_data flow_real_data) ->
      time_key < 1440.

(** The row the second part builds for a detector, and the items of the
    records that feed it, in the order the loops meet them. *)
Definition real_flow_detector_row (real_flow_dataset : AimsunFlowRealDataSet)
    (time_list : list time) (detector_external_id : ExternalId)
    : result (dict time Float) :=
  for_each (flow_data_set real_flow_dataset)
    (fun flow_real_data flow_per_detector_dict =>
       if bool_decide (flow_id flow_real_data = detector_external_id) then
         for_each (dict_items (flow_data flow_real_data))
           (real_flow_per_detector_step time_list) flow_per_detector_dict
       else Ok flow_per_detector_dict)
    [].

Definition detector_items (real_flow_dataset : AimsunFlowRealDataSet)
    (detector_external_id : ExternalId) : list (timedelta * Float) :=
  flat_map (fun flow_real_data => dict_items (flow_data flow_real_data))
    (filter (fun flow_real_data =>
               Is_true (bool_decide
                          (flow_id flow_real_data = detector_external_id)))
       (flow_data_set real_flow_dataset)).

(** The two tables, from their rows. *)
Definition real_flow_table (real_flow_dataset : AimsunFlowRealDataSet)
    (time_list : list time) : result (dict time (dict ExternalId Float)) :=
  for_each time_list (fun t acc =>
      row ← real_flow_row real_flow_dataset t; Ok (dict_setitem acc t row))
    [].

Definition real_flow_detector_table (real_flow_dataset : AimsunFlowRealDataSet)
    (time_list : list time) (ids : list ExternalId)
    : result (dict ExternalId (dict time Float)) :=
  for_each ids (fun id acc =>
      row ← real_flow_detector_row real_flow_dataset time_list id;
      Ok (dict_setitem acc id row))
    [].

(** The detector list the function returns. *)
Definition returned_detector_ids (real_flow_dataset : AimsunFlowRealDataSet)
    (time_list : list time) : list ExternalId :=
  match time_list with
  | [] => []
  | _ => detector_ids real_flow_dataset
  end.

(** * Part II: properties *)

(** ** The error monad and loops *)

Lemma bind_Ok {A B : Type} (f : A -> result B) (a : A) : (Ok a ≫= f) = f a.
Proof. reflexivity. Qed.

Lemma bind_inv_Ok {A B : Type} (f : A -> result B) (m : result A) (b : B) :
  (m ≫= f) = Ok b -> exists a, m = Ok a /\ f a = Ok b.
Proof. destruct m as [a|e]; simpl; [eauto | discriminate]. Qed.

Lemma Forall_exists_Forall2 {A B : Type} (R : A -> B -> Prop) (xs : list A) :
  Forall (fun x => exists y, R x y) xs -> exists ys, Forall2 R xs ys.
Proof.
  induction 1 as [|x xs [y Hy] _ [ys Hys]].
  - exists []. constructor.
  - exists (y :: ys). by constructor.
Qed.

(** A loop whose body keeps [P] and cannot fail under [P] runs to the end
    and keeps [P]. *)
Lemma for_each_total {A S : Type} (P : S -> Prop) (body : A -> S -> result S)
    (xs : list A) (s : S) :
  P s ->
  (forall x s, x ∈ xs -> P s -> exists s', body x s = Ok s' /\ P s') ->
  exists s', for_each xs body s = Ok s' /\ P s'.
Proof.
  revert s. induction xs as [|x xs IH]; intros s Hs Hbody; simpl.
  - eauto.
  - destruct (Hbody x s) as (s1 & -> & Hs1); [left | done |]. simpl.
    apply IH; [done|]. intros x' s' Hx'. apply Hbody. by right.
Qed.

(** A property the body preserves holds of whatever the loop returns. *)
Lemma for_each_invariant {A S : Type} (P : S -> Prop)
    (body : A -> S -> result S) (xs : list A) (s s' : S) :
  P s ->
  (forall x s s', P s -> body x s = Ok s' -> P s') ->
  for_each xs body s = Ok s' -> P s'.
Proof.
  intros Hs Hbody. revert s Hs.
  induction xs as [|x xs IH]; intros s Hs; simpl.
  - by intros [= <-].
  - intros Hrun. apply bind_inv_Ok in Hrun as (s1 & Hs1 & Hrun). eauto.
Qed.

(** An exception that leaves the loop was raised by its body. *)
Lemma for_each_Raise_inv {A S : Type} (body : A -> S -> result S)
    (xs : list A) (s : S) (e : exn) :
  for_each xs body s = Raise e -> exists x s0, x ∈ xs /\ body x s0 = Raise e.
Proof.
  revert s. induction xs as [|x xs IH]; intros s; simpl; [discriminate|].
  destruct (body x s) as [s1|e1] eqn:Hb; simpl.
  - intros Hrun. destruct (IH _ Hrun) as (x' & s0 & Hin & Hx').
    exists x', s0. split; [by right | done].
  - intros [= ->]. exists x, s. split; [left | done].
Qed.

(** ** Dictionaries *)

Section DictFacts.
Context {K V : Type} `{EqDecision K}.
Implicit Types (d : dict K V) (k : K) (v : V).

Lemma dict_get_Some_elem d k v : dict_get d k = Some v -> (k, v) ∈ d.
Proof.
  induction d as [|[k' v'] d IH]; simpl; [discriminate|].
  destruct (decide (k = k')) as [->|Hne].
  - intros [= ->]. left.
  - intros Hget. right. auto.
Qed.

Lemma dict_get_None d k : dict_get d k = None <-> k ∉ dict_keys d.
Proof.
  unfold dict_keys. induction d as [|[k' v'] d IH]; simpl.
  - split; [intros _; apply not_elem_of_nil | done].
  - rewrite not_elem_of_cons. destruct (decide (k = k')) as [->|Hne].
    + split; [discriminate | intros [? _]; done].
    + rewrite IH. tauto.
Qed.

Lemma dict_get_is_Some d k : is_Some (dict_get d k) <-> k ∈ dict_keys d.
Proof.
  rewrite <- not_eq_None_Some, dict_get_None.
  destruct (decide (k ∈ dict_keys d)); tauto.
Qed.

Lemma dict_wf_elem_get d k v :
  dict_wf d -> (k, v) ∈ d -> dict_get d k = Some v.
Proof.
  unfold dict_wf, dict_keys.
  induction d as [|[k' v'] d IH]; simpl; intros Hnd Hin.
  - by apply elem_of_nil in Hin.
  - apply NoDup_cons in Hnd as [Hk' Hnd].
    apply elem_of_cons in Hin as [[= -> ->]|Hin].
    + by rewrite decide_True.
    + rewrite decide_False; [auto|].
      intros ->. apply Hk'. apply list_elem_of_fmap. by exists (k', v).
Qed.

Lemma dict_getitem_Ok d k v : dict_getitem d k = Ok v <-> dict_get d k = Some v.
Proof.
  unfold dict_getitem. destruct (dict_get d k); split; congruence.
Qed.

Lemma dict_getitem_Raise d k e :
  dict_getitem d k = Raise e <-> (k ∉ dict_keys d) /\ e = KeyError.
Proof.
  rewrite <- dict_get_None. unfold dict_getitem.
  destruct (dict_get d k); split; try intros [? ?]; try split; congruence.
Qed.

Lemma dict_getitem_elem d k :
  k ∈ dict_keys d -> exists v, dict_getitem d k = Ok v.
Proof.
  intros [v Hv]%dict_get_is_Some. exists v. by apply dict_getitem_Ok.
Qed.

Lemma dict_setitem_fresh d k v :
  k ∉ dict_keys d -> dict_setitem d k v = d ++ [(k, v)].
Proof.
  unfold dict_keys. induction d as [|[k' v'] d IH]; simpl; [done|].
  rewrite not_elem_of_cons. intros [Hne Hnin].
  rewrite decide_False by done. by rewrite IH.
Qed.

(** A comprehension whose keys are pairwise distinct lists its pairs in
    iteration order. *)
Lemma dict_comp_loop_Forall2 {A : Type} (f : A -> result (K * V)) xs kvs acc :
  Forall2 (fun x kv => f x = Ok kv) xs kvs ->
  NoDup (dict_keys (acc ++ kvs)) ->
  for_each xs (fun x acc => kv ← f x; Ok (dict_setitem acc kv.1 kv.2)) acc
  = Ok (acc ++ kvs).
Proof.
  intros HF. revert acc.
  induction HF as [|x [k v] xs kvs Hx _ IH]; intros acc Hnd; simpl.
  - by rewrite app_nil_r.
  - rewrite Hx. simpl.
    rewrite dict_setitem_fresh.
    + rewrite IH; rewrite <- app_assoc; done.
    + unfold dict_keys in *. rewrite fmap_app in Hnd.
      apply NoDup_app in Hnd as (_ & Hdisj & _).
      intros Hin. apply (Hdisj k Hin). simpl. left.
Qed.

Lemma dict_comp_Forall2 {A : Type} (f : A -> result (K * V)) xs kvs :
  Forall2 (fun x kv => f x = Ok kv) xs kvs ->
  NoDup (dict_keys kvs) ->
  dict_comp f xs = Ok kvs.
Proof. intros. by apply (dict_comp_loop_Forall2 f xs kvs []). Qed.

(** A successful comprehension evaluated every element. *)
Lemma dict_comp_inv {A : Type} (f : A -> result (K * V)) xs d :
  dict_comp f xs = Ok d ->
  exists kvs, Forall2 (fun x kv => f x = Ok kv) xs kvs.
Proof.
  unfold dict_comp. generalize (@nil (K * V)) as acc.
  revert d. induction xs as [|x xs IH]; intros d acc; simpl.
  - exists []. constructor.
  - destruct (f x) as [kv|e] eqn:Hx; simpl; [|discriminate].
    intros Hrest. destruct (IH _ _ Hrest) as [kvs Hkvs].
    exists (kv :: kvs). by constructor.
Qed.

(** An exception of a comprehension is the exception of an element. *)
Lemma dict_comp_Raise_inv {A : Type} (f : A -> result (K * V)) xs e :
  dict_comp f xs = Raise e -> exists x, x ∈ xs /\ f x = Raise e.
Proof.
  intros Hr. apply for_each_Raise_inv in Hr as (x & acc & Hin & Hx).
  exists x. split; [done|]. destruct (f x); simpl in Hx; congruence.
Qed.

(** When an element raises and no element raises anything but [e], the
    comprehension raises [e]. *)
Lemma dict_comp_Raise {A : Type} (f : A -> result (K * V)) xs e :
  (exists x, x ∈ xs /\ f x = Raise e) ->
  (forall x e', x ∈ xs -> f x = Raise e' -> e' = e) ->
  dict_comp f xs = Raise e.
Proof.
  intros (x & Hin & Hx) Hall.
  destruct (dict_comp f xs) as [d|e'] eqn:Hc.
  - apply dict_comp_inv in Hc as [kvs Hkvs].
    apply list_elem_of_lookup in Hin as [i Hi].
    destruct (Forall2_lookup_l _ _ _ _ _ Hkvs Hi) as (kv & _ & Hkv).
    congruence.
  - apply dict_comp_Raise_inv in Hc as (x' & Hin' & Hx').
    f_equal. eauto.
Qed.
End DictFacts.

(** ** Transposition *)

Section RevertFacts.
Context {X Y V : Type} `{EqDecision X, EqDecision Y}.
Implicit Types (T : dict X (dict Y V)) (R : dict Y (dict X V)).

Lemma table_row_get T x row :
  dict_wf T -> (x, row) ∈ T -> dict_getitem T x = Ok row.
Proof. intros. by apply dict_getitem_Ok, dict_wf_elem_get. Qed.

Lemma table_row_value T x row : dict_get T x = Some row -> row ∈ dict_values T.
Proof.
  intros Hrow. apply list_elem_of_fmap. exists (x, row).
  split; [done | by apply dict_get_Some_elem].
Qed.

Lemma revert_inner_step_Ok T y x kv :
  (row ← dict_getitem T x; v ← dict_getitem row y; Ok (x, v)) = Ok kv ->
  kv.1 = x /\ dict_get2 T x y = Some kv.2.
Proof.
  intros Hb. apply bind_inv_Ok in Hb as (row & Hrow & Hb).
  apply bind_inv_Ok in Hb as (v & Hv & [= <-]).
  apply dict_getitem_Ok in Hrow, Hv. unfold dict_get2.
  rewrite Hrow. simpl. by rewrite Hv.
Qed.

Lemma revert_inner_Forall2 T y xs kvs :
  Forall2 (fun x kv =>
    (row ← dict_getitem T x; v ← dict_getitem row y; Ok (x, v)) = Ok kv)
    xs kvs ->
  dict_keys kvs = xs /\
  forall x v, (x, v) ∈ kvs -> dict_get2 T x y = Some v.
Proof.
  unfold dict_keys.
  induction 1 as [|x [x' v'] xs kvs Hx _ [IHk IHg]].
  - split; [done|]. intros x v Hin. by apply elem_of_nil in Hin.
  - apply revert_inner_step_Ok in Hx as [Hx1 Hx2]. simpl in Hx1, Hx2.
    subst x'. split; [rewrite fmap_cons; f_equal; exact IHk|].
    intros x0 v0 Hin. apply elem_of_cons in Hin as [[= -> ->]|Hin]; auto.
Qed.

(** A successful inner comprehension has one entry per outer key, the
    sample of [y] under that key. *)
Lemma revert_inner_Ok T y inner :
  dict_wf T -> revert_inner T y = Ok inner ->
  dict_keys inner = dict_keys T /\
  forall x, dict_get inner x = dict_get2 T x y.
Proof.
  intros Hwf Hin.
  destruct (dict_comp_inv _ _ _ Hin) as [kvs Hkvs].
  destruct (revert_inner_Forall2 _ _ _ _ Hkvs) as [Hk Hg].
  assert (inner = kvs) as ->.
  { assert (revert_inner T y = Ok kvs) as Hc.
    { apply dict_comp_Forall2; [done|]. by rewrite Hk. }
    congruence. }
  split; [done|]. intros x.
  destruct (dict_get kvs x) as [v|] eqn:Hx.
  - symmetry. by apply Hg, dict_get_Some_elem.
  - apply dict_get_None in Hx. rewrite Hk in Hx.
    apply dict_get_None in Hx. unfold dict_get2. by rewrite Hx.
Qed.

(** It succeeds as soon as every row has the key. *)
Lemma revert_inner_total T y :
  dict_wf T -> (forall r, r ∈ dict_values T -> y ∈ dict_keys r) ->
  exists inner, revert_inner T y = Ok inner.
Proof.
  intros Hwf Hall.
  destruct (Forall_exists_Forall2 (fun x kv =>
    (row ← dict_getitem T x; v ← dict_getitem row y; Ok (x, v)) = Ok kv)
    (dict_keys T)) as [kvs Hkvs].
  { apply Forall_forall. intros x Hx.
    apply dict_get_is_Some in Hx as [row Hrow].
    destruct (dict_getitem_elem row y) as [v Hv];
      [by eapply Hall, table_row_value|].
    exists (x, v). apply dict_getitem_Ok in Hrow.
    by rewrite Hrow, bind_Ok, Hv. }
  exists kvs. apply dict_comp_Forall2; [done|].
  destruct (revert_inner_Forall2 _ _ _ _ Hkvs) as [-> _]. apply Hwf.
Qed.

Lemma revert_inner_step_Raise T y x e :
  (row ← dict_getitem T x; v ← dict_getitem row y; Ok (x, v)) = Raise e ->
  e = KeyError.
Proof.
  destruct (dict_getitem T x) as [row|e1] eqn:H1; simpl.
  - destruct (dict_getitem row y) as [v|e2] eqn:H2; simpl; [discriminate|].
    apply dict_getitem_Raise in H2 as [_ ->]. congruence.
  - apply dict_getitem_Raise in H1 as [_ ->]. congruence.
Qed.

Lemma revert_inner_only_KeyError T y e :
  revert_inner T y = Raise e -> e = KeyError.
Proof.
  intros Hr. apply dict_comp_Raise_inv in Hr as (x & _ & Hx).
  by apply revert_inner_step_Raise in Hx.
Qed.

(** It raises [KeyError] as soon as one row lacks the key. *)
Lemma revert_inner_Raise T y x row :
  dict_wf T -> (x, row) ∈ T -> y ∉ dict_keys row ->
  revert_inner T y = Raise KeyError.
Proof.
  intros Hwf Hin Hy. apply dict_comp_Raise.
  - exists x. split.
    + apply list_elem_of_fmap. by exists (x, row).
    + rewrite (table_row_get _ _ _ Hwf Hin), bind_Ok.
      assert (dict_getitem row y = Raise KeyError) as ->; [|done].
      by apply dict_getitem_Raise.
  - intros x' e' _ Hx'. by apply revert_inner_step_Raise in Hx'.
Qed.

Lemma revert_nil :
  __revert_dict_of_dict (@nil (X * dict Y V)) = Raise IndexError.
Proof. reflexivity. Qed.

Lemma revert_cons (t0 : X) (r0 : dict Y V) rest :
  __revert_dict_of_dict ((t0, r0) :: rest)
  = revert_outer ((t0, r0) :: rest) (dict_keys r0).
Proof. reflexivity. Qed.

Lemma revert_outer_Forall2 T ys kvs :
  Forall2 (fun y kv => (inner ← revert_inner T y; Ok (y, inner)) = Ok kv)
    ys kvs ->
  dict_keys kvs = ys /\
  forall y inner, (y, inner) ∈ kvs -> revert_inner T y = Ok inner.
Proof.
  unfold dict_keys.
  induction 1 as [|y [y' i'] ys kvs Hy _ [IHk IHg]].
  - split; [done|]. intros y inner Hin. by apply elem_of_nil in Hin.
  - apply bind_inv_Ok in Hy as (inner & Hinner & [= <- <-]).
    split; [rewrite fmap_cons; f_equal; exact IHk|].
    intros y0 i0 Hin. apply elem_of_cons in Hin as [[= -> ->]|Hin]; auto.
Qed.

(** What a successful transposition looks like: one entry per key of the
    first row, each with one sample per outer key. *)
Lemma revert_outer_Ok T ys R :
  dict_wf T -> NoDup ys -> revert_outer T ys = Ok R ->
  dict_keys R = ys /\
  forall y inner, (y, inner) ∈ R ->
    dict_keys inner = dict_keys T /\
    forall x, dict_get inner x = dict_get2 T x y.
Proof.
  intros Hwf Hnd HR.
  destruct (dict_comp_inv _ _ _ HR) as [kvs Hkvs].
  destruct (revert_outer_Forall2 _ _ _ Hkvs) as [Hk Hg].
  assert (R = kvs) as ->.
  { assert (revert_outer T ys = Ok kvs) as Hc.
    { apply dict_comp_Forall2; [done|]. by rewrite Hk. }
    congruence. }
  split; [done|]. intros y inner Hin. apply revert_inner_Ok; auto.
Qed.

Lemma revert_outer_total T ys :
  dict_wf T -> NoDup ys ->
  (forall y r, y ∈ ys -> r ∈ dict_values T -> y ∈ dict_keys r) ->
  exists R, revert_outer T ys = Ok R.
Proof.
  intros Hwf Hnd Hall.
  destruct (Forall_exists_Forall2 (fun y kv =>
    (inner ← revert_inner T y; Ok (y, inner)) = Ok kv) ys) as [kvs Hkvs].
  { apply Forall_forall. intros y Hy.
    destruct (revert_inner_total T y Hwf) as [inner Hinner]; [eauto|].
    exists (y, inner). by rewrite Hinner. }
  exists kvs. apply dict_comp_Forall2; [done|].
  by destruct (revert_outer_Forall2 _ _ _ Hkvs) as [-> _].
Qed.

(** One missing sample is enough for [KeyError]. *)
Lemma revert_outer_Raise T ys y x row :
  dict_wf T -> y ∈ ys -> (x, row) ∈ T -> y ∉ dict_keys row ->
  revert_outer T ys = Raise KeyError.
Proof.
  intros Hwf Hy Hin Hmiss. apply dict_comp_Raise.
  - exists y. split; [done|].
    by rewrite (revert_inner_Raise T y x row).
  - intros y' e' _ Hy'.
    destruct (revert_inner T y') as [inner|e1] eqn:H1; simpl in Hy';
      [discriminate|].
    injection Hy' as <-. by apply revert_inner_only_KeyError in H1.
Qed.

Lemma revert_Ok_transpose_of (t0 : X) (r0 : dict Y V) rest R :
  dict_wf ((t0, r0) :: rest) -> dict_wf r0 ->
  __revert_dict_of_dict ((t0, r0) :: rest) = Ok R ->
  transpose_of ((t0, r0) :: rest) r0 R.
Proof. rewrite revert_cons. intros. by apply revert_outer_Ok. Qed.

Lemma well_formed_first_row T :
  well_formed_table T ->
  exists t0 r0 rest, T = (t0, r0) :: rest /\ dict_wf r0 /\
    forall r, r ∈ dict_values T ->
      dict_wf r /\ forall y, y ∈ dict_keys r <-> y ∈ dict_keys r0.
Proof.
  intros (Hne & [Hwf Hrows] & Huni).
  destruct T as [|[t0 r0] rest]; [done|].
  exists t0, r0, rest. split; [done|].
  assert (r0 ∈ dict_values ((t0, r0) :: rest)) as Hr0 by left.
  rewrite Forall_forall in Hrows. split; [auto|].
  intros r Hr. split; [auto|]. intros y. by apply Huni.
Qed.

(** On a well-formed table the transposition returns. *)
Lemma revert_well_formed T :
  well_formed_table T ->
  exists r0 R, head (dict_values T) = Some r0 /\
    __revert_dict_of_dict T = Ok R /\ transpose_of T r0 R.
Proof.
  intros HT.
  destruct (well_formed_first_row T HT) as (t0 & r0 & rest & -> & Hr0 & Hrows).
  destruct HT as (_ & [Hwf _] & _).
  destruct (revert_outer_total ((t0, r0) :: rest) (dict_keys r0))
    as [R HR]; [done | done | |].
  { intros y r Hy Hr. by apply Hrows. }
  exists r0, R. split; [done|]. rewrite revert_cons. split; [done|].
  by apply revert_outer_Ok.
Qed.

(** Rows over the same keys have the same size. *)
Lemma same_keys_length {A : Type} (d1 d2 : dict Y A) :
  dict_wf d1 -> dict_wf d2 ->
  (forall y, y ∈ dict_keys d1 <-> y ∈ dict_keys d2) ->
  length d1 = length d2.
Proof.
  intros H1 H2 Hkeys.
  rewrite <- (length_fmap fst d1), <- (length_fmap fst d2).
  apply Permutation_length. by apply NoDup_Permutation.
Qed.

Lemma sum_list_const {A : Type} (f : A -> nat) (l : list A) (c : nat) :
  (forall a, a ∈ l -> f a = c) -> sum_list (f <$> l) = length l * c.
Proof.
  induction l as [|a l IH]; intros Hc; csimpl; [done|].
  rewrite (Hc a) by left. rewrite IH; [done|].
  intros a' Ha'. apply Hc. by right.
Qed.

(** [R[y][x]] is [T[x][y]], for the present and for the absent pairs. *)
Lemma transpose_of_pointwise T r0 R :
  well_formed_table T -> head (dict_values T) = Some r0 ->
  transpose_of T r0 R ->
  forall x y, dict_get2 R y x = dict_get2 T x y.
Proof.
  intros HT Hhead [Hkeys Hrows] x y.
  destruct (well_formed_first_row T HT) as (t0 & r0' & rest & -> & Hr0 & HTrows).
  injection Hhead as ->.
  unfold dict_get2 at 1.
  destruct (dict_get R y) as [inner|] eqn:HRy; simpl.
  - apply dict_get_Some_elem in HRy. by apply Hrows.
  - apply dict_get_None in HRy. rewrite Hkeys in HRy.
    unfold dict_get2.
    destruct (dict_get ((t0, r0) :: rest) x) as [row|] eqn:Hx; simpl; [|done].
    symmetry. apply dict_get_None. intros Hy. apply HRy.
    by apply (HTrows row); [eapply table_row_value|].
Qed.

(** The transpose is a table of dictionaries over the same keys; it has
    as many samples as [T]. *)
Lemma transpose_of_wf T r0 R :
  well_formed_table T -> head (dict_values T) = Some r0 ->
  transpose_of T r0 R ->
  table_wf R /\ table_uniform R /\ entry_count R = entry_count T.
Proof.
  intros HT Hhead [Hkeys Hrows].
  destruct (well_formed_first_row T HT) as (t0 & r0' & rest & -> & Hr0 & HTrows).
  injection Hhead as ->.
  destruct HT as (_ & [Hwf _] & _).
  assert (forall inner, inner ∈ dict_values R ->
    dict_keys inner = dict_keys ((t0, r0) :: rest)) as Hinner.
  { intros inner ([y i] & -> & Hin)%list_elem_of_fmap. by apply (Hrows y). }
  split; [split|split].
  - unfold dict_wf. by rewrite Hkeys.
  - apply Forall_forall. intros inner Hin. unfold dict_wf.
    by rewrite (Hinner inner Hin).
  - intros r r' Hr Hr' x. by rewrite (Hinner r Hr), (Hinner r' Hr').
  - unfold entry_count.
    rewrite (sum_list_const _ _ (length ((t0, r0) :: rest))).
    + rewrite (sum_list_const _ _ (length r0)).
      * unfold dict_values. rewrite !length_fmap.
        rewrite <- (length_fmap fst R). fold (dict_keys R). rewrite Hkeys.
        unfold dict_keys. rewrite length_fmap. apply Nat.mul_comm.
      * intros r Hr. destruct (HTrows r Hr). by apply same_keys_length.
    + intros inner Hin. rewrite <- (length_fmap fst inner).
      fold (dict_keys inner). rewrite (Hinner inner Hin).
      unfold dict_keys. by rewrite length_fmap.
Qed.
End RevertFacts.

Section DictEq.
Context {K V : Type} `{EqDecision K}.

Lemma dict_eqb_intro (veq : V -> V -> bool) (d1 d2 : dict K V) :
  length d1 = length d2 ->
  (forall k v, (k, v) ∈ d1 ->
     exists v', dict_get d2 k = Some v' /\ veq v v' = true) ->
  dict_eqb veq d1 d2 = true.
Proof.
  intros Hlen Hall. unfold dict_eqb.
  apply andb_true_intro. split; [by apply Nat.eqb_eq|].
  apply forallb_forall. intros [k v] Hin.
  apply list_elem_of_In in Hin.
  destruct (Hall k v Hin) as (v' & Hv' & Hv). simpl. by rewrite Hv'.
Qed.
End DictEq.

(** Transposing the transpose of a well-formed table with at least one
    entity gives back an equal table. *)
Lemma revert_twice {X Y V : Type} `{EqDecision X, EqDecision Y, EqDecision V}
    (T : dict X (dict Y V)) (r0 : dict Y V) (R : dict Y (dict X V)) :
  well_formed_table T -> table_populated T ->
  head (dict_values T) = Some r0 -> transpose_of T r0 R ->
  exists T', __revert_dict_of_dict R = Ok T' /\ table_eqb T' T = true.
Proof.
  intros HT Hpop Hhead Htr.
  destruct (transpose_of_wf T r0 R HT Hhead Htr) as (HRwf & HRuni & _).
  pose proof (transpose_of_pointwise T r0 R HT Hhead Htr) as Hpt.
  destruct (well_formed_first_row T HT) as (t0 & r0' & rest & -> & Hr0 & HTrows).
  injection Hhead as ->.
  assert (R <> []) as HRne.
  { intros ->. destruct Htr as [Hk _]. apply (Hpop r0); [left|].
    destruct r0; [done | discriminate]. }
  assert (well_formed_table R) as HRT by done.
  destruct (revert_well_formed R HRT) as (i0 & T' & Hhead' & HT' & Htr').
  exists T'. split; [done|].
  destruct (transpose_of_wf R i0 T' HRT Hhead' Htr') as ([HT'wf HT'rows] & _ & _).
  pose proof (transpose_of_pointwise R i0 T' HRT Hhead' Htr') as Hpt'.
  destruct Htr as [HRkeys HRrows], Htr' as [HT'keys HT'rowkeys].
  assert (dict_keys i0 = dict_keys ((t0, r0) :: rest)) as Hi0.
  { destruct R as [|[y0 i0'] R']; [done|]. injection Hhead' as ->.
    apply (HRrows y0). left. }
  destruct HT as (_ & [HTwf _] & _).
  apply dict_eqb_intro.
  - rewrite <- (length_fmap fst T'), <- (length_fmap fst ((t0, r0) :: rest)).
    fold (dict_keys T'). fold (dict_keys ((t0, r0) :: rest)). congruence.
  - intros x row' Hin.
    assert (x ∈ dict_keys ((t0, r0) :: rest)) as [row Hrow]%dict_get_is_Some.
    { rewrite <- Hi0, <- HT'keys. apply list_elem_of_fmap. by exists (x, row'). }
    exists row. split; [done|].
    destruct (HT'rowkeys x row' Hin) as [Hrow'keys _].
    assert (dict_wf row') as Hrow'wf.
    { rewrite Forall_forall in HT'rows. apply HT'rows.
      apply list_elem_of_fmap. by exists (x, row'). }
    destruct (HTrows row (table_row_value _ _ _ Hrow)) as [Hrowwf Hrowkeys].
    apply dict_eqb_intro.
    + apply same_keys_length; [done | done |].
      intros y. rewrite Hrow'keys, HRkeys. symmetry. apply Hrowkeys.
    + intros y v Hyv. exists v. split; [|by apply bool_decide_eq_true].
      apply (dict_wf_elem_get _ _ _ Hrow'wf) in Hyv.
      pose proof (Hpt x y) as H1. pose proof (Hpt' y x) as H2.
      unfold dict_get2 in H1 at 2. rewrite Hrow in H1. simpl in H1.
      rewrite <- H1, <- H2. unfold dict_get2.
      rewrite (dict_wf_elem_get _ _ _ HT'wf Hin). simpl. by symmetry.
Qed.

(** Decidable side conditions on concrete data. *)
Ltac solve_by_decide :=
  unfold dict_wf, dict_keys;
  match goal with
  | |- ?P => apply (bool_decide_unpack P); vm_compute; exact I
  end.

(** The example of the specification: the sample table transposes to
    [{"d1": {09:00: 10.0, 09:15: 12.0}, "d2": {09:00: 20.0, 09:15: 18.0}}]. *)
Example revert_sample_table :
  __revert_dict_of_dict sample_table
  = Ok [ ("d1"%string, [(t0900, float_of_Z 10); (t0915, float_of_Z 12)]);
         ("d2"%string, [(t0900, float_of_Z 20); (t0915, float_of_Z 18)]) ].
Proof. reflexivity. Qed.

Lemma sample_table_well_formed :
  well_formed_table sample_table /\ table_populated sample_table.
Proof.
  assert (forall r, r ∈ dict_values sample_table ->
    dict_keys r = ["d1"%string; "d2"%string]) as Hkeys.
  { intros r Hr. unfold sample_table, dict_values in Hr.
    rewrite !fmap_cons, fmap_nil in Hr. simpl in Hr.
    repeat (apply elem_of_cons in Hr as [->|Hr]; [reflexivity|]).
    by apply elem_of_nil in Hr. }
  split; [split; [done | split; [split|]]|].
  - solve_by_decide.
  - apply Forall_forall. intros r Hr. unfold dict_wf.
    rewrite (Hkeys r Hr). solve_by_decide.
  - intros r r' Hr Hr' y. by rewrite (Hkeys r Hr), (Hkeys r' Hr').
  - intros r Hr ->. by specialize (Hkeys _ Hr).
Defined.

(** ** The claims about the transposition *)

(** C1, as stated, fails: the table [{09:00: {}}] is well formed (it is not
    empty and every time key holds the same, empty, set of entities); its
    transpose is the empty dictionary, and transposing that raises
    [IndexError] instead of returning the table. *)
Lemma C1_counterexample_bare_table :
  well_formed_table bare_table /\
  __revert_dict_of_dict bare_table = Ok [] /\
  __revert_dict_of_dict (@nil (ExternalId * dict time Float))
    = Raise IndexError /\
  ~ (exists R T', __revert_dict_of_dict bare_table = Ok R /\
       __revert_dict_of_dict R = Ok T' /\ table_eqb T' bare_table = true).
Proof.
  split; [|split; [reflexivity | split; [reflexivity|]]].
  - split; [done | split; [split|]].
    + solve_by_decide.
    + repeat constructor.
    + intros r r' Hr Hr' y. unfold bare_table, dict_values in Hr, Hr'.
      apply list_elem_of_singleton in Hr, Hr'. by subst.
  - intros (R & T' & HR & HT' & _).
    assert (__revert_dict_of_dict bare_table = Ok []) as H0 by reflexivity.
    rewrite H0 in HR. injection HR as <-. discriminate HT'.
Qed.

(** C1 (amended): for every well-formed Time-Keyed Table [T] (not empty,
    the same set of entity identifiers under every time key) that holds at
    least one entity, the transposition returns a table [R] with
    [R[e][t] == T[t][e]] for every time key [t] and entity [e] (an absent
    sample is absent on both sides, so nothing is dropped and nothing is
    added), [R] and its rows are dictionaries (no key occurs twice) with as
    many samples as [T], and transposing [R] returns a table equal to
    [T]. *)
Theorem C1_revert_transpose_round_trip
    {X Y V : Type} `{EqDecision X, EqDecision Y, EqDecision V}
    (T : dict X (dict Y V)) :
  well_formed_table T -> table_populated T ->
  exists R, __revert_dict_of_dict T = Ok R /\
    (forall t e, dict_get2 R e t = dict_get2 T t e) /\
    table_wf R /\ entry_count R = entry_count T /\
    exists T', __revert_dict_of_dict R = Ok T' /\ table_eqb T' T = true.
Proof.
  intros HT Hpop.
  destruct (revert_well_formed T HT) as (r0 & R & Hhead & HR & Htr).
  exists R. split; [done|].
  split; [by eapply transpose_of_pointwise|].
  destruct (transpose_of_wf T r0 R HT Hhead Htr) as (HRwf & _ & Hcount).
  split; [done|]. split; [done|]. by eapply revert_twice.
Qed.

Lemma C1_witness_sample_table :
  exists R, __revert_dict_of_dict sample_table = Ok R /\
    (forall t e, dict_get2 R e t = dict_get2 sample_table t e) /\
    table_wf R /\ entry_count R = entry_count sample_table /\
    exists T', __revert_dict_of_dict R = Ok T' /\
      table_eqb T' sample_table = true.
Proof.
  apply (C1_revert_transpose_round_trip sample_table).
  - exact (proj1 sample_table_well_formed).
  - exact (proj2 sample_table_well_formed).
Defined.

(** On a well-formed table without any entity the first transposition
    still returns, and is the transpose. *)
Lemma revert_well_formed_transposes
    {X Y V : Type} `{EqDecision X, EqDecision Y} (T : dict X (dict Y V)) :
  well_formed_table T ->
  exists R, __revert_dict_of_dict T = Ok R /\
    (forall t e, dict_get2 R e t = dict_get2 T t e) /\
    table_wf R /\ entry_count R = entry_count T.
Proof.
  intros HT.
  destruct (revert_well_formed T HT) as (r0 & R & Hhead & HR & Htr).
  exists R. split; [done|].
  split; [by eapply transpose_of_pointwise|].
  by destruct (transpose_of_wf T r0 R HT Hhead Htr) as (HRwf & _ & Hcount).
Qed.

(** C4, as stated, fails: in the ragged table the time key 09:15 lacks the
    entity ["d2"] of the first time key, and the transposition raises
    [KeyError]; it returns no table with the sample left out. *)
Lemma C4_counterexample_ragged_table :
  __revert_dict_of_dict ragged_table = Raise KeyError /\
  ~ (exists R, __revert_dict_of_dict ragged_table = Ok R).
Proof.
  assert (__revert_dict_of_dict ragged_table = Raise KeyError) as Hr
    by reflexivity.
  split; [done|]. intros [R HR]. congruence.
Qed.

(** C4 (amended): for every non-empty Time-Keyed Table in which some time
    key is missing an entity that is present under the first time key, the
    transposition raises the missing-key error ([KeyError]) and returns no
    result; the entity set of the first time key is authoritative for which
    entities appear in a result: whenever the transposition returns, the
    result has exactly the entities of the first time key, in their
    order. *)
Theorem C4_revert_missing_entity_raises
    {X Y V : Type} `{EqDecision X, EqDecision Y}
    (t0 : X) (r0 : dict Y V) (rest : dict X (dict Y V)) :
  dict_wf ((t0, r0) :: rest) -> dict_wf r0 ->
  ((exists t row e, (t, row) ∈ (t0, r0) :: rest /\
      e ∈ dict_keys r0 /\ e ∉ dict_keys row) ->
   __revert_dict_of_dict ((t0, r0) :: rest) = Raise MissingKeyError) /\
  (forall R, __revert_dict_of_dict ((t0, r0) :: rest) = Ok R ->
     dict_keys R = dict_keys r0).
Proof.
  intros Hwf Hr0. split.
  - intros (t & row & e & Hin & He & Hmiss). rewrite revert_cons.
    by apply (revert_outer_Raise _ _ e t row).
  - intros R HR. by destruct (revert_Ok_transpose_of t0 r0 rest R Hwf Hr0 HR).
Qed.

Lemma C4_witness_ragged_table :
  __revert_dict_of_dict ragged_table = Raise MissingKeyError.
Proof.
  refine (proj1 (C4_revert_missing_entity_raises t0900
    [("d1"%string, float_of_Z 10); ("d2"%string, float_of_Z 20)]
    [(t0915, [("d1"%string, float_of_Z 12)])] _ _) _).
  - solve_by_decide.
  - solve_by_decide.
  - exists t0915, [("d1"%string, float_of_Z 12)], "d2"%string.
    split; [right; left | split].
    + right; left.
    + solve_by_decide.
Defined.

(** C7: applied to an empty Time-Keyed Table, the transposition fails:
    [list(dict_to_return.values())[0]] finds no first row, which is the
    specification's [EmptyInputError]. *)
Theorem C7_revert_empty_table_fails
    {X Y V : Type} `{EqDecision X, EqDecision Y} :
  __revert_dict_of_dict (@nil (X * dict Y V)) = Raise EmptyInputError.
Proof. reflexivity. Qed.

(** ** Paired real and simulated flow *)

Section FlowFacts.
Context {V : Type}.
Implicit Types (real sim : dict time (dict ExternalId V)).
Implicit Types (real_row sim_row : dict ExternalId V).

Lemma collect_all_step_Ok sim_row e v r s :
  e ∈ dict_keys sim_row ->
  exists sv, dict_get sim_row e = Some sv /\
    collect_all_step sim_row (e, v) (r, s) = Ok (r ++ [v], s ++ [sv]).
Proof.
  intros [sv Hsv]%dict_get_is_Some. exists sv. split; [done|].
  unfold collect_all_step. apply dict_getitem_Ok in Hsv. by rewrite Hsv.
Qed.

Lemma collect_all_step_paired sim_row item acc acc' :
  paired acc -> collect_all_step sim_row item acc = Ok acc' -> paired acc'.
Proof.
  destruct item as [e v], acc as [r s]. unfold paired, collect_all_step.
  simpl. intros Hlen Hstep.
  apply bind_inv_Ok in Hstep as (sv & _ & [= <-]). simpl.
  rewrite !length_app. simpl. lia.
Qed.

Lemma collect_all_step_Raise sim_row item acc e :
  collect_all_step sim_row item acc = Raise e -> e = KeyError.
Proof.
  destruct item as [k v], acc as [r s]. unfold collect_all_step.
  destruct (dict_getitem sim_row k) eqn:Hg; simpl; [discriminate|].
  apply dict_getitem_Raise in Hg as [_ ->]. congruence.
Qed.

Lemma collect_city_pems_step_Ok cid sim_row e v acc :
  e ∈ dict_keys sim_row -> paired acc.1 -> paired acc.2 ->
  exists acc', collect_city_pems_step cid sim_row (e, v) acc = Ok acc' /\
    paired acc'.1 /\ paired acc'.2.
Proof.
  intros [sv Hsv]%dict_get_is_Some. apply dict_getitem_Ok in Hsv.
  destruct acc as [[cr cs] [pr ps]]. unfold paired, collect_city_pems_step.
  simpl. intros Hc Hp. rewrite Hsv.
  destruct (str_contains cid e); simpl; eexists; (split; [reflexivity|]);
    simpl; rewrite !length_app; simpl; lia.
Qed.

Lemma collect_city_pems_step_paired cid sim_row item acc acc' :
  paired acc.1 /\ paired acc.2 ->
  collect_city_pems_step cid sim_row item acc = Ok acc' ->
  paired acc'.1 /\ paired acc'.2.
Proof.
  destruct item as [e v], acc as [[cr cs] [pr ps]].
  unfold paired, collect_city_pems_step. simpl. intros [Hc Hp].
  destruct (str_contains cid e); intros Hstep;
    apply bind_inv_Ok in Hstep as (sv & _ & [= <-]); simpl;
    rewrite !length_app; simpl; lia.
Qed.

Lemma collect_city_pems_step_Raise cid sim_row item acc e :
  collect_city_pems_step cid sim_row item acc = Raise e -> e = KeyError.
Proof.
  destruct item as [k v], acc as [[cr cs] [pr ps]].
  unfold collect_city_pems_step.
  destruct (dict_getitem sim_row k) eqn:Hg;
    [destruct (str_contains cid k); discriminate|].
  apply dict_getitem_Raise in Hg as [_ ->].
  destruct (str_contains cid k); simpl; congruence.
Qed.

Section TimeStep.
Context {S : Type} (inner : dict ExternalId V -> ExternalId * V -> S -> result S).

(** With both rows present the outer body is the inner loop. *)
Lemma collect_time_step_rows real sim t acc real_row sim_row :
  dict_get real t = Some real_row -> dict_get sim t = Some sim_row ->
  collect_time_step real sim inner t acc
  = for_each (dict_items real_row) (inner sim_row) acc.
Proof.
  intros Hreal%dict_getitem_Ok Hsim%dict_getitem_Ok.
  unfold collect_time_step. by rewrite Hreal, Hsim.
Qed.

(** The outer body keeps what the inner body keeps. *)
Lemma collect_time_step_invariant (P : S -> Prop) real sim t acc acc' :
  (forall sim_row item acc acc',
     P acc -> inner sim_row item acc = Ok acc' -> P acc') ->
  P acc -> collect_time_step real sim inner t acc = Ok acc' -> P acc'.
Proof.
  intros Hinner Hacc Hstep. unfold collect_time_step in Hstep.
  apply bind_inv_Ok in Hstep as (real_row & _ & Hstep).
  apply bind_inv_Ok in Hstep as (sim_row & _ & Hstep).
  eapply for_each_invariant; [exact Hacc | | exact Hstep].
  intros item. apply Hinner.
Qed.

(** It raises nothing but [KeyError] when the inner body does not. *)
Lemma collect_time_step_Raise real sim t acc e :
  (forall sim_row item acc e,
     inner sim_row item acc = Raise e -> e = KeyError) ->
  collect_time_step real sim inner t acc = Raise e -> e = KeyError.
Proof.
  intros Hinner. unfold collect_time_step.
  destruct (dict_getitem real t) as [real_row|e1] eqn:H1; simpl.
  - destruct (dict_getitem sim t) as [sim_row|e2] eqn:H2; simpl.
    + intros (item & acc0 & _ & Hitem)%for_each_Raise_inv. eauto.
    + apply dict_getitem_Raise in H2 as [_ ->]. congruence.
  - apply dict_getitem_Raise in H1 as [_ ->]. congruence.
Qed.

(** It returns when the time and the entities are present and the inner
    body returns on present entities. *)
Lemma collect_time_step_total (P : S -> Prop) real sim tl t acc :
  (forall sim_row e v acc, e ∈ dict_keys sim_row -> P acc ->
     exists acc', inner sim_row (e, v) acc = Ok acc' /\ P acc') ->
  times_present real sim tl -> entities_present real sim tl ->
  t ∈ tl -> P acc ->
  exists acc', collect_time_step real sim inner t acc = Ok acc' /\ P acc'.
Proof.
  intros Hinner Htimes Hents Ht Hacc. unfold collect_time_step.
  destruct (Htimes t Ht) as
    [[real_row Hreal]%dict_get_is_Some [sim_row Hsim]%dict_get_is_Some].
  pose proof Hreal as Hreal'. pose proof Hsim as Hsim'.
  apply dict_getitem_Ok in Hreal', Hsim'. rewrite Hreal', Hsim'. simpl.
  apply for_each_total; [done|].
  intros [e v] acc0 Hin Hacc0. apply Hinner; [|done].
  apply (Hents t real_row sim_row Ht Hreal Hsim).
  apply list_elem_of_fmap. by exists (e, v).
Qed.
End TimeStep.

(** The inner loop without classifier, in closed form. *)
Lemma collect_all_inner real_row sim_row r s :
  (forall e, e ∈ dict_keys real_row -> e ∈ dict_keys sim_row) ->
  for_each (dict_items real_row) (collect_all_step sim_row) (r, s)
  = Ok (r ++ dict_values real_row,
        s ++ flat_map (fun entity =>
               match dict_get sim_row entity with
               | Some v => [v]
               | None => []
               end) (dict_keys real_row)).
Proof.
  unfold dict_items, dict_values, dict_keys.
  revert r s. induction real_row as [|[e v] real_row IH]; intros r s Hin.
  - simpl. by rewrite !app_nil_r.
  - destruct (collect_all_step_Ok sim_row e v r s) as (sv & Hsv & Hstep).
    { apply Hin. left. }
    cbn [for_each]. rewrite Hstep. rewrite bind_Ok, IH.
    + rewrite !fmap_cons. cbn [flat_map fst snd]. rewrite Hsv.
      by rewrite <- !app_assoc.
    + intros e' He'. apply Hin. rewrite fmap_cons. by right.
Qed.

(** The outer loop without classifier, in closed form. *)
Lemma collect_all_outer real sim tl0 tl r s :
  times_present real sim tl0 -> entities_present real sim tl0 ->
  tl ⊆ tl0 ->
  for_each tl (collect_time_step real sim collect_all_step) (r, s)
  = Ok (r ++ real_sequence real tl, s ++ simulated_sequence real sim tl).
Proof.
  intros Htimes Hents. revert r s.
  induction tl as [|t tl IH]; intros r s Hsub.
  - simpl. by rewrite !app_nil_r.
  - assert (t ∈ tl0) as Ht by (apply Hsub; left).
    destruct (Htimes t Ht) as
      [[real_row Hreal]%dict_get_is_Some [sim_row Hsim]%dict_get_is_Some].
    cbn [for_each].
    rewrite (collect_time_step_rows _ real sim t (r, s) real_row sim_row)
      by done.
    rewrite collect_all_inner by (by apply (Hents t real_row sim_row)).
    rewrite bind_Ok, IH.
    + unfold real_sequence, simulated_sequence. cbn [flat_map].
      rewrite Hreal, Hsim. by rewrite <- !app_assoc.
    + intros t' Ht'. apply Hsub. by right.
Qed.

(** Whatever the inputs, a returned result is balanced and the only
    exception is [KeyError]: the [assert]s never fail. *)
Lemma convert_flow_balanced real sim tl cid :
  (forall res, convert_flow_per_time_to_list real sim tl cid = Ok res ->
     balanced res) /\
  (forall e, convert_flow_per_time_to_list real sim tl cid = Raise e ->
     e = KeyError).
Proof.
  unfold convert_flow_per_time_to_list. destruct cid as [cid|].
  - destruct (for_each tl _ _) as [[[cr cs] [pr ps]]|e0] eqn:Hloop; simpl.
    + assert (paired (cr, cs) /\ paired (pr, ps)) as [Hc Hp].
      { refine (for_each_invariant
          (fun acc => paired acc.1 /\ paired acc.2) _ _ _ _ _ _ Hloop);
          [done|].
        intros t acc acc'.
        apply (collect_time_step_invariant _
                 (fun acc => paired acc.1 /\ paired acc.2)).
        intros ?. apply collect_city_pems_step_paired. }
      unfold paired in Hc, Hp. simpl in Hc, Hp.
      rewrite Hc, Hp, !Nat.eqb_refl. simpl.
      split; [by intros res [= <-] | discriminate].
    + split; [discriminate|]. intros e [= <-].
      apply for_each_Raise_inv in Hloop as (t & acc & _ & Hstep).
      apply collect_time_step_Raise in Hstep; [done|].
      intros ?. apply collect_city_pems_step_Raise.
  - destruct (for_each tl _ _) as [[r s]|e0] eqn:Hloop; simpl.
    + assert (paired (r, s)) as Hrs.
      { refine (for_each_invariant paired _ _ _ _ _ _ Hloop); [done|].
        intros t acc acc'. apply (collect_time_step_invariant _ paired).
        intros ?. apply collect_all_step_paired. }
      unfold paired in Hrs. simpl in Hrs. rewrite Hrs, Nat.eqb_refl. simpl.
      split; [by intros res [= <-] | discriminate].
    + split; [discriminate|]. intros e [= <-].
      apply for_each_Raise_inv in Hloop as (t & acc & _ & Hstep).
      apply collect_time_step_Raise in Hstep; [done|].
      intros ?. apply collect_all_step_Raise.
Qed.

(** With the times and the entities present, the function returns. *)
Lemma convert_flow_total real sim tl cid :
  times_present real sim tl -> entities_present real sim tl ->
  exists res, convert_flow_per_time_to_list real sim tl cid = Ok res.
Proof.
  intros Htimes Hents.
  destruct (convert_flow_per_time_to_list real sim tl cid) as [res|e] eqn:Hc;
    [eauto|].
  exfalso. unfold convert_flow_per_time_to_list in Hc.
  destruct cid as [cid|].
  - destruct (for_each_total (fun acc => paired acc.1 /\ paired acc.2)
      (collect_time_step real sim (collect_city_pems_step cid)) tl
      (([], []), ([], []))) as ([[cr cs] [pr ps]] & Hloop & Hc' & Hp');
      [done | |].
    { intros t acc Ht Hacc.
      eapply collect_time_step_total; [|done|done|done|done].
      intros sim_row e' v acc0 He' [H1 H2].
      by apply collect_city_pems_step_Ok. }
    rewrite Hloop in Hc. simpl in Hc.
    unfold paired in Hc', Hp'. simpl in Hc', Hp'.
    by rewrite Hc', Hp', !Nat.eqb_refl in Hc.
  - destruct (for_each_total paired
      (collect_time_step real sim collect_all_step) tl ([], []))
      as ([r s] & Hloop & Hp); [done | |].
    { intros t acc Ht Hacc.
      eapply collect_time_step_total; [|done|done|done|done].
      intros sim_row e' v [r s] He' Hacc0.
      destruct (collect_all_step_Ok sim_row e' v r s He') as (sv & _ & ->).
      eexists. split; [done|]. unfold paired in *. simpl in *.
      rewrite !length_app. simpl. lia. }
    rewrite Hloop in Hc. simpl in Hc.
    unfold paired in Hp. simpl in Hp.
    by rewrite Hp, Nat.eqb_refl in Hc.
Qed.
End FlowFacts.

(** In a dictionary, the values in order are the values of the keys in
    order. *)
Lemma dict_values_by_key {K V : Type} `{EqDecision K} (d : dict K V) :
  dict_wf d ->
  flat_map (fun k => match dict_get d k with Some v => [v] | None => [] end)
    (dict_keys d)
  = dict_values d.
Proof.
  unfold dict_wf, dict_keys, dict_values.
  induction d as [|[k v] d IH]; intros Hnd; [done|].
  rewrite !fmap_cons in *. apply NoDup_cons in Hnd as [Hk Hnd].
  cbn [flat_map fst snd dict_get]. rewrite decide_True by done.
  simpl. f_equal. rewrite <- (IH Hnd).
  clear IH Hnd. induction (d.*1) as [|k' ks IHks]; [done|].
  apply not_elem_of_cons in Hk as [Hne Hk].
  cbn [flat_map]. rewrite decide_False by done. by rewrite IHks.
Qed.

(** The real samples in order are the samples [real_table[time][entity]]
    for the entities of each row in order. *)
Lemma real_sequence_by_entity {V : Type}
    (real_table : dict time (dict ExternalId V)) (time_list : list time) :
  (forall t row, dict_get real_table t = Some row -> dict_wf row) ->
  real_sequence real_table time_list
  = simulated_sequence real_table real_table time_list.
Proof.
  intros Hwf. unfold real_sequence, simulated_sequence.
  induction time_list as [|t tl IH]; [done|].
  cbn [flat_map]. rewrite IH. f_equal.
  destruct (dict_get real_table t) as [row|] eqn:Hrow; [|done].
  symmetry. by apply dict_values_by_key, (Hwf t).
Qed.

Lemma sample_flow_tables_present :
  times_present sample_real_table sample_simulated_table [t0900] /\
  entities_present sample_real_table sample_simulated_table [t0900].
Proof.
  split.
  - intros t ->%list_elem_of_singleton. split; solve_by_decide.
  - intros t real_row sim_row ->%list_elem_of_singleton [= <-] [= <-] e He.
    exact He.
Defined.

(** ** The claims about the paired flow sequences *)

(** C2: for every pair of Time-Keyed Tables and every time list such that
    each listed time is in both tables and every entity of the real row is
    in the simulated row, the call without classifier returns the two
    sequences obtained by going through the times in [time_list] order
    and, within a time, through the entities of the real row in their
    order, taking the real sample for the first sequence and the simulated
    sample for the second; on the tables [{09:00: {"d1": 10.0}}] and
    [{09:00: {"d1": 8.0}}] with the time list [[09:00]] it returns
    [([10.0], [8.0])]. *)
Theorem C2_collect_without_classifier :
  (forall (V : Type) (real_table simulated_table : dict time (dict ExternalId V))
          (time_list : list time),
     times_present real_table simulated_table time_list ->
     entities_present real_table simulated_table time_list ->
     convert_flow_per_time_to_list real_table simulated_table time_list None
     = Ok (AllFlow (real_sequence real_table time_list)
             (simulated_sequence real_table simulated_table time_list))) /\
  convert_flow_per_time_to_list sample_real_table sample_simulated_table
    [t0900] None
  = Ok (AllFlow [float_of_Z 10] [float_of_Z 8]).
Proof.
  split; [|reflexivity].
  intros V real sim tl Htimes Hents.
  destruct (convert_flow_total real sim tl None Htimes Hents) as [res Hres].
  rewrite Hres. unfold convert_flow_per_time_to_list in Hres.
  rewrite (collect_all_outer real sim tl tl [] []) in Hres by done.
  simpl in Hres.
  destruct (py_assert _) as [[]|e]; simpl in Hres; congruence.
Qed.

Lemma C2_witness_sample_tables :
  convert_flow_per_time_to_list sample_real_table sample_simulated_table
    [t0900] None
  = Ok (AllFlow (real_sequence sample_real_table [t0900])
          (simulated_sequence sample_real_table sample_simulated_table
             [t0900])).
Proof.
  apply (proj1 C2_collect_without_classifier).
  - exact (proj1 sample_flow_tables_present).
  - exact (proj2 sample_flow_tables_present).
Defined.

(** C3: whenever every listed time is in both tables and every entity of
    the real row is in the simulated row, the function returns, with or
    without classifier, and what it returns is balanced: the real and the
    simulated component have the same length, for each of the two
    partitions when there is a classifier.  On every input a returned
    result is balanced and the length assertions never fail. *)
Theorem C3_paired_sequences_balanced (V : Type) :
  (forall (real_table simulated_table : dict time (dict ExternalId V))
          (time_list : list time) (city_common_id : option string),
     times_present real_table simulated_table time_list ->
     entities_present real_table simulated_table time_list ->
     exists res,
       convert_flow_per_time_to_list real_table simulated_table time_list
         city_common_id = Ok res /\ balanced res) /\
  (forall (real_table simulated_table : dict time (dict ExternalId V))
          (time_list : list time) (city_common_id : option string),
     (forall res,
        convert_flow_per_time_to_list real_table simulated_table time_list
          city_common_id = Ok res -> balanced res) /\
     convert_flow_per_time_to_list real_table simulated_table time_list
       city_common_id <> Raise LengthMismatchError).
Proof.
  split.
  - intros real sim tl cid Htimes Hents.
    destruct (convert_flow_total real sim tl cid Htimes Hents) as [res Hres].
    exists res. split; [done|].
    by apply (convert_flow_balanced real sim tl cid).
  - intros real sim tl cid.
    destruct (convert_flow_balanced real sim tl cid) as [Hok Herr].
    split; [done|]. intros Hr. by apply Herr in Hr.
Qed.

Lemma C3_witness_sample_tables :
  exists res,
    convert_flow_per_time_to_list sample_real_table sample_simulated_table
      [t0900] (Some "d"%string) = Ok res /\ balanced res.
Proof.
  apply (proj1 (C3_paired_sequences_balanced Float)).
  - exact (proj1 sample_flow_tables_present).
  - exact (proj2 sample_flow_tables_present).
Defined.

(** The sample tables with the classifier ["d"]: the only detector is a
    city detector. *)
Example convert_sample_tables_classified :
  convert_flow_per_time_to_list sample_real_table sample_simulated_table
    [t0900] (Some "d"%string)
  = Ok (CityPemsFlow [float_of_Z 10] [float_of_Z 8] [] []).
Proof. reflexivity. Qed.

(** A listed time the simulated table lacks raises [KeyError]. *)
Example convert_missing_time :
  convert_flow_per_time_to_list sample_real_table [] [t0900] None
  = Raise MissingKeyError
  /\ convert_flow_per_time_to_list sample_real_table
       [(t0900, @nil (ExternalId * Float))] [t0900] None
     = Raise MissingKeyError.
Proof. split; reflexivity. Qed.

(** ** Linear regression *)

(** An absolute value is never below zero, and is at least zero unless it
    is a NaN. *)
Lemma SFabs_non_negative (b : Float) :
  SFltb (SFabs b) fzero = false /\
  (is_nan (SFabs b) = false -> SFleb fzero (SFabs b) = true).
Proof. destruct b as [s|s| |s m e]; simpl; split; done. Qed.

Lemma SFabs_fzero : SFabs fzero = fzero.
Proof. reflexivity. Qed.

(** The reference Regression Utility honours the documented contract. *)
#[global] Instance ols_contract : RegressionContract ols.
Proof.
  split; intros x y m; simpl; unfold ols_fit;
    destruct (length x =? 0)%nat; try discriminate;
    destruct (negb (length x =? length y)%nat); try discriminate;
    intros [= <-]; simpl; eauto.
Qed.

Section RegressionFacts.
Context (lr : RegressionUtility) `{!RegressionContract lr}.

(** The intercept the function goes on with, from the fitted one. *)
Lemma fitted_intercept enforce x y m :
  lr_fit (negb enforce) x y = Ok m ->
  exists b,
    (if negb enforce then intercept_getitem0 (py_abs (intercept_ m))
     else Ok (py_abs (intercept_ m))) = Ok (Scalar (SFabs b)) /\
    (if enforce then b = fzero /\ intercept_ m = Scalar fzero
     else intercept_ m = Array1 [b]).
Proof.
  destruct enforce; simpl; intros Hfit.
  - exists fzero. by rewrite (fit_no_intercept _ _ _ Hfit).
  - destruct (fit_with_intercept _ _ _ Hfit) as [b Hb].
    exists b. by rewrite Hb.
Qed.

(** What a returned tuple is made of. *)
Lemma get_linear_regression_Ok x y enforce res :
  get_linear_regression x y enforce = Ok res ->
  exists m r_sq max_val b,
    lr_fit (negb enforce) x y = Ok m /\
    lr_score m x y = Ok r_sq /\ np_max x = Ok max_val /\
    (if enforce then b = fzero /\ intercept_ m = Scalar fzero
     else intercept_ m = Array1 [b]) /\
    res = (coef_ m, Scalar (SFabs b), r_sq, max_val,
           predict x (coef_ m) (py_abs (intercept_ m))).
Proof.
  unfold get_linear_regression. intros Hrun.
  apply bind_inv_Ok in Hrun as (m & Hfit & Hrun).
  apply bind_inv_Ok in Hrun as (r_sq & Hscore & Hrun).
  apply bind_inv_Ok in Hrun as (max_val & Hmax & Hrun).
  apply bind_inv_Ok in Hrun as (i & Hi & [= <-]).
  destruct (fitted_intercept enforce x y m Hfit) as (b & Hb & Hshape).
  exists m, r_sq, max_val, b. repeat (split; [done|]). congruence.
Qed.

(** It returns as soon as the Regression Utility does and [x] has an
    entry. *)
Lemma get_linear_regression_total x y enforce m r_sq :
  x <> [] ->
  lr_fit (negb enforce) x y = Ok m -> lr_score m x y = Ok r_sq ->
  exists res, get_linear_regression x y enforce = Ok res.
Proof.
  intros Hx Hfit Hscore. unfold get_linear_regression.
  rewrite Hfit, bind_Ok, Hscore, bind_Ok.
  destruct x as [|x0 x]; [done|]. cbn [np_max]. rewrite bind_Ok.
  destruct (fitted_intercept enforce (x0 :: x) y m Hfit) as (b & -> & _).
  eauto.
Qed.
End RegressionFacts.

(** The example of the specification:
    [fit_linear_relationship([1,2,3], [2,4,6], force_zero_intercept=True)]
    gives slope 2.0, intercept 0.0 and a coefficient of determination 1.0
    (on the reference Regression Utility). *)
Example get_linear_regression_sample :
  get_linear_regression (lr := ols)
    [float_of_Z 1; float_of_Z 2; float_of_Z 3]
    [float_of_Z 2; float_of_Z 4; float_of_Z 6] true
  = Ok (float_of_Z 2, Scalar fzero, float_of_Z 1, float_of_Z 3,
        [[float_of_Z 2]; [float_of_Z 4]; [float_of_Z 6]]).
Proof. vm_compute. reflexivity. Qed.

(** A fitted intercept below zero comes back without its sign: through
    (1, 2), (2, 4), (3, 7) the line has intercept -2/3, and 2/3 is
    returned. *)
Example get_linear_regression_negative_intercept :
  exists slope i r_sq max_val yhat,
    get_linear_regression (lr := ols)
      [float_of_Z 1; float_of_Z 2; float_of_Z 3]
      [float_of_Z 2; float_of_Z 4; float_of_Z 7] false
    = Ok (slope, Scalar (SFabs i), r_sq, max_val, yhat) /\
    lr_fit (RegressionUtility := ols) true
      [float_of_Z 1; float_of_Z 2; float_of_Z 3]
      [float_of_Z 2; float_of_Z 4; float_of_Z 7]
    = Ok (FittedModel slope (Array1 [i])) /\
    SFltb i fzero = true.
Proof. do 5 eexists. vm_compute. repeat split; reflexivity. Qed.

(** ** The claims about the regression *)

(** C5: whenever [get_linear_regression] returns, the intercept it reports
    is the absolute value of the fitted intercept, so it is never below
    zero (and is at least zero unless the fitted intercept is a NaN); when
    the intercept is enforced, the reported intercept is exactly [0.0]. *)
Theorem C5_intercept_absolute_value
    (lr : RegressionUtility) `{!RegressionContract lr}
    (x y : list Float) (enforce_intercept : bool)
    (slope : Float) (intercept : intercept_value) (r_sq max_val : Float)
    (yhat : list (list Float)) :
  get_linear_regression x y enforce_intercept
    = Ok (slope, intercept, r_sq, max_val, yhat) ->
  non_negative intercept /\
  (exists m b,
     lr_fit (negb enforce_intercept) x y = Ok m /\
     intercept_ m = (if enforce_intercept then Scalar b else Array1 [b]) /\
     intercept = Scalar (SFabs b)) /\
  (enforce_intercept = true -> intercept = Scalar fzero).
Proof.
  intros Hrun.
  apply (get_linear_regression_Ok lr) in Hrun
    as (m & r & mx & b & Hfit & _ & _ & Hshape & [= -> -> _ _ _]).
  split; [|split].
  - exists (SFabs b). split; [done|]. apply SFabs_non_negative.
  - exists m, b. split; [done|]. split; [|done].
    destruct enforce_intercept; [by destruct Hshape as [-> ->] | done].
  - intros ->. by destruct Hshape as [-> _].
Qed.

Lemma C5_witness_enforced_intercept :
  non_negative (Scalar fzero) /\
  (exists m b,
     lr_fit (RegressionUtility := ols) (negb true)
       [float_of_Z 1; float_of_Z 2; float_of_Z 3]
       [float_of_Z 2; float_of_Z 4; float_of_Z 6] = Ok m /\
     intercept_ m = Scalar b /\ Scalar fzero = Scalar (SFabs b)) /\
  (true = true -> Scalar fzero = Scalar fzero).
Proof.
  apply (C5_intercept_absolute_value ols
    [float_of_Z 1; float_of_Z 2; float_of_Z 3]
    [float_of_Z 2; float_of_Z 4; float_of_Z 6] true
    (float_of_Z 2) (Scalar fzero) (float_of_Z 1) (float_of_Z 3)
    [[float_of_Z 2]; [float_of_Z 4]; [float_of_Z 6]]).
  vm_compute. reflexivity.
Defined.

(** C6, as stated, fails: on the single pair (1, 2) the function raises
    nothing and returns a fit (slope 2.0, intercept 0.0). *)
Lemma C6_counterexample_single_point :
  get_linear_regression (lr := ols) [float_of_Z 1] [float_of_Z 2] true
  = Ok (float_of_Z 2, Scalar fzero, S754_nan, float_of_Z 1,
        [[float_of_Z 2]]).
Proof. vm_compute. reflexivity. Qed.

(** C6 (amended): [get_linear_regression] makes no check on the number of
    paired points.  With no point it fails, with the error of the
    Regression Utility or with the [ValueError] of the maximum of an empty
    array; with a single point it returns a fit whenever the fit and the
    score of the Regression Utility return. *)
Theorem C6_no_check_on_point_count
    (lr : RegressionUtility) `{!RegressionContract lr}
    (y : list Float) (enforce_intercept : bool) :
  (exists e, get_linear_regression [] y enforce_intercept = Raise e /\
     (lr_fit (negb enforce_intercept) [] y = Raise e \/
      (exists m, lr_fit (negb enforce_intercept) [] y = Ok m /\
         lr_score m [] y = Raise e) \/
      e = ValueError)) /\
  (forall x0 m r_sq,
     lr_fit (negb enforce_intercept) [x0] y = Ok m ->
     lr_score m [x0] y = Ok r_sq ->
     exists res, get_linear_regression [x0] y enforce_intercept = Ok res).
Proof.
  split.
  - unfold get_linear_regression.
    destruct (lr_fit (negb enforce_intercept) [] y) as [m|e] eqn:Hfit; simpl.
    + destruct (lr_score m [] y) as [r|e] eqn:Hscore; simpl; eauto 7.
    + eauto.
  - intros x0 m r_sq Hfit Hscore.
    by apply (get_linear_regression_total lr [x0] y enforce_intercept m r_sq).
Qed.

Lemma C6_witness_single_point :
  exists res,
    get_linear_regression (lr := ols) [float_of_Z 1] [float_of_Z 2] true
    = Ok res.
Proof.
  apply (proj2 (C6_no_check_on_point_count ols [float_of_Z 2] true)
           (float_of_Z 1)
           (FittedModel (float_of_Z 2) (Scalar fzero)) S754_nan).
  - vm_compute. reflexivity.
  - vm_compute. reflexivity.
Defined.

(** ** The serialized external-demand profile *)

(** Reading a path that holds the pickle of [payload] deserializes it and
    leaves the world as it is. *)
Lemma load_pickled filepath w payload :
  fs w !! filepath = Some (Pickled payload) ->
  (file ← open_rb filepath; pickle_load file) w = (Ok payload, w).
Proof.
  intros Hfile. unfold mbind, IO_bind, open_rb, pickle_load.
  by rewrite Hfile, Hfile.
Qed.

Lemma import_from_pickled self filepath w payload :
  fs w !! filepath = Some (Pickled payload) ->
  __import_from_file self filepath w
  = match import_type_check payload with
    | Raise e => (Raise e, w)
    | Ok true =>
        match payload with
        | PyList items => (Ok {| ext_demand_matrix := items |}, w)
        | _ => (Raise TypeError, w)
        end
    | Ok false => (Raise TypeMismatchError, w)
    end.
Proof.
  intros Hfile. unfold __import_from_file.
  unfold mbind at 1. unfold IO_bind at 1.
  rewrite (load_pickled filepath w payload Hfile).
  unfold mbind, IO_bind, io_lift.
  destruct (import_type_check payload) as [[]|e]; [|done|done].
  by destruct payload.
Qed.

(** The check of the code against the shape of the specification. *)
Lemma import_type_check_shape payload :
  import_type_check payload
  = match payload with
    | PyList [] => Raise IndexError
    | _ => Ok (expected_shape payload)
    end.
Proof. destruct payload as [| | | |[|first rest]| |]; reflexivity. Qed.

(** Writing to a path that holds no directory stores the pickle. *)
Lemma export_writes self filepath w :
  ext_demand_matrix self <> [] ->
  fs w !! filepath <> Some Directory ->
  export_to_file self filepath w
  = (Ok (),
     World (<[filepath := Pickled (PyList (ext_demand_matrix self))]> (fs w))
           (if bool_decide (is_Some (fs w !! filepath))
            then warnings_shown w ++ [overwrite_message]
            else warnings_shown w)).
Proof.
  intros Hne Hdir. unfold export_to_file.
  destruct (ext_demand_matrix self) as [|o matrix] eqn:Hm; [done|].
  cbn [length Nat.eqb].
  unfold mbind, IO_bind, path_exists, warnings_warn, open_wb, pickle_dump,
    mret, IO_ret.
  destruct (fs w !! filepath) as [n|] eqn:Hfile.
  - rewrite bool_decide_eq_true_2 by eauto. cbn [fs warnings_shown].
    rewrite Hfile. destruct n; [| |done]; cbn [fs warnings_shown];
      by rewrite insert_insert_eq.
  - rewrite bool_decide_eq_false_2 by (intros [? ?]; done).
    cbn [fs warnings_shown]. rewrite Hfile. cbn [fs warnings_shown].
    by rewrite insert_insert_eq.
Qed.

(** A profile exported to a fresh path and imported again. *)
Example export_then_import :
  exists w1,
    export_to_file sample_profile profile_path (World ∅ []) = (Ok (), w1) /\
    warnings_shown w1 = [] /\
    ExternalDemandProfile_init profile_path w1 = (Ok sample_profile, w1).
Proof. eexists. repeat split. Qed.

(** ** The claims about the profile file *)

(** C8: exporting an empty collection fails with the empty-collection
    error and leaves the file system and the warnings as they were;
    exporting a collection that is not empty to a path that already holds
    a file succeeds, shows one warning and leaves, under that path, the
    pickle of the collection, every other path being untouched. *)
Theorem C8_export_to_file
    (self : ExternalDemandProfile) (filepath : string) (w : world) :
  (ext_demand_matrix self = [] ->
   export_to_file self filepath w = (Raise EmptyCollectionError, w)) /\
  (forall held,
     ext_demand_matrix self <> [] ->
     fs w !! filepath = Some held -> held <> Directory ->
     exists w',
       export_to_file self filepath w = (Ok (), w') /\
       warnings_shown w' = warnings_shown w ++ [overwrite_message] /\
       fs w' !! filepath = Some (Pickled (PyList (ext_demand_matrix self))) /\
       forall other, other <> filepath -> fs w' !! other = fs w !! other).
Proof.
  split.
  - intros Hempty. unfold export_to_file. by rewrite Hempty.
  - intros held Hne Hheld Hfile.
    rewrite export_writes; [|done | congruence].
    eexists. split; [done|]. cbn [fs warnings_shown].
    rewrite bool_decide_eq_true_2 by eauto.
    split; [done|]. split; [by rewrite lookup_insert_eq|].
    intros other Hother. by rewrite lookup_insert_ne.
Qed.

Lemma C8_witness_overwrite :
  exists w',
    export_to_file sample_profile profile_path (world_holding OtherBytes)
      = (Ok (), w') /\
    warnings_shown w'
      = warnings_shown (world_holding OtherBytes) ++ [overwrite_message] /\
    fs w' !! profile_path
      = Some (Pickled (PyList (ext_demand_matrix sample_profile))) /\
    forall other, other <> profile_path ->
      fs w' !! other = fs (world_holding OtherBytes) !! other.
Proof.
  apply (proj2 (C8_export_to_file sample_profile profile_path
                  (world_holding OtherBytes)) OtherBytes).
  - discriminate.
  - reflexivity.
  - discriminate.
Defined.

(** C9: when the file holds the pickle of a payload, the import fails with
    the type-mismatch error exactly when the payload is not a sequence of
    the expected shape, a check that looks at the type of the payload and
    at the type of its first element only: a list whose first element is a
    record is accepted whatever the rest holds.  On success the collection
    is the deserialized list and the world is unchanged. *)
Theorem C9_import_type_mismatch
    (self : ExternalDemandProfile) (filepath : string) (w : world)
    (payload : pyobj) :
  fs w !! filepath = Some (Pickled payload) ->
  (__import_from_file self filepath w = (Raise TypeMismatchError, w)
   <-> expected_shape payload = false) /\
  (forall first rest,
     payload = PyList (first :: rest) ->
     isinstance_ExternalDemandData first = true ->
     __import_from_file self filepath w
     = (Ok {| ext_demand_matrix := first :: rest |}, w)) /\
  (forall self' w',
     __import_from_file self filepath w = (Ok self', w') ->
     w' = w /\ payload = PyList (ext_demand_matrix self')).
Proof.
  intros Hfile. rewrite (import_from_pickled self filepath w payload Hfile).
  rewrite import_type_check_shape.
  split; [|split].
  - destruct payload as [| | | |[|first rest]| |]; simpl;
      try (split; [done | intros _; reflexivity]);
      try (split; discriminate).
    destruct (isinstance_ExternalDemandData first); split;
      (discriminate || done).
  - intros first rest -> Hfirst. simpl. by rewrite Hfirst.
  - intros self' w'.
    destruct payload as [| | | |[|first rest]| |]; simpl; try discriminate.
    destruct (isinstance_ExternalDemandData first); [|discriminate].
    by intros [= <- <-].
Qed.

Lemma C9_witness_mixed_list :
  __import_from_file blank_profile profile_path
    (world_holding
       (Pickled (PyList [PyExternalDemandData sample_demand_data; PyInt 7])))
  = (Ok {| ext_demand_matrix :=
             [PyExternalDemandData sample_demand_data; PyInt 7] |},
     world_holding
       (Pickled (PyList [PyExternalDemandData sample_demand_data; PyInt 7]))).
Proof.
  apply (proj1 (proj2 (C9_import_type_mismatch blank_profile profile_path
    (world_holding
       (Pickled (PyList [PyExternalDemandData sample_demand_data; PyInt 7])))
    (PyList [PyExternalDemandData sample_demand_data; PyInt 7]) eq_refl))
    (PyExternalDemandData sample_demand_data) [PyInt 7]); reflexivity.
Defined.

(** C10: when the file holds the pickle of an empty list, the import
    raises [IndexError], from the access to the first element, and not the
    type-mismatch error; the world is left as it was. *)
Theorem C10_import_empty_list
    (self : ExternalDemandProfile) (filepath : string) (w : world) :
  fs w !! filepath = Some (Pickled (PyList [])) ->
  __import_from_file self filepath w = (Raise IndexError, w) /\
  IndexError <> TypeMismatchError.
Proof.
  intros Hfile.
  rewrite (import_from_pickled self filepath w (PyList []) Hfile).
  split; [reflexivity | discriminate].
Qed.

Lemma C10_witness_empty_pickle :
  __import_from_file blank_profile profile_path
    (world_holding (Pickled (PyList [])))
    = (Raise IndexError, world_holding (Pickled (PyList []))) /\
  IndexError <> TypeMismatchError.
Proof.
  apply (C10_import_empty_list blank_profile profile_path
           (world_holding (Pickled (PyList [])))).
  reflexivity.
Defined.

(** * Part III: further properties of the code *)

(** ** Loops and dictionaries, continued *)

(** A loop that returns ran its body, successfully, on every element. *)
Lemma for_each_Ok_inv {A S : Type} (body : A -> S -> result S)
    (xs : list A) (s s' : S) :
  for_each xs body s = Ok s' ->
  forall x, x ∈ xs -> exists s0 s1, body x s0 = Ok s1.
Proof.
  revert s. induction xs as [|x0 xs IH]; intros s Hrun x Hx.
  - by apply elem_of_nil in Hx.
  - simpl in Hrun. apply bind_inv_Ok in Hrun as (s1 & Hs1 & Hrun).
    apply elem_of_cons in Hx as [->|Hx]; eauto.
Qed.

Lemma for_each_ext {A S : Type} (body1 body2 : A -> S -> result S)
    (xs : list A) (s : S) :
  (forall x s, x ∈ xs -> body1 x s = body2 x s) ->
  for_each xs body1 s = for_each xs body2 s.
Proof.
  revert s. induction xs as [|x xs IH]; intros s Hext; [done|].
  simpl. rewrite (Hext x s) by left.
  destruct (body2 x s) as [s1|e]; simpl; [|done].
  apply IH. intros x' s' Hx'. apply Hext. by right.
Qed.

Section SetItem.
Context {K V : Type} `{EqDecision K}.
Implicit Types (d : dict K V) (k : K) (v : V).

(** Reading after writing. *)
Lemma dict_get_setitem d k v k' :
  dict_get (dict_setitem d k v) k'
  = if decide (k' = k) then Some v else dict_get d k'.
Proof.
  induction d as [|[k0 v0] d IH]; simpl.
  - done.
  - destruct (decide (k = k0)) as [->|Hne]; simpl.
    + by destruct (decide (k' = k0)).
    + rewrite IH. destruct (decide (k' = k0)) as [->|]; [|done].
      by rewrite decide_False by done.
Qed.

Lemma dict_keys_setitem d k v :
  dict_keys (dict_setitem d k v)
  = if decide (k ∈ dict_keys d) then dict_keys d else dict_keys d ++ [k].
Proof.
  unfold dict_keys. induction d as [|[k0 v0] d IH]; cbn [dict_setitem].
  - rewrite fmap_nil. by rewrite decide_False by apply not_elem_of_nil.
  - rewrite !fmap_cons. cbn [fst].
    destruct (decide (k = k0)) as [->|Hne].
    + rewrite fmap_cons. cbn [fst]. by rewrite decide_True by left.
    + rewrite fmap_cons, IH. cbn [fst].
      destruct (decide (k ∈ d.*1)) as [Hin|Hnin].
      * by rewrite decide_True by (by right).
      * rewrite decide_False; [done|].
        intros [?|?]%elem_of_cons; done.
Qed.

(** Writing keeps the keys distinct. *)
Lemma dict_wf_setitem d k v : dict_wf d -> dict_wf (dict_setitem d k v).
Proof.
  unfold dict_wf. rewrite dict_keys_setitem. intros Hwf.
  destruct (decide (k ∈ dict_keys d)) as [Hin|Hnin]; [done|].
  apply NoDup_app. split; [done|]. split.
  - intros k' Hk' ->%list_elem_of_singleton. done.
  - apply NoDup_singleton.
Qed.

(** The loop [for x in xs: d[key(x)] = g(x)], when [g] returns on every
    element and elements with the same key give the same value: the
    result is a dictionary that holds under each key the value of the
    elements with that key, besides what [acc] held under other keys. *)
Lemma keyed_loop_from {A : Type} (key : A -> K) (g : A -> result V)
    (xs : list A) (acc : dict K V) :
  dict_wf acc ->
  (forall x, x ∈ xs -> exists v, g x = Ok v) ->
  (forall x y, x ∈ xs -> y ∈ xs -> key x = key y -> g x = g y) ->
  exists d,
    for_each xs (fun x acc => v ← g x; Ok (dict_setitem acc (key x) v)) acc
      = Ok d /\
    dict_wf d /\
    forall k v, dict_get d k = Some v <->
      (exists x, x ∈ xs /\ key x = k /\ g x = Ok v) \/
      ((forall x, x ∈ xs -> key x <> k) /\ dict_get acc k = Some v).
Proof.
  revert acc. induction xs as [|x xs IH]; intros acc Hwf Hg Hcoh.
  - exists acc. split; [done|]. split; [done|]. intros k v. split.
    + intros Hk. right. split; [|done]. intros x Hx. by apply elem_of_nil in Hx.
    + intros [(x & Hx & _)|[_ Hk]]; [by apply elem_of_nil in Hx | done].
  - destruct (Hg x) as [vx Hvx]; [left|].
    destruct (IH (dict_setitem acc (key x) vx)) as (d & Hrun & Hd & Hget).
    { by apply dict_wf_setitem. }
    { intros y Hy. apply Hg. by right. }
    { intros y z Hy Hz. apply Hcoh; by right. }
    exists d. split; [simpl; by rewrite Hvx|]. split; [done|].
    intros k v. rewrite Hget, dict_get_setitem. split.
    + intros [(y & Hy & Hky & Hgy)|[Hnone Hacc]].
      * left. exists y. split; [by right | done].
      * destruct (decide (k = key x)) as [->|Hne].
        -- left. exists x. split; [left|]. split; [done|]. congruence.
        -- right. split; [|done].
           intros y [->|Hy]%elem_of_cons; [congruence | by apply Hnone].
    + intros [(y & Hy & Hky & Hgy)|[Hnone Hacc]].
      * apply elem_of_cons in Hy as [->|Hy].
        -- destruct (decide (Exists (fun z => key z = k) xs)) as [Hex|Hnex].
           ++ apply Exists_exists in Hex as (z & Hz & Hkz).
              left. exists z. split; [done|]. split; [done|].
              rewrite <- Hgy. apply Hcoh; [by right | left | congruence].
           ++ right. split.
              ** intros z Hz Hkz. apply Hnex, Exists_exists. eauto.
              ** rewrite decide_True by done. congruence.
        -- left. eauto.
      * right. split.
        -- intros y Hy. apply Hnone. by right.
        -- rewrite decide_False; [done|].
           intros ->. by apply (Hnone x); [left|].
Qed.

Lemma keyed_loop {A : Type} (key : A -> K) (g : A -> result V) (xs : list A) :
  (forall x, x ∈ xs -> exists v, g x = Ok v) ->
  (forall x y, x ∈ xs -> y ∈ xs -> key x = key y -> g x = g y) ->
  exists d,
    for_each xs (fun x acc => v ← g x; Ok (dict_setitem acc (key x) v)) []
      = Ok d /\
    dict_wf d /\
    forall k v, dict_get d k = Some v <->
      exists x, x ∈ xs /\ key x = k /\ g x = Ok v.
Proof.
  intros Hg Hcoh.
  destruct (keyed_loop_from key g xs [] (NoDup_nil_2) Hg Hcoh)
    as (d & Hrun & Hd & Hget).
  exists d. split; [done|]. split; [done|].
  intros k v. rewrite Hget. split; [|by left].
  intros [?|[_ ?]]; done.
Qed.

(** Such a loop returns only if [g] does on every element, and raises
    only what [g] raises. *)
Lemma keyed_loop_Ok_inv {A : Type} (key : A -> K) (g : A -> result V)
    (xs : list A) (acc d : dict K V) :
  for_each xs (fun x acc => v ← g x; Ok (dict_setitem acc (key x) v)) acc
    = Ok d ->
  forall x, x ∈ xs -> exists v, g x = Ok v.
Proof.
  intros Hrun x Hx.
  destruct (for_each_Ok_inv _ _ _ _ Hrun x Hx) as (s0 & s1 & Hbody).
  apply bind_inv_Ok in Hbody as (v & Hv & _). eauto.
Qed.

Lemma keyed_loop_Raise_inv {A : Type} (key : A -> K) (g : A -> result V)
    (xs : list A) (acc : dict K V) (e : exn) :
  for_each xs (fun x acc => v ← g x; Ok (dict_setitem acc (key x) v)) acc
    = Raise e ->
  exists x, x ∈ xs /\ g x = Raise e.
Proof.
  intros (x & s0 & Hx & Hbody)%for_each_Raise_inv.
  exists x. split; [done|]. destruct (g x); simpl in Hbody; congruence.
Qed.

(** The comprehension [{x: g(x) for x in xs}] is such a loop. *)
Lemma dict_comp_keyed (g : K -> result V) (xs : list K) :
  dict_comp (fun x => v ← g x; Ok (x, v)) xs
  = for_each xs (fun x acc => v ← g x; Ok (dict_setitem acc x v)) [].
Proof.
  unfold dict_comp. apply for_each_ext. intros x acc _.
  by destruct (g x).
Qed.
End SetItem.

(** ** Transposition: when it returns and what it keeps *)

Lemma table_value_elem {X Y V : Type} (T : dict X (dict Y V)) (row : dict Y V) :
  row ∈ dict_values T -> exists t, (t, row) ∈ T.
Proof. intros ([t r] & -> & Hin)%list_elem_of_fmap. by exists t. Qed.

(** X1: on a table that is not empty, the transposition returns exactly
    when every entity of the first row occurs in every row; otherwise it
    raises [KeyError], and it raises nothing else. *)
Theorem X1_revert_returns_iff
    {X Y V : Type} `{EqDecision X, EqDecision Y}
    (t0 : X) (r0 : dict Y V) (rest : dict X (dict Y V)) :
  dict_wf ((t0, r0) :: rest) -> dict_wf r0 ->
  ((exists R, __revert_dict_of_dict ((t0, r0) :: rest) = Ok R) <->
   (forall row, row ∈ dict_values ((t0, r0) :: rest) ->
      dict_keys r0 ⊆ dict_keys row)) /\
  (forall e, __revert_dict_of_dict ((t0, r0) :: rest) = Raise e ->
     e = KeyError).
Proof.
  intros Hwf Hr0. rewrite revert_cons. split; [split|].
  - intros [R HR] row Hrow y Hy.
    destruct (decide (y ∈ dict_keys row)) as [|Hmiss]; [done|].
    destruct (table_value_elem _ _ Hrow) as [t Ht].
    rewrite (revert_outer_Raise _ _ y t row Hwf Hy Ht Hmiss) in HR.
    discriminate.
  - intros Hall. apply revert_outer_total; [done | done |].
    intros y r Hy Hr. by apply (Hall r).
  - intros e (y & _ & Hy)%dict_comp_Raise_inv.
    destruct (revert_inner ((t0, r0) :: rest) y) as [inner|e1] eqn:Hinner;
      simpl in Hy; [discriminate|].
    injection Hy as <-. by apply revert_inner_only_KeyError in Hinner.
Qed.

Lemma X1_witness_sample_table :
  ((exists R, __revert_dict_of_dict sample_table = Ok R) <->
   (forall row, row ∈ dict_values sample_table ->
      dict_keys [("d1"%string, float_of_Z 10); ("d2"%string, float_of_Z 20)]
      ⊆ dict_keys row)) /\
  (forall e, __revert_dict_of_dict sample_table = Raise e -> e = KeyError).
Proof.
  apply (X1_revert_returns_iff t0900
    [("d1"%string, float_of_Z 10); ("d2"%string, float_of_Z 20)]
    [(t0915, [("d1"%string, float_of_Z 12); ("d2"%string, float_of_Z 18)])]);
    solve_by_decide.
Defined.

(** X2: a returned transpose has the entities of the first row, in their
    order, and under each of them every time key, in the order of the
    table.  The samples of an entity that the first row lacks are left
    out without an error, whichever later row holds them. *)
Theorem X2_revert_keeps_first_row_entities
    {X Y V : Type} `{EqDecision X, EqDecision Y}
    (t0 : X) (r0 : dict Y V) (rest : dict X (dict Y V))
    (R : dict Y (dict X V)) :
  dict_wf ((t0, r0) :: rest) -> dict_wf r0 ->
  __revert_dict_of_dict ((t0, r0) :: rest) = Ok R ->
  dict_keys R = dict_keys r0 /\
  (forall e inner, (e, inner) ∈ R ->
     dict_keys inner = dict_keys ((t0, r0) :: rest)) /\
  (forall t e,
     dict_get2 R e t
     = if decide (e ∈ dict_keys r0) then dict_get2 ((t0, r0) :: rest) t e
       else None).
Proof.
  intros Hwf Hr0 HR.
  destruct (revert_Ok_transpose_of t0 r0 rest R Hwf Hr0 HR) as [Hkeys Hrows].
  split; [done|]. split; [intros e inner Hin; by apply (Hrows e)|].
  intros t e. unfold dict_get2 at 1.
  destruct (decide (e ∈ dict_keys r0)) as [He|He].
  - rewrite <- Hkeys in He. apply dict_get_is_Some in He as [inner Hinner].
    rewrite Hinner. simpl. apply dict_get_Some_elem in Hinner.
    by apply Hrows.
  - rewrite <- Hkeys in He. apply dict_get_None in He. by rewrite He.
Qed.

Lemma X2_witness_wider_table :
  dict_get2 (V := Float)
    [("d1"%string, [(t0900, float_of_Z 10); (t0915, float_of_Z 12)])]
    "d2"%string t0915 = None /\
  dict_get2 wider_table t0915 "d2"%string = Some (float_of_Z 18).
Proof.
  split; [|reflexivity].
  pose proof (X2_revert_keeps_first_row_entities t0900
    [("d1"%string, float_of_Z 10)]
    [(t0915, [("d1"%string, float_of_Z 12); ("d2"%string, float_of_Z 18)])]
    [("d1"%string, [(t0900, float_of_Z 10); (t0915, float_of_Z 12)])])
    as Hx.
  destruct Hx as (_ & _ & Hget);
    [solve_by_decide | solve_by_decide | reflexivity |].
  exact (Hget t0915 "d2"%string).
Defined.

(** ** Paired flow: when it returns, and the two partitions *)

Section FlowMore.
Context {V : Type}.
Implicit Types (real sim : dict time (dict ExternalId V)).
Implicit Types (real_row sim_row : dict ExternalId V).

(** A step of the outer loop that returns found both rows and every
    entity of the real row in the simulated row. *)
Lemma collect_time_step_Ok_inv {S : Type}
    (inner : dict ExternalId V -> ExternalId * V -> S -> result S)
    real sim t acc acc' :
  (forall sim_row e v s s', inner sim_row (e, v) s = Ok s' ->
     e ∈ dict_keys sim_row) ->
  collect_time_step real sim inner t acc = Ok acc' ->
  exists real_row sim_row,
    dict_get real t = Some real_row /\ dict_get sim t = Some sim_row /\
    forall e, e ∈ dict_keys real_row -> e ∈ dict_keys sim_row.
Proof.
  intros Hinner Hstep. unfold collect_time_step in Hstep.
  apply bind_inv_Ok in Hstep as (real_row & Hreal%dict_getitem_Ok & Hstep).
  apply bind_inv_Ok in Hstep as (sim_row & Hsim%dict_getitem_Ok & Hstep).
  exists real_row, sim_row. split; [done|]. split; [done|].
  intros e ([e' v] & -> & Hin)%list_elem_of_fmap.
  destruct (for_each_Ok_inv _ _ _ _ Hstep (e', v) Hin) as (s0 & s1 & Hbody).
  by apply Hinner in Hbody.
Qed.

Lemma collect_all_step_Ok_inv sim_row e v s s' :
  collect_all_step sim_row (e, v) s = Ok s' -> e ∈ dict_keys sim_row.
Proof.
  destruct s as [r s]. unfold collect_all_step.
  intros (sv & Hsv%dict_getitem_Ok & _)%bind_inv_Ok.
  apply dict_get_is_Some. eauto.
Qed.

Lemma collect_city_pems_step_Ok_inv cid sim_row e v s s' :
  collect_city_pems_step cid sim_row (e, v) s = Ok s' ->
  e ∈ dict_keys sim_row.
Proof.
  destruct s as [[cr cs] [pr ps]]. unfold collect_city_pems_step.
  destruct (str_contains cid e);
    intros (sv & Hsv%dict_getitem_Ok & _)%bind_inv_Ok;
    apply dict_get_is_Some; eauto.
Qed.

Lemma convert_flow_Ok_inv real sim tl cid res :
  convert_flow_per_time_to_list real sim tl cid = Ok res ->
  times_present real sim tl /\ entities_present real sim tl.
Proof.
  intros Hres.
  assert (forall t, t ∈ tl -> exists real_row sim_row,
    dict_get real t = Some real_row /\ dict_get sim t = Some sim_row /\
    forall e, e ∈ dict_keys real_row -> e ∈ dict_keys sim_row) as Hall.
  { intros t Ht. unfold convert_flow_per_time_to_list in Hres.
    destruct cid as [cid|];
      apply bind_inv_Ok in Hres as (acc & Hloop & _);
      destruct (for_each_Ok_inv _ _ _ _ Hloop t Ht) as (s0 & s1 & Hstep);
      eapply collect_time_step_Ok_inv; try exact Hstep.
    - apply collect_city_pems_step_Ok_inv.
    - apply collect_all_step_Ok_inv. }
  split.
  - intros t Ht. destruct (Hall t Ht) as (rr & sr & Hr & Hs & _).
    split; apply dict_get_is_Some; eauto.
  - intros t rr sr Ht Hr Hs e He.
    destruct (Hall t Ht) as (rr' & sr' & Hr' & Hs' & Hents).
    assert (rr' = rr) as -> by congruence.
    assert (sr' = sr) as -> by congruence. auto.
Qed.

Lemma collect_city_pems_step_eq cid sim_row e v sv cr cs pr ps :
  dict_get sim_row e = Some sv ->
  collect_city_pems_step cid sim_row (e, v) ((cr, cs), (pr, ps))
  = Ok (if str_contains cid e
        then ((cr ++ [v], cs ++ [sv]), (pr, ps))
        else ((cr, cs), (pr ++ [v], ps ++ [sv]))).
Proof.
  intros Hsv%dict_getitem_Ok. unfold collect_city_pems_step.
  rewrite Hsv. by destruct (str_contains cid e).
Qed.

(** The inner loop with a classifier, in closed form. *)
Lemma collect_city_pems_inner cid real_row sim_row cr cs pr ps :
  (forall e, e ∈ dict_keys real_row -> e ∈ dict_keys sim_row) ->
  let keep := str_contains cid in
  let drop := fun e => negb (str_contains cid e) in
  let sims := fun (sel : ExternalId -> bool) =>
    flat_map (fun entity =>
      match dict_get sim_row entity with
      | Some v => [v]
      | None => []
      end) (filter (fun e => Is_true (sel e)) (dict_keys real_row)) in
  for_each (dict_items real_row) (collect_city_pems_step cid sim_row)
    ((cr, cs), (pr, ps))
  = Ok ((cr ++ (filter (fun kv => Is_true (keep kv.1)) real_row).*2,
         cs ++ sims keep),
        (pr ++ (filter (fun kv => Is_true (drop kv.1)) real_row).*2,
         ps ++ sims drop)).
Proof.
  intros Hin keep drop sims. subst keep drop sims.
  unfold dict_items, dict_keys in *.
  revert cr cs pr ps. induction real_row as [|[e v] real_row IH];
    intros cr cs pr ps.
  - simpl. by rewrite !app_nil_r.
  - assert (e ∈ dict_keys sim_row) as [sv Hsv]%dict_get_is_Some.
    { apply Hin. rewrite fmap_cons. left. }
    cbn [for_each].
    rewrite (collect_city_pems_step_eq cid sim_row e v sv) by done.
    rewrite fmap_cons. cbn [fst].
    assert (forall e', e' ∈ real_row.*1 -> e' ∈ sim_row.*1) as Hin'.
    { intros e' He'. apply Hin. rewrite fmap_cons. by right. }
    destruct (str_contains cid e) eqn:Hc; rewrite !bind_Ok, (IH Hin').
    + rewrite (filter_cons_True (fun kv : ExternalId * V =>
                 Is_true (str_contains cid kv.1))) by (simpl; by rewrite Hc).
      rewrite (filter_cons_False (fun kv : ExternalId * V =>
                 Is_true (negb (str_contains cid kv.1))))
        by (simpl; rewrite Hc; by intros []).
      rewrite (filter_cons_True (fun e0 : ExternalId =>
                 Is_true (str_contains cid e0))) by (by rewrite Hc).
      rewrite (filter_cons_False (fun e0 : ExternalId =>
                 Is_true (negb (str_contains cid e0))))
        by (rewrite Hc; by intros []).
      rewrite fmap_cons. cbn [flat_map snd]. rewrite Hsv.
      by rewrite <- !app_assoc.
    + rewrite (filter_cons_False (fun kv : ExternalId * V =>
                 Is_true (str_contains cid kv.1)))
        by (simpl; rewrite Hc; by intros []).
      rewrite (filter_cons_True (fun kv : ExternalId * V =>
                 Is_true (negb (str_contains cid kv.1))))
        by (simpl; by rewrite Hc).
      rewrite (filter_cons_False (fun e0 : ExternalId =>
                 Is_true (str_contains cid e0)))
        by (rewrite Hc; by intros []).
      rewrite (filter_cons_True (fun e0 : ExternalId =>
                 Is_true (negb (str_contains cid e0)))) by (by rewrite Hc).
      rewrite fmap_cons. cbn [flat_map snd]. rewrite Hsv.
      by rewrite <- !app_assoc.
Qed.

Lemma collect_city_pems_outer cid real sim tl0 tl cr cs pr ps :
  times_present real sim tl0 -> entities_present real sim tl0 ->
  tl ⊆ tl0 ->
  let keep := str_contains cid in
  let drop := fun e => negb (str_contains cid e) in
  for_each tl (collect_time_step real sim (collect_city_pems_step cid))
    ((cr, cs), (pr, ps))
  = Ok ((cr ++ classified_real_sequence keep real tl,
         cs ++ classified_simulated_sequence keep real sim tl),
        (pr ++ classified_real_sequence drop real tl,
         ps ++ classified_simulated_sequence drop real sim tl)).
Proof.
  intros Htimes Hents Hsub keep drop. subst keep drop.
  revert cr cs pr ps Hsub.
  induction tl as [|t tl IH]; intros cr cs pr ps Hsub.
  - simpl. by rewrite !app_nil_r.
  - assert (t ∈ tl0) as Ht by (apply Hsub; left).
    destruct (Htimes t Ht) as
      [[real_row Hreal]%dict_get_is_Some [sim_row Hsim]%dict_get_is_Some].
    cbn [for_each].
    rewrite (collect_time_step_rows _ real sim t _ real_row sim_row) by done.
    rewrite collect_city_pems_inner by (by apply (Hents t real_row sim_row)).
    rewrite bind_Ok, IH by (intros t' Ht'; apply Hsub; by right).
    unfold classified_real_sequence, classified_simulated_sequence.
    cbn [flat_map]. rewrite Hreal, Hsim. by rewrite <- !app_assoc.
Qed.
End FlowMore.

(** X3: with or without classifier, the function returns exactly when
    every listed time is a key of both tables and, under every listed
    time, every entity of the real row is in the simulated row; otherwise
    it raises [KeyError], and it raises nothing else. *)
Theorem X3_convert_flow_returns_iff {V : Type}
    (real_table simulated_table : dict time (dict ExternalId V))
    (time_list : list time) (city_common_id : option string) :
  ((exists res,
      convert_flow_per_time_to_list real_table simulated_table time_list
        city_common_id = Ok res) <->
   (times_present real_table simulated_table time_list /\
    entities_present real_table simulated_table time_list)) /\
  (forall e,
     convert_flow_per_time_to_list real_table simulated_table time_list
       city_common_id = Raise e -> e = KeyError).
Proof.
  split; [split|].
  - intros [res Hres]. by apply convert_flow_Ok_inv in Hres.
  - intros [Htimes Hents]. by apply convert_flow_total.
  - apply convert_flow_balanced.
Qed.

(** X4: with a classifier and the times and entities present, the city
    lists hold the samples of the detectors whose identifier contains
    [city_common_id] and the other lists the samples of the remaining
    detectors, each in time-major order and in the order of the real
    rows. *)
Theorem X4_convert_flow_partitions {V : Type}
    (real_table simulated_table : dict time (dict ExternalId V))
    (time_list : list time) (city_common_id : string) :
  times_present real_table simulated_table time_list ->
  entities_present real_table simulated_table time_list ->
  convert_flow_per_time_to_list real_table simulated_table time_list
    (Some city_common_id)
  = Ok (CityPemsFlow
          (classified_real_sequence (str_contains city_common_id)
             real_table time_list)
          (classified_simulated_sequence (str_contains city_common_id)
             real_table simulated_table time_list)
          (classified_real_sequence
             (fun e => negb (str_contains city_common_id e))
             real_table time_list)
          (classified_simulated_sequence
             (fun e => negb (str_contains city_common_id e))
             real_table simulated_table time_list)).
Proof.
  intros Htimes Hents.
  destruct (convert_flow_total real_table simulated_table time_list
              (Some city_common_id) Htimes Hents) as [res Hres].
  rewrite Hres. unfold convert_flow_per_time_to_list in Hres.
  rewrite (collect_city_pems_outer city_common_id real_table simulated_table
             time_list time_list [] [] [] []) in Hres by done.
  simpl in Hres.
  apply bind_inv_Ok in Hres as ([] & _ & Hres).
  apply bind_inv_Ok in Hres as ([] & _ & Hres). congruence.
Qed.

Lemma X4_witness_sample_tables :
  convert_flow_per_time_to_list sample_real_table sample_simulated_table
    [t0900] (Some "d"%string)
  = Ok (CityPemsFlow
          (classified_real_sequence (str_contains "d")
             sample_real_table [t0900])
          (classified_simulated_sequence (str_contains "d")
             sample_real_table sample_simulated_table [t0900])
          (classified_real_sequence (fun e => negb (str_contains "d" e))
             sample_real_table [t0900])
          (classified_simulated_sequence
             (fun e => negb (str_contains "d" e))
             sample_real_table sample_simulated_table [t0900])).
Proof.
  apply X4_convert_flow_partitions.
  - exact (proj1 sample_flow_tables_present).
  - exact (proj2 sample_flow_tables_present).
Defined.

(** ** Tables built from the simulation output *)

Lemma dict_comp_ext {K V A : Type} `{EqDecision K}
    (f f' : A -> result (K * V)) (xs : list A) :
  (forall x, x ∈ xs -> f x = f' x) -> dict_comp f xs = dict_comp f' xs.
Proof.
  intros Hext. unfold dict_comp. apply for_each_ext.
  intros x acc Hx. by rewrite (Hext x Hx).
Qed.

Section KeyedComprehension.
Context {K V : Type} `{EqDecision K}.

(** [{x: g(x) for x in xs}] when [g] returns on every element. *)
Lemma dict_comp_keyed_total (g : K -> result V) (xs : list K) :
  (forall x, x ∈ xs -> exists v, g x = Ok v) ->
  exists d, dict_comp (fun x => v ← g x; Ok (x, v)) xs = Ok d /\
    dict_wf d /\
    forall k v, dict_get d k = Some v <-> k ∈ xs /\ g k = Ok v.
Proof.
  intros Hg. rewrite dict_comp_keyed.
  destruct (keyed_loop (fun x : K => x) g xs Hg) as (d & Hrun & Hd & Hget).
  { by intros x y _ _ ->. }
  exists d. split; [done|]. split; [done|].
  intros k v. rewrite Hget. split.
  - by intros (x & Hx & -> & Hv).
  - intros [Hk Hv]. by exists k.
Qed.

Lemma dict_comp_keyed_Ok_inv (g : K -> result V) (xs : list K) (d : dict K V) :
  dict_comp (fun x => v ← g x; Ok (x, v)) xs = Ok d ->
  forall x, x ∈ xs -> exists v, g x = Ok v.
Proof. rewrite dict_comp_keyed. apply keyed_loop_Ok_inv. Qed.

Lemma dict_comp_keyed_Raise_inv (g : K -> result V) (xs : list K) (e : exn) :
  dict_comp (fun x => v ← g x; Ok (x, v)) xs = Raise e ->
  exists x, x ∈ xs /\ g x = Raise e.
Proof. rewrite dict_comp_keyed. apply keyed_loop_Raise_inv. Qed.
End KeyedComprehension.

Section KeyedTable.
Context {X Y V : Type} `{EqDecision X, EqDecision Y}.
Implicit Types (q : X -> Y -> result V).

(** A table comprehension whose queries return is a table of
    dictionaries over the same keys, with the answers as samples. *)
Lemma keyed_table_total q xs ys :
  (forall x y, x ∈ xs -> y ∈ ys -> exists v, q x y = Ok v) ->
  exists T, keyed_table q xs ys = Ok T /\
    table_wf T /\ table_uniform T /\
    (forall x, x ∈ dict_keys T <-> x ∈ xs) /\
    forall x y v, dict_get2 T x y = Some v <->
      x ∈ xs /\ y ∈ ys /\ q x y = Ok v.
Proof.
  intros Hq. unfold keyed_table.
  destruct (dict_comp_keyed_total
    (fun x => dict_comp (fun y => v ← q x y; Ok (y, v)) ys) xs)
    as (T & HT & Hwf & Hget).
  { intros x Hx. destruct (dict_comp_keyed_total (q x) ys) as (row & Hrow & _);
      eauto. }
  assert (forall x row, dict_get T x = Some row ->
    x ∈ xs /\ dict_wf row /\
    forall y v, dict_get row y = Some v <-> y ∈ ys /\ q x y = Ok v) as Hrows.
  { intros x row [Hx Hrow]%Hget. split; [done|].
    destruct (dict_comp_keyed_total (q x) ys) as (row' & Hrow' & Hw & Hg);
      [eauto|].
    assert (row' = row) as -> by congruence. done. }
  assert (forall row, row ∈ dict_values T ->
    exists x, dict_get T x = Some row) as Hval.
  { intros row ([x r] & -> & Hin)%list_elem_of_fmap. exists x.
    by apply dict_wf_elem_get. }
  exists T. split; [done|]. split; [split|split; [|split]].
  - done.
  - apply Forall_forall. intros row [x Hx]%Hval. by apply (Hrows x).
  - assert (forall row, row ∈ dict_values T ->
      forall y, y ∈ dict_keys row <-> y ∈ ys) as Hkeys.
    { intros row [x Hx]%Hval y.
      destruct (Hrows x row Hx) as (Hxs & _ & Hg).
      rewrite <- dict_get_is_Some. split.
      - intros [v Hv]. by apply Hg in Hv as [? _].
      - intros Hy. destruct (Hq x y Hxs Hy) as [v Hv]. exists v.
        by apply Hg. }
    intros r r' Hr Hr' y. by rewrite (Hkeys r Hr), (Hkeys r' Hr').
  - intros x. rewrite <- dict_get_is_Some. split.
    + intros [row Hrow]. by apply Hget in Hrow as [? _].
    + intros Hx.
      destruct (dict_comp_keyed_total (q x) ys) as (row & Hrow & _); [eauto|].
      exists row. by apply Hget.
  - intros x y v. unfold dict_get2.
    destruct (dict_get T x) as [row|] eqn:Hrow; simpl.
    + destruct (Hrows x row Hrow) as (Hx & _ & Hg). rewrite Hg. tauto.
    + split; [done|]. intros (Hx & Hy & Hv).
      assert (is_Some (dict_get T x)) as [row' Hrow'].
      { destruct (dict_comp_keyed_total (q x) ys) as (row' & Hrow' & _);
          [eauto|]. exists row'. by apply Hget. }
      congruence.
Qed.

(** It returns only if every query does, and raises only what a query
    raises. *)
Lemma keyed_table_Ok_inv q xs ys T :
  keyed_table q xs ys = Ok T ->
  forall x y, x ∈ xs -> y ∈ ys -> exists v, q x y = Ok v.
Proof.
  intros HT x y Hx Hy.
  destruct (dict_comp_keyed_Ok_inv _ _ _ HT x Hx) as [row Hrow].
  by apply (dict_comp_keyed_Ok_inv _ _ _ Hrow y).
Qed.

Lemma keyed_table_Raise_inv q xs ys e :
  keyed_table q xs ys = Raise e ->
  exists x y, x ∈ xs /\ y ∈ ys /\ q x y = Raise e.
Proof.
  intros (x & Hx & Hrow)%dict_comp_keyed_Raise_inv.
  apply dict_comp_keyed_Raise_inv in Hrow as (y & Hy & Hq). eauto.
Qed.

(** Such a table, built over at least one outer key, transposes. *)
Lemma keyed_table_revert q xs ys :
  xs <> [] ->
  (forall x y, x ∈ xs -> y ∈ ys -> exists v, q x y = Ok v) ->
  exists T R, keyed_table q xs ys = Ok T /\
    __revert_dict_of_dict T = Ok R /\
    (forall x y v, dict_get2 T x y = Some v <->
       x ∈ xs /\ y ∈ ys /\ q x y = Ok v) /\
    (forall x y, dict_get2 R y x = dict_get2 T x y).
Proof.
  intros Hne Hq.
  destruct (keyed_table_total q xs ys Hq) as (T & HT & Hwf & Huni & Hk & Hget).
  assert (well_formed_table T) as HwT.
  { split; [|done]. intros ->. destruct xs as [|x xs]; [done|].
    by apply (not_elem_of_nil x), Hk; left. }
  destruct (revert_well_formed T HwT) as (r0 & R & Hhead & HR & Htr).
  exists T, R. split; [done|]. split; [done|]. split; [done|].
  by apply (transpose_of_pointwise T r0 R).
Qed.
End KeyedTable.

(** The micro function is the table comprehension followed by its
    transposition. *)
Lemma process_micro_simulated_flow_data_eq db tl ids :
  process_micro_simulated_flow_data db tl ids
  = (T ← keyed_table
           (fun t d => AimsunMicroOutputDatabase.get_detector_flow db d t)
           tl ids;
     R ← __revert_dict_of_dict T; Ok (T, R)).
Proof. reflexivity. Qed.

(** The query the macro function makes for a time and a detector. *)
Lemma process_macro_simulated_flow_data_eq
    (dbs : dict time AimsunMacroOutputDatabase.t) ids :
  process_macro_simulated_flow_data dbs ids
  = (T ← keyed_table
           (fun t d => database ← dict_getitem dbs t;
                       AimsunMacroOutputDatabase.get_detector_flow database d)
           (dict_keys dbs) ids;
     R ← __revert_dict_of_dict T; Ok (T, R)).
Proof.
  unfold process_macro_simulated_flow_data, keyed_table.
  f_equal. apply dict_comp_ext. intros t _. f_equal.
  apply dict_comp_ext. intros d _.
  by destruct (dict_getitem dbs t).
Qed.

(** X5: when the time list is not empty and the database answers the flow
    query for every listed time and detector, the micro function returns
    the per-time table, which holds exactly the answers, and the
    per-detector table, which is its transpose: the transposition finds
    every row complete. *)
Theorem X5_process_micro_simulated_flow_data
    (simulation_results_database : AimsunMicroOutputDatabase.t)
    (time_list : list time) (detector_external_id_list : list ExternalId) :
  time_list <> [] ->
  (forall t d, t ∈ time_list -> d ∈ detector_external_id_list ->
     exists v, AimsunMicroOutputDatabase.get_detector_flow
                 simulation_results_database d t = Ok v) ->
  exists per_time per_detector,
    process_micro_simulated_flow_data simulation_results_database
      time_list detector_external_id_list = Ok (per_time, per_detector) /\
    (forall t d v, dict_get2 per_time t d = Some v <->
       t ∈ time_list /\ d ∈ detector_external_id_list /\
       AimsunMicroOutputDatabase.get_detector_flow
         simulation_results_database d t = Ok v) /\
    (forall t d, dict_get2 per_detector d t = dict_get2 per_time t d).
Proof.
  intros Hne Hq. rewrite process_micro_simulated_flow_data_eq.
  destruct (keyed_table_revert
    (fun t d => AimsunMicroOutputDatabase.get_detector_flow
                  simulation_results_database d t)
    time_list detector_external_id_list Hne Hq)
    as (T & R & -> & HR & Hget & Hpt).
  exists T, R. simpl. by rewrite HR.
Qed.

Lemma X5_witness_sample_database :
  exists per_time per_detector,
    process_micro_simulated_flow_data sample_micro_database
      [t0900; t0915] ["d1"%string; "d2"%string]
      = Ok (per_time, per_detector) /\
    (forall t d v, dict_get2 per_time t d = Some v <->
       t ∈ [t0900; t0915] /\ d ∈ ["d1"%string; "d2"%string] /\
       AimsunMicroOutputDatabase.get_detector_flow
         sample_micro_database d t = Ok v) /\
    (forall t d, dict_get2 per_detector d t = dict_get2 per_time t d).
Proof.
  apply X5_process_micro_simulated_flow_data.
  - discriminate.
  - intros t d _ _. eexists. reflexivity.
Defined.

(** X6: with an empty time list the micro function raises [IndexError],
    whatever the detectors: the per-time table is empty and its
    transposition finds no first row.  Any other exception of the
    function is the exception of a flow query; the transposition adds no
    [KeyError] of its own. *)
Theorem X6_process_micro_simulated_flow_data_errors
    (simulation_results_database : AimsunMicroOutputDatabase.t)
    (detector_external_id_list : list ExternalId) :
  process_micro_simulated_flow_data simulation_results_database []
    detector_external_id_list = Raise IndexError /\
  forall time_list e,
    process_micro_simulated_flow_data simulation_results_database
      time_list detector_external_id_list = Raise e ->
    (time_list = [] /\ e = IndexError) \/
    (exists t d, t ∈ time_list /\ d ∈ detector_external_id_list /\
       AimsunMicroOutputDatabase.get_detector_flow
         simulation_results_database d t = Raise e).
Proof.
  split; [reflexivity|]. intros tl e.
  rewrite process_micro_simulated_flow_data_eq.
  destruct (keyed_table _ tl _) as [T|e0] eqn:HT; simpl.
  - destruct tl as [|t0 tl].
    { injection HT as <-. intros [= <-]. by left. }
    intros Hraise. exfalso.
    destruct (keyed_table_revert
      (fun t d => AimsunMicroOutputDatabase.get_detector_flow
                    simulation_results_database d t)
      (t0 :: tl) detector_external_id_list) as (T' & R & HT' & HR & _);
      [done | by eapply keyed_table_Ok_inv |].
    assert (T' = T) as -> by congruence. by rewrite HR in Hraise.
  - intros [= <-]. right. by apply keyed_table_Raise_inv in HT.
Qed.

(** X7: the macro function, over a dictionary of databases that is not
    empty and whose databases answer for every listed detector, returns
    the per-time table of the answers, one row per key of the dictionary,
    and its transpose; over an empty dictionary it raises [IndexError]. *)
Theorem X7_process_macro_simulated_flow_data
    (simulation_results_database : dict time AimsunMacroOutputDatabase.t)
    (detector_external_id_list : list ExternalId) :
  (simulation_results_database = [] ->
   process_macro_simulated_flow_data simulation_results_database
     detector_external_id_list = Raise IndexError) /\
  (simulation_results_database <> [] ->
   (forall t database d,
      dict_get simulation_results_database t = Some database ->
      d ∈ detector_external_id_list ->
      exists v,
        AimsunMacroOutputDatabase.get_detector_flow database d = Ok v) ->
   exists per_time per_detector,
     process_macro_simulated_flow_data simulation_results_database
       detector_external_id_list = Ok (per_time, per_detector) /\
     (forall t d v, dict_get2 per_time t d = Some v <->
        d ∈ detector_external_id_list /\
        exists database,
          dict_get simulation_results_database t = Some database /\
          AimsunMacroOutputDatabase.get_detector_flow database d = Ok v) /\
     (forall t d, dict_get2 per_detector d t = dict_get2 per_time t d)).
Proof.
  split; [by intros ->|]. intros Hne Hq.
  rewrite process_macro_simulated_flow_data_eq.
  destruct (keyed_table_revert
    (fun t d => database ← dict_getitem simulation_results_database t;
                AimsunMacroOutputDatabase.get_detector_flow database d)
    (dict_keys simulation_results_database) detector_external_id_list)
    as (T & R & -> & HR & Hget & Hpt).
  { destruct simulation_results_database; [done | discriminate]. }
  { intros t d [database Hdb]%dict_get_is_Some Hd.
    destruct (Hq t database d Hdb Hd) as [v Hv]. exists v.
    by rewrite (proj2 (dict_getitem_Ok _ _ _) Hdb). }
  exists T, R. simpl. rewrite HR. split; [done|]. split; [|done].
  intros t d v. rewrite Hget. split.
  - intros ([database Hdb]%dict_get_is_Some & Hd & Hv).
    rewrite (proj2 (dict_getitem_Ok _ _ _) Hdb) in Hv. eauto.
  - intros (Hd & database & Hdb & Hv). split; [|split; [done|]].
    + apply dict_get_is_Some. eauto.
    + by rewrite (proj2 (dict_getitem_Ok _ _ _) Hdb).
Qed.

Lemma X7_witness_sample_database :
  exists per_time per_detector,
    process_macro_simulated_flow_data [(t0900, sample_macro_database)]
      ["d1"%string] = Ok (per_time, per_detector) /\
    (forall t d v, dict_get2 per_time t d = Some v <->
       d ∈ ["d1"%string] /\
       exists database,
         dict_get [(t0900, sample_macro_database)] t = Some database /\
         AimsunMacroOutputDatabase.get_detector_flow database d = Ok v) /\
    (forall t d, dict_get2 per_detector d t = dict_get2 per_time t d).
Proof.
  apply (proj2 (X7_process_macro_simulated_flow_data
                  [(t0900, sample_macro_database)] ["d1"%string])).
  - discriminate.
  - intros t database d Hdb _. eexists.
    simpl in Hdb. destruct (decide (t = t0900)); [|discriminate].
    injection Hdb as <-. reflexivity.
Defined.

Lemma X6_witness_empty_time_list :
  ([] = @nil time /\ IndexError = IndexError) \/
  (exists t d, t ∈ @nil time /\ d ∈ ["d1"%string] /\
     AimsunMicroOutputDatabase.get_detector_flow sample_micro_database d t
     = Raise IndexError).
Proof.
  apply (proj2 (X6_process_micro_simulated_flow_data_errors
                  sample_micro_database ["d1"%string]) [] IndexError).
  reflexivity.
Defined.

(** ** Centroid identifiers *)

Lemma find_centroid_loop (wanted : list ExternalId)
    (pairs : list (InternalId * ExternalId)) (acc : dict ExternalId InternalId) :
  dict_wf acc ->
  exists d,
    for_each pairs (fun id_pair centroid_ext_to_int_id =>
        if bool_decide (id_pair.2 ∈ wanted) then
          Ok (dict_setitem centroid_ext_to_int_id id_pair.2 id_pair.1)
        else Ok centroid_ext_to_int_id) acc = Ok d /\
    dict_wf d /\
    forall ext,
      dict_get d ext
      = match (if decide (ext ∈ wanted)
               then last (filter (fun p => p.2 = ext) pairs).*1
               else None) with
        | Some i => Some i
        | None => dict_get acc ext
        end.
Proof.
  revert acc. induction pairs as [|[i x] pairs IH]; intros acc Hwf.
  - exists acc. split; [done|]. split; [done|]. intros ext.
    by destruct (decide (ext ∈ wanted)).
  - cbn [for_each snd fst].
    destruct (bool_decide (x ∈ wanted)) eqn:Hx.
    + apply bool_decide_eq_true in Hx.
      destruct (IH (dict_setitem acc x i)) as (d & Hrun & Hd & Hget);
        [by apply dict_wf_setitem|].
      exists d. rewrite bind_Ok. split; [done|]. split; [done|].
      intros ext. rewrite Hget, dict_get_setitem, filter_cons. cbn [snd].
      destruct (decide (ext ∈ wanted)) as [Hext|Hext].
      * destruct (decide (x = ext)) as [->|Hne].
        -- rewrite fmap_cons, last_cons. cbn [fst].
           rewrite decide_True by done.
           by destruct (last (filter _ pairs).*1).
        -- by rewrite decide_False by done.
      * rewrite decide_False; [done|]. by intros ->.
    + apply bool_decide_eq_false in Hx.
      destruct (IH acc Hwf) as (d & Hrun & Hd & Hget).
      exists d. rewrite bind_Ok. split; [done|]. split; [done|].
      intros ext. rewrite Hget, filter_cons. cbn [snd].
      destruct (decide (ext ∈ wanted)) as [Hext|Hext]; [|done].
      rewrite decide_False; [done|]. by intros ->.
Qed.

(** X8: when the database lists its centroid pairs, the function returns
    a dictionary that maps a requested external identifier to the
    internal identifier of the last listed pair with that external
    identifier; an external identifier that was not requested, or that no
    pair carries, is absent, and this is no error. *)
Theorem X8_find_centroid_internal_ids
    (simulation_results_database : AimsunMicroOutputDatabase.t)
    (centroids_ext_id_list : list ExternalId)
    (all_internal_external_ids : list (InternalId * ExternalId)) :
  AimsunMicroOutputDatabase.get_centroid_ext_int_ids
    simulation_results_database = Ok all_internal_external_ids ->
  exists centroid_ext_to_int_id,
    find_centroid_internal_ids simulation_results_database
      centroids_ext_id_list = Ok centroid_ext_to_int_id /\
    dict_wf centroid_ext_to_int_id /\
    (forall ext,
       dict_get centroid_ext_to_int_id ext
       = if decide (ext ∈ centroids_ext_id_list)
         then last (filter (fun p => p.2 = ext)
                      all_internal_external_ids).*1
         else None) /\
    (forall ext, ext ∈ dict_keys centroid_ext_to_int_id ->
       ext ∈ centroids_ext_id_list /\ ext ∈ all_internal_external_ids.*2).
Proof.
  intros Hall. unfold find_centroid_internal_ids. rewrite Hall, bind_Ok.
  destruct (find_centroid_loop centroids_ext_id_list
              all_internal_external_ids [] (NoDup_nil_2))
    as (d & Hrun & Hd & Hget).
  assert (forall ext, dict_get d ext
    = if decide (ext ∈ centroids_ext_id_list)
      then last (filter (fun p => p.2 = ext) all_internal_external_ids).*1
      else None) as Hget'.
  { intros ext. rewrite Hget.
    destruct (decide (ext ∈ centroids_ext_id_list)); [|done].
    by destruct (last _). }
  exists d. split; [done|]. split; [done|]. split; [done|].
  intros ext [i Hi]%dict_get_is_Some. rewrite Hget' in Hi.
  destruct (decide (ext ∈ centroids_ext_id_list)); [|done].
  split; [done|].
  apply last_Some_elem_of in Hi.
  apply list_elem_of_fmap in Hi as ([i' x] & -> & Hin).
  apply list_elem_of_filter in Hin as [Hx Hin]. simpl in Hx. subst x.
  apply list_elem_of_fmap. by exists (i', ext).
Qed.

Lemma X8_witness_sample_database :
  exists centroid_ext_to_int_id,
    find_centroid_internal_ids sample_micro_database
      ["ext_1"%string; "ext_9"%string] = Ok centroid_ext_to_int_id /\
    dict_wf centroid_ext_to_int_id /\
    (forall ext,
       dict_get centroid_ext_to_int_id ext
       = if decide (ext ∈ ["ext_1"%string; "ext_9"%string])
         then last (filter (fun p => p.2 = ext)
                      [(1%Z, "ext_1"%string); (2%Z, "ext_2"%string);
                       (3%Z, "ext_1"%string)]).*1
         else None) /\
    (forall ext, ext ∈ dict_keys centroid_ext_to_int_id ->
       ext ∈ ["ext_1"%string; "ext_9"%string] /\
       ext ∈ [(1%Z, "ext_1"%string); (2%Z, "ext_2"%string);
              (3%Z, "ext_1"%string)].*2).
Proof.
  apply (X8_find_centroid_internal_ids sample_micro_database
           ["ext_1"%string; "ext_9"%string]).
  reflexivity.
Defined.

(** The two ids [ext_1] of the sample database: the later pair wins, and
    [ext_9] is left out. *)
Example find_centroid_internal_ids_sample :
  find_centroid_internal_ids sample_micro_database
    ["ext_1"%string; "ext_9"%string] = Ok [("ext_1"%string, 3%Z)].
Proof. reflexivity. Qed.

(** ** Road speeds *)

(** The two nested loops of the road speeds are a table comprehension. *)
Lemma process_micro_road_speed_data_eq db roads tl :
  process_micro_road_speed_data db roads tl
  = keyed_table
      (fun t r => AimsunMicroOutputDatabase.get_road_section_speed db r t)
      tl roads.
Proof.
  unfold process_micro_road_speed_data, keyed_table.
  rewrite dict_comp_keyed. apply for_each_ext. intros t acc _.
  by rewrite dict_comp_keyed.
Qed.

(** X9: the road-speed function returns exactly when the database answers
    the speed query for every listed time and road; the result is then a
    table of dictionaries that holds exactly the answers (an empty time
    list gives the empty table, without an error).  An exception of the
    function is the exception of a speed query. *)
Theorem X9_process_micro_road_speed_data
    (simulation_results_database : AimsunMicroOutputDatabase.t)
    (road_int_ids : list InternalId) (time_list : list time) :
  ((exists T, process_micro_road_speed_data simulation_results_database
                road_int_ids time_list = Ok T) <->
   (forall t r, t ∈ time_list -> r ∈ road_int_ids ->
      exists v, AimsunMicroOutputDatabase.get_road_section_speed
                  simulation_results_database r t = Ok v)) /\
  (forall T,
     process_micro_road_speed_data simulation_results_database
       road_int_ids time_list = Ok T ->
     table_wf T /\
     forall t r v, dict_get2 T t r = Some v <->
       t ∈ time_list /\ r ∈ road_int_ids /\
       AimsunMicroOutputDatabase.get_road_section_speed
         simulation_results_database r t = Ok v) /\
  (forall e,
     process_micro_road_speed_data simulation_results_database
       road_int_ids time_list = Raise e ->
     exists t r, t ∈ time_list /\ r ∈ road_int_ids /\
       AimsunMicroOutputDatabase.get_road_section_speed
         simulation_results_database r t = Raise e).
Proof.
  rewrite process_micro_road_speed_data_eq. split; [split|split].
  - intros [T HT]. by eapply keyed_table_Ok_inv.
  - intros Hq. destruct (keyed_table_total _ _ _ Hq) as (T & HT & _). eauto.
  - intros T HT.
    destruct (keyed_table_total
      (fun t r => AimsunMicroOutputDatabase.get_road_section_speed
                    simulation_results_database r t) time_list road_int_ids)
      as (T' & HT' & Hwf & _ & _ & Hget); [by eapply keyed_table_Ok_inv|].
    assert (T' = T) as -> by congruence. done.
  - intros e. apply keyed_table_Raise_inv.
Qed.

(** ** Travel times and route distances between centroids *)

Section OdTable.
Context (query : ExternalId -> InternalId -> time -> result Float).
Implicit Types (ids : dict ExternalId InternalId) (tl : list time).

(** The row of one origin: the second loop, over the items. *)
Lemma od_table_row_eq (o : ExternalId) ids tl :
  for_each (dict_items ids)
    (fun '(dest_centroid_ext_id, dest_centroid_int_id) origin_centroid_data =>
       od_centroid_data ←
         for_each tl (fun time_step od_centroid_data =>
             od_value ← query o dest_centroid_int_id time_step;
             Ok (dict_setitem od_centroid_data time_step od_value))
           [];
       Ok (dict_setitem origin_centroid_data dest_centroid_ext_id
             od_centroid_data))
    []
  = for_each (dict_items ids)
      (fun item acc =>
         v ← dict_comp (fun t => v ← query o item.2 t; Ok (t, v)) tl;
         Ok (dict_setitem acc item.1 v))
      [].
Proof.
  apply for_each_ext. intros [d dint] acc _. by rewrite dict_comp_keyed.
Qed.

Lemma od_table_eq ids tl :
  od_table query ids tl
  = for_each (dict_keys ids)
      (fun o acc =>
         v ← for_each (dict_items ids)
               (fun item acc =>
                  v ← dict_comp (fun t => v ← query o item.2 t; Ok (t, v)) tl;
                  Ok (dict_setitem acc item.1 v))
               [];
         Ok (dict_setitem acc o v))
      [].
Proof.
  unfold od_table. apply for_each_ext. intros o acc _.
  by rewrite od_table_row_eq.
Qed.

Lemma od_table_total ids tl :
  dict_wf ids ->
  (forall o d dint t, o ∈ dict_keys ids -> dict_get ids d = Some dint ->
     t ∈ tl -> exists v, query o dint t = Ok v) ->
  exists T, od_table query ids tl = Ok T /\
    forall o d t v, dict_get3 T o d t = Some v <->
      o ∈ dict_keys ids /\ t ∈ tl /\
      exists dint, dict_get ids d = Some dint /\ query o dint t = Ok v.
Proof.
  intros Hwf Hq. rewrite od_table_eq.
  assert (forall o item, o ∈ dict_keys ids -> item ∈ dict_items ids ->
    exists od, dict_comp (fun t => v ← query o item.2 t; Ok (t, v)) tl = Ok od
      /\ forall t v, dict_get od t = Some v <->
           t ∈ tl /\ query o item.2 t = Ok v) as Hinner.
  { intros o [d dint] Ho Hitem.
    destruct (dict_comp_keyed_total (query o dint) tl) as (od & Hod & _ & Hg).
    - intros t Ht. apply (Hq o d dint t); [done | | done].
      by apply dict_wf_elem_get.
    - eauto. }
  assert (forall o, o ∈ dict_keys ids ->
    exists row,
      for_each (dict_items ids)
        (fun item acc =>
           v ← dict_comp (fun t => v ← query o item.2 t; Ok (t, v)) tl;
           Ok (dict_setitem acc item.1 v)) [] = Ok row /\
      forall d od, dict_get row d = Some od <->
        exists dint, dict_get ids d = Some dint /\
          dict_comp (fun t => v ← query o dint t; Ok (t, v)) tl = Ok od)
    as Hrow.
  { intros o Ho.
    destruct (keyed_loop (fun item : ExternalId * InternalId => item.1)
      (fun item => dict_comp (fun t => v ← query o item.2 t; Ok (t, v)) tl)
      (dict_items ids)) as (row & Hrun & _ & Hget).
    - intros item Hitem. destruct (Hinner o item Ho Hitem) as (od & Hod & _).
      eauto.
    - intros [d1 i1] [d2 i2] H1 H2 Hk. simpl in Hk. subst d2.
      apply (dict_wf_elem_get _ _ _ Hwf) in H1, H2.
      by assert (i1 = i2) as -> by congruence.
    - exists row. split; [done|]. intros d od. rewrite Hget. split.
      + intros ([d' dint] & Hitem & Hk & Hod). simpl in Hk, Hod. subst d'.
        exists dint. split; [by apply dict_wf_elem_get | done].
      + intros (dint & Hd & Hod). exists (d, dint).
        split; [by apply dict_get_Some_elem | done]. }
  destruct (keyed_loop (fun o : ExternalId => o)
    (fun o => for_each (dict_items ids)
        (fun item acc =>
           v ← dict_comp (fun t => v ← query o item.2 t; Ok (t, v)) tl;
           Ok (dict_setitem acc item.1 v)) [])
    (dict_keys ids)) as (T & HT & _ & HgetT).
  { intros o Ho. destruct (Hrow o Ho) as (row & Hr & _). eauto. }
  { by intros o o' _ _ ->. }
  exists T. split; [done|].
  intros o d t v. unfold dict_get3, dict_get2.
  destruct (dict_get T o) as [row|] eqn:HTo; simpl.
  - apply HgetT in HTo as (o' & Ho & Heq & Hrun); simpl in Heq; subst o'.
    destruct (Hrow o Ho) as (row' & Hrun' & Hgetrow).
    assert (row' = row) as -> by congruence.
    destruct (dict_get row d) as [od|] eqn:Hrd; simpl.
    + apply Hgetrow in Hrd as (dint & Hd & Hod).
      destruct (Hinner o (d, dint) Ho (dict_get_Some_elem _ _ _ Hd))
        as (od' & Hod' & Hgetod). simpl in Hod', Hgetod.
      assert (od' = od) as -> by congruence.
      rewrite Hgetod. split.
      * intros [Ht Hv]. eauto.
      * intros (_ & Ht & dint' & Hd' & Hv).
        by assert (dint' = dint) as -> by congruence.
    + split; [done|]. intros (_ & Ht & dint & Hd & Hv).
      destruct (Hinner o (d, dint) Ho (dict_get_Some_elem _ _ _ Hd))
        as (od & Hod & _). simpl in Hod.
      assert (dict_get row d = Some od) as Hcontra
        by (apply Hgetrow; eauto).
      congruence.
  - split; [done|]. intros (Ho & _).
    destruct (Hrow o Ho) as (row & Hr & _).
    assert (dict_get T o = Some row) as Hcontra
      by (apply HgetT; exists o; eauto).
    congruence.
Qed.
End OdTable.

(** X10: over a dictionary of centroids, when the database answers the
    travel-time query for every origin, destination and listed time, the
    function returns a three-level table whose sample for an origin, a
    destination and a time is the answer to the query made with the
    external identifier of the origin and the internal identifier of the
    destination. *)
Theorem X10_process_micro_travel_time_data
    (simulation_results_database : AimsunMicroOutputDatabase.t)
    (external_centroids_ext_int_id_dict : dict ExternalId InternalId)
    (time_list : list time) :
  dict_wf external_centroids_ext_int_id_dict ->
  (forall o d dint t,
     o ∈ dict_keys external_centroids_ext_int_id_dict ->
     dict_get external_centroids_ext_int_id_dict d = Some dint ->
     t ∈ time_list ->
     exists v, AimsunMicroOutputDatabase.get_od_travel_time
                 simulation_results_database o dint t = Ok v) ->
  exists T,
    process_micro_travel_time_data simulation_results_database
      external_centroids_ext_int_id_dict time_list = Ok T /\
    forall o d t v, dict_get3 T o d t = Some v <->
      o ∈ dict_keys external_centroids_ext_int_id_dict /\ t ∈ time_list /\
      exists dint,
        dict_get external_centroids_ext_int_id_dict d = Some dint /\
        AimsunMicroOutputDatabase.get_od_travel_time
          simulation_results_database o dint t = Ok v.
Proof. intros Hwf Hq. by apply od_table_total. Qed.

Lemma X10_witness_sample_database :
  exists T,
    process_micro_travel_time_data sample_micro_database
      [("ext_1"%string, 3%Z); ("ext_2"%string, 2%Z)] [t0900] = Ok T /\
    forall o d t v, dict_get3 T o d t = Some v <->
      o ∈ dict_keys [("ext_1"%string, 3%Z); ("ext_2"%string, 2%Z)] /\
      t ∈ [t0900] /\
      exists dint,
        dict_get [("ext_1"%string, 3%Z); ("ext_2"%string, 2%Z)] d
          = Some dint /\
        AimsunMicroOutputDatabase.get_od_travel_time
          sample_micro_database o dint t = Ok v.
Proof.
  apply X10_process_micro_travel_time_data.
  - solve_by_decide.
  - intros o d dint t _ _ _. eexists. reflexivity.
Defined.

(** X11: the route-distance function builds the same three-level table
    from the answers of [get_od_demand], the query the code makes for a
    route distance. *)
Theorem X11_process_micro_route_distance_data
    (simulation_results_database : AimsunMicroOutputDatabase.t)
    (external_centroids_ext_int_id_dict : dict ExternalId InternalId)
    (time_list : list time) :
  dict_wf external_centroids_ext_int_id_dict ->
  (forall o d dint t,
     o ∈ dict_keys external_centroids_ext_int_id_dict ->
     dict_get external_centroids_ext_int_id_dict d = Some dint ->
     t ∈ time_list ->
     exists v, AimsunMicroOutputDatabase.get_od_demand
                 simulation_results_database o dint t = Ok v) ->
  exists T,
    process_micro_route_distance_data simulation_results_database
      external_centroids_ext_int_id_dict time_list = Ok T /\
    forall o d t v, dict_get3 T o d t = Some v <->
      o ∈ dict_keys external_centroids_ext_int_id_dict /\ t ∈ time_list /\
      exists dint,
        dict_get external_centroids_ext_int_id_dict d = Some dint /\
        AimsunMicroOutputDatabase.get_od_demand
          simulation_results_database o dint t = Ok v.
Proof. intros Hwf Hq. by apply od_table_total. Qed.

Lemma X11_witness_sample_database :
  exists T,
    process_micro_route_distance_data sample_micro_database
      [("ext_1"%string, 3%Z); ("ext_2"%string, 2%Z)] [t0900] = Ok T /\
    forall o d t v, dict_get3 T o d t = Some v <->
      o ∈ dict_keys [("ext_1"%string, 3%Z); ("ext_2"%string, 2%Z)] /\
      t ∈ [t0900] /\
      exists dint,
        dict_get [("ext_1"%string, 3%Z); ("ext_2"%string, 2%Z)] d
          = Some dint /\
        AimsunMicroOutputDatabase.get_od_demand
          sample_micro_database o dint t = Ok v.
Proof.
  apply X11_process_micro_route_distance_data.
  - solve_by_decide.
  - intros o d dint t _ _ _. eexists. reflexivity.
Defined.

(** ** Lists of network-wide measures *)

(** The loop [for x in xs: l.append(g(x))]. *)
Lemma append_loop_Ok {A B : Type} (g : A -> result B) (xs : list A)
    (acc l : list B) :
  for_each xs (fun x acc => v ← g x; Ok (acc ++ [v])) acc = Ok l <->
  exists vs, Forall2 (fun x v => g x = Ok v) xs vs /\ l = acc ++ vs.
Proof.
  revert acc. induction xs as [|x xs IH]; intros acc; simpl.
  - split.
    + intros [= <-]. exists []. split; [constructor | by rewrite app_nil_r].
    + intros (vs & ->%Forall2_nil_inv_l & ->). by rewrite app_nil_r.
  - destruct (g x) as [v|e] eqn:Hx; simpl.
    + rewrite IH. split.
      * intros (vs & Hvs & ->). exists (v :: vs).
        split; [by constructor | by rewrite <- app_assoc].
      * intros (vs & Hvs & ->).
        apply Forall2_cons_inv_l in Hvs as (v' & vs' & Hv' & Hvs' & ->).
        exists vs'. split; [done|].
        assert (v' = v) as -> by congruence. by rewrite <- app_assoc.
    + split; [discriminate|].
      intros (vs & Hvs & _).
      apply Forall2_cons_inv_l in Hvs as (v' & vs' & Hv' & _). congruence.
Qed.

(** It raises the exception of the first element on which [g] raises. *)
Lemma append_loop_Raise {A B : Type} (g : A -> result B) (xs : list A)
    (acc : list B) (e : exn) :
  for_each xs (fun x acc => v ← g x; Ok (acc ++ [v])) acc = Raise e <->
  exists before x after,
    xs = before ++ x :: after /\
    Forall (fun y => exists v, g y = Ok v) before /\ g x = Raise e.
Proof.
  revert acc. induction xs as [|x xs IH]; intros acc; simpl.
  - split; [discriminate|].
    intros (before & x & after & Hxs & _). by destruct before.
  - destruct (g x) as [v|e'] eqn:Hx; simpl.
    + rewrite IH. split.
      * intros (before & y & after & -> & Hb & Hy).
        exists (x :: before), y, after. split; [done|].
        split; [constructor; eauto | done].
      * intros (before & y & after & Hxs & Hb & Hy).
        destruct before as [|b before]; simpl in Hxs.
        -- injection Hxs as -> ->. congruence.
        -- injection Hxs as -> ->. apply Forall_cons in Hb as [_ Hb].
           by exists before, y, after.
    + split.
      * intros [= ->]. exists [], x, xs. by repeat split.
      * intros (before & y & after & Hxs & Hb & Hy).
        destruct before as [|b before]; simpl in Hxs.
        -- injection Hxs as -> ->. congruence.
        -- injection Hxs as -> ->. apply Forall_cons in Hb as [[v Hv] _].
           congruence.
Qed.

Lemma rgap_loop q (tl : list time) (l1 l2 r1 r2 : list Float) :
  for_each tl (fun time_step '(rgaps_instantaneous, rgaps_experienced) =>
      '(rgap_inst, rgap_exp) ← q time_step;
      Ok (rgaps_instantaneous ++ [rgap_inst], rgaps_experienced ++ [rgap_exp]))
    (l1, l2) = Ok (r1, r2) <->
  exists rs : list (Float * Float),
    Forall2 (fun t r => q t = Ok r) tl rs /\
    r1 = l1 ++ rs.*1 /\ r2 = l2 ++ rs.*2.
Proof.
  revert l1 l2. induction tl as [|t tl IH]; intros l1 l2; simpl.
  - split.
    + intros [= <- <-]. exists []. split; [constructor|].
      by rewrite !app_nil_r.
    + intros (rs & ->%Forall2_nil_inv_l & -> & ->). by rewrite !app_nil_r.
  - destruct (q t) as [[a b]|e] eqn:Ht; simpl.
    + rewrite IH. split.
      * intros (rs & Hrs & -> & ->). exists ((a, b) :: rs).
        split; [by constructor|]. by rewrite !fmap_cons, <- !app_assoc.
      * intros (rs & Hrs & -> & ->).
        apply Forall2_cons_inv_l in Hrs as (r' & rs' & Hr' & Hrs' & ->).
        exists rs'. split; [done|].
        assert (r' = (a, b)) as -> by congruence.
        by rewrite !fmap_cons, <- !app_assoc.
    + split; [discriminate|].
      intros (rs & Hrs & _).
      apply Forall2_cons_inv_l in Hrs as (r' & rs' & Hr' & _). congruence.
Qed.

(** X12: the relative-gap function returns two lists exactly when the
    database answers the query for every listed time; the lists are then
    the first and the second components of the answers, in the order of
    the time list, so both have the length of the time list and are
    aligned with it. *)
Theorem X12_process_micro_total_rgap_data
    (simulation_results_database : AimsunMicroOutputDatabase.t)
    (time_list : list time) (rgaps_instantaneous rgaps_experienced : list Float) :
  (process_micro_total_rgap_data simulation_results_database time_list
     = Ok (rgaps_instantaneous, rgaps_experienced) <->
   exists rgaps : list (Float * Float),
     Forall2 (fun t r =>
        AimsunMicroOutputDatabase.get_total_rgap
          simulation_results_database t = Ok r) time_list rgaps /\
     rgaps_instantaneous = rgaps.*1 /\ rgaps_experienced = rgaps.*2) /\
  (process_micro_total_rgap_data simulation_results_database time_list
     = Ok (rgaps_instantaneous, rgaps_experienced) ->
   length rgaps_instantaneous = length time_list /\
   length rgaps_experienced = length time_list).
Proof.
  unfold process_micro_total_rgap_data. rewrite rgap_loop.
  split; [done|]. intros (rs & Hrs & -> & ->).
  apply Forall2_length in Hrs. rewrite !app_nil_l, !length_fmap. done.
Qed.

Lemma X12_witness_sample_database :
  length [float_of_Z 9; float_of_Z 9] = length [t0900; t0915] /\
  length [float_of_Z 0; float_of_Z 15] = length [t0900; t0915].
Proof.
  apply (proj2 (X12_process_micro_total_rgap_data sample_micro_database
                  [t0900; t0915] [float_of_Z 9; float_of_Z 9]
                  [float_of_Z 0; float_of_Z 15])).
  reflexivity.
Defined.

(** X13: the delay-time function returns the list of the answers, in the
    order of the time intervals, exactly when the database answers for
    every interval; otherwise it raises the exception of the first
    interval on which the query raises, and returns no partial list. *)
Theorem X13_process_network_delay_time_data
    (simulation_results_database : AimsunMicroOutputDatabase.t)
    (time_intervals : list time) :
  (forall delay_times,
     process_network_delay_time_data simulation_results_database
       time_intervals = Ok delay_times <->
     Forall2 (fun t v =>
        AimsunMicroOutputDatabase.get_total_delay_time
          simulation_results_database t = Ok v) time_intervals delay_times) /\
  (forall e,
     process_network_delay_time_data simulation_results_database
       time_intervals = Raise e <->
     exists before t after,
       time_intervals = before ++ t :: after /\
       Forall (fun t' => exists v,
          AimsunMicroOutputDatabase.get_total_delay_time
            simulation_results_database t' = Ok v) before /\
       AimsunMicroOutputDatabase.get_total_delay_time
         simulation_results_database t = Raise e).
Proof.
  unfold process_network_delay_time_data. split.
  - intros l. rewrite append_loop_Ok. split.
    + by intros (vs & Hvs & ->).
    + intros Hl. by exists l.
  - intros e. apply append_loop_Raise.
Qed.

(** ** Linear regression: the predictions and the maximum *)

(** X14: in a returned tuple the predictions are computed from the
    returned slope and the returned intercept, one row per entry of [x]:
    row [k] is [[x_k * slope + intercept]].  The intercept that enters
    them is therefore the absolute value, not the fitted one. *)
Theorem X14_predictions_use_reported_intercept
    (lr : RegressionUtility) `{!RegressionContract lr}
    (x y : list Float) (enforce_intercept : bool)
    (slope : Float) (intercept : intercept_value) (r_sq max_val : Float)
    (yhat : list (list Float)) :
  get_linear_regression x y enforce_intercept
    = Ok (slope, intercept, r_sq, max_val, yhat) ->
  exists i, intercept = Scalar i /\
    yhat = (fun xk => [fadd (fmul xk slope) i]) <$> x /\
    length yhat = length x.
Proof.
  intros Hrun.
  apply (get_linear_regression_Ok lr) in Hrun
    as (m & r & mx & b & Hfit & _ & _ & Hshape & [= -> -> _ _ ->]).
  exists (SFabs b). split; [done|].
  assert (predict x (coef_ m) (py_abs (intercept_ m))
          = (fun xk => [fadd (fmul xk (coef_ m)) (SFabs b)]) <$> x) as ->.
  { unfold predict.
    destruct enforce_intercept; [destruct Hshape as [-> ->] | rewrite Hshape];
      reflexivity. }
  split; [done|]. by rewrite length_fmap.
Qed.

Lemma X14_witness_sample :
  exists i, Scalar fzero = Scalar i /\
    [[float_of_Z 2]; [float_of_Z 4]; [float_of_Z 6]]
    = (fun xk => [fadd (fmul xk (float_of_Z 2)) i])
        <$> [float_of_Z 1; float_of_Z 2; float_of_Z 3] /\
    length [[float_of_Z 2]; [float_of_Z 4]; [float_of_Z 6]]
    = length [float_of_Z 1; float_of_Z 2; float_of_Z 3].
Proof.
  apply (X14_predictions_use_reported_intercept ols
    [float_of_Z 1; float_of_Z 2; float_of_Z 3]
    [float_of_Z 2; float_of_Z 4; float_of_Z 6] true
    (float_of_Z 2) (Scalar fzero) (float_of_Z 1) (float_of_Z 3)
    [[float_of_Z 2]; [float_of_Z 4]; [float_of_Z 6]]).
  vm_compute. reflexivity.
Defined.

(** The order of the floats that are no NaN: what is below [b] is below
    whatever is not below [b]. *)
Lemma SFltb_neg_trans (a b c : Float) :
  is_nan c = false ->
  SFltb a b = true -> SFltb c b = false -> SFltb a c = true.
Proof.
  unfold SFltb, SFcompare.
  destruct a as [sa|sa| |sa ma ea], b as [sb|sb| |sb mb eb],
    c as [sc|sc| |sc mc ec]; try done;
    try destruct sa; try destruct sb; try destruct sc; try done;
    intros _;
    repeat match goal with
    | |- context [Z.compare ?x ?y] => destruct (Z.compare_spec x y); subst
    | |- context [Pos.compare_cont Eq ?x ?y] =>
        change (Pos.compare_cont Eq x y) with (Pos.compare x y);
        destruct (Pos.compare_spec x y); subst
    end; simpl; try done; try lia.
Qed.

Lemma SFltb_asym (a b : Float) : SFltb a b = true -> SFltb b a = false.
Proof.
  unfold SFltb, SFcompare.
  destruct a as [sa|sa| |sa ma ea], b as [sb|sb| |sb mb eb]; try done;
    try destruct sa; try destruct sb; try done;
    repeat match goal with
    | |- context [Z.compare ?x ?y] => destruct (Z.compare_spec x y); subst
    | |- context [Pos.compare_cont Eq ?x ?y] =>
        change (Pos.compare_cont Eq x y) with (Pos.compare x y);
        destruct (Pos.compare_spec x y); subst
    end; simpl; try done; try lia.
Qed.

Lemma SFltb_irrefl (a : Float) : SFltb a a = false.
Proof.
  unfold SFltb, SFcompare.
  destruct a as [s|s| |s m e]; try destruct s; try done;
    rewrite Z.compare_refl;
    change (Pos.compare_cont Eq m m) with (Pos.compare m m);
    by rewrite Pos.compare_refl.
Qed.

Lemma np_maximum_nan (a b : Float) :
  is_nan (np_maximum a b) = is_nan a || is_nan b.
Proof.
  unfold np_maximum. destruct (is_nan a) eqn:Ha; [done|].
  destruct (is_nan b) eqn:Hb; [done|]. simpl.
  by destruct (SFltb a b).
Qed.

(** The running maximum: it is one of the values seen, a NaN as soon as
    one of them is, and otherwise below none of them. *)
Lemma foldl_np_maximum (x0 : Float) (xs : list Float) :
  foldl np_maximum x0 xs ∈ x0 :: xs /\
  is_nan (foldl np_maximum x0 xs)
    = is_nan x0 || existsb is_nan xs /\
  (is_nan (foldl np_maximum x0 xs) = false ->
   forall xk, xk ∈ x0 :: xs -> SFltb (foldl np_maximum x0 xs) xk = false).
Proof.
  revert x0. induction xs as [|b xs IH]; intros x0; simpl.
  - split; [left|]. split; [by rewrite orb_false_r|].
    intros _ xk ->%list_elem_of_singleton. apply SFltb_irrefl.
  - destruct (IH (np_maximum x0 b)) as (Hin & Hnan & Hle).
    split; [|split].
    + apply elem_of_cons in Hin as [->|Hin]; [|by do 2 right].
      unfold np_maximum. destruct (is_nan x0); [left|].
      destruct (is_nan b); [right; left|].
      destruct (SFltb x0 b); [right|]; left.
    + by rewrite Hnan, np_maximum_nan, orb_assoc.
    + intros Hm xk Hxk. specialize (Hle Hm).
      rewrite Hnan, np_maximum_nan in Hm.
      apply orb_false_elim in Hm as [[Hx0 Hb]%orb_false_elim _].
      assert (SFltb (foldl np_maximum (np_maximum x0 b) xs) (np_maximum x0 b)
              = false) as Htop by (apply Hle; left).
      assert (np_maximum x0 b = if SFltb x0 b then b else x0) as Hmax
        by (unfold np_maximum; by rewrite Hx0, Hb).
      set (M := foldl np_maximum (np_maximum x0 b) xs) in *.
      rewrite Hmax in Htop.
      apply elem_of_cons in Hxk as [->|[->|Hxk]%elem_of_cons].
      * destruct (SFltb x0 b) eqn:Hlt; [|done].
        destruct (SFltb M x0) eqn:Hc;
          [|done].
        rewrite (SFltb_neg_trans _ x0 b Hb Hc) in Htop; [done|].
        by apply SFltb_asym.
      * destruct (SFltb x0 b) eqn:Hlt; [done|].
        destruct (SFltb M b) eqn:Hc;
          [|done].
        by rewrite (SFltb_neg_trans _ b x0 Hx0 Hc Hlt) in Htop.
      * apply Hle. by right.
Qed.

(** X15: the maximum a returned tuple reports is one of the entries of
    [x]; it is a NaN exactly when an entry is, and otherwise no entry of
    [x] is above it. *)
Theorem X15_max_val_bounds_real_data
    (lr : RegressionUtility)
    (x y : list Float) (enforce_intercept : bool)
    (slope : Float) (intercept : intercept_value) (r_sq max_val : Float)
    (yhat : list (list Float)) :
  get_linear_regression x y enforce_intercept
    = Ok (slope, intercept, r_sq, max_val, yhat) ->
  max_val ∈ x /\
  is_nan max_val = existsb is_nan x /\
  (is_nan max_val = false ->
   forall xk, xk ∈ x -> SFltb max_val xk = false).
Proof.
  unfold get_linear_regression. intros Hrun.
  apply bind_inv_Ok in Hrun as (m & _ & Hrun).
  apply bind_inv_Ok in Hrun as (r & _ & Hrun).
  apply bind_inv_Ok in Hrun as (mx & Hmax & Hrun).
  apply bind_inv_Ok in Hrun as (i & _ & [= _ _ _ -> _]).
  destruct x as [|x0 xs]; [discriminate|]. injection Hmax as <-.
  apply foldl_np_maximum.
Qed.

Lemma X15_witness_sample :
  float_of_Z 3 ∈ [float_of_Z 1; float_of_Z 2; float_of_Z 3] /\
  is_nan (float_of_Z 3)
    = existsb is_nan [float_of_Z 1; float_of_Z 2; float_of_Z 3] /\
  (is_nan (float_of_Z 3) = false ->
   forall xk, xk ∈ [float_of_Z 1; float_of_Z 2; float_of_Z 3] ->
     SFltb (float_of_Z 3) xk = false).
Proof.
  apply (X15_max_val_bounds_real_data ols
    [float_of_Z 1; float_of_Z 2; float_of_Z 3]
    [float_of_Z 2; float_of_Z 4; float_of_Z 6] true
    (float_of_Z 2) (Scalar fzero) (float_of_Z 1) (float_of_Z 3)
    [[float_of_Z 2]; [float_of_Z 4]; [float_of_Z 6]]).
  vm_compute. reflexivity.
Defined.

(** ** The profile file: export followed by import *)



(** ** The real flow data *)

Lemma for_each_filter {A S : Type} (p : A -> bool) (body : A -> S -> result S)
    (xs : list A) (s : S) :
  for_each xs (fun x s => if p x then body x s else Ok s) s
  = for_each (filter (fun x => Is_true (p x)) xs) body s.
Proof.
  revert s. induction xs as [|x xs IH]; intros s; [done|].
  rewrite filter_cons. cbn [for_each]. destruct (p x) eqn:Hp.
  - rewrite decide_True by done. cbn [for_each].
    destruct (body x s); simpl; [apply IH | done].
  - rewrite decide_False by (by intros []). rewrite bind_Ok. apply IH.
Qed.

Lemma for_each_flat_map {A B S : Type} (f : A -> list B)
    (body : B -> S -> result S) (xs : list A) (s : S) :
  for_each xs (fun x s => for_each (f x) body s) s
  = for_each (flat_map f xs) body s.
Proof.
  revert s. induction xs as [|x xs IH]; intros s; [done|].
  cbn [for_each flat_map].
  assert (forall (l1 l2 : list B) s0,
    for_each (l1 ++ l2) body s0
    = (s1 ← for_each l1 body s0; for_each l2 body s1)) as Happ.
  { induction l1 as [|b l1 IHl]; intros l2 s0; [done|].
    simpl. destruct (body b s0); simpl; [apply IHl | done]. }
  rewrite Happ. destruct (for_each (f x) body s); simpl; [apply IH | done].
Qed.

Section AppendIfNew.
Implicit Types (l ids : list ExternalId).

Lemma append_if_new_elem l id x :
  x ∈ append_if_new l id <-> x ∈ l \/ x = id.
Proof.
  unfold append_if_new. destruct (bool_decide (id ∈ l)) eqn:Hid.
  - apply bool_decide_eq_true in Hid. split; [by left|].
    intros [?| ->]; done.
  - rewrite elem_of_app, list_elem_of_singleton. done.
Qed.

Lemma append_if_new_NoDup l id : NoDup l -> NoDup (append_if_new l id).
Proof.
  unfold append_if_new. intros Hl.
  destruct (bool_decide (id ∈ l)) eqn:Hid; [done|].
  apply bool_decide_eq_false in Hid. apply NoDup_app. split; [done|].
  split; [|apply NoDup_singleton].
  intros x Hx ->%list_elem_of_singleton. done.
Qed.

Lemma foldl_append_if_new_elem ids l x :
  x ∈ foldl append_if_new ids l <-> x ∈ ids \/ x ∈ l.
Proof.
  revert ids. induction l as [|id l IH]; intros ids; simpl.
  - rewrite elem_of_nil. tauto.
  - rewrite IH, append_if_new_elem, elem_of_cons. tauto.
Qed.

Lemma foldl_append_if_new_NoDup ids l :
  NoDup ids -> NoDup (foldl append_if_new ids l).
Proof.
  revert ids. induction l as [|id l IH]; intros ids Hids; [done|].
  simpl. by apply IH, append_if_new_NoDup.
Qed.

(** Identifiers that are all listed already add nothing. *)
Lemma foldl_append_if_new_id ids l :
  (forall x, x ∈ l -> x ∈ ids) -> foldl append_if_new ids l = ids.
Proof.
  induction l as [|id l IH]; intros Hl; [done|]. simpl.
  unfold append_if_new at 2.
  rewrite bool_decide_eq_true_2 by (apply Hl; left).
  apply IH. intros x Hx. apply Hl. by right.
Qed.

Lemma foldl_append_if_new_twice ids l :
  foldl append_if_new (foldl append_if_new ids l) l
  = foldl append_if_new ids l.
Proof.
  apply foldl_append_if_new_id. intros x Hx.
  apply foldl_append_if_new_elem. by right.
Qed.
End AppendIfNew.

Lemma real_flow_per_time_step_eq t r (row0 : dict ExternalId Float) ids0 :
  real_flow_per_time_step t r (row0, ids0)
  = (v ← real_flow_value t r;
     Ok (dict_setitem row0 (flow_id r) v, append_if_new ids0 (flow_id r))).
Proof.
  unfold real_flow_per_time_step, real_flow_value.
  by destruct (dict_getitem (flow_data r) (timedelta_of_time t + 15)).
Qed.

(** The first inner loop fills the row and extends the detector list
    independently of each other. *)
Lemma real_flow_row_loop (t : time) (records : list FlowRealData)
    (row0 : dict ExternalId Float) (ids0 : list ExternalId) :
  for_each records (real_flow_per_time_step t) (row0, ids0)
  = (row ← for_each records (fun flow_real_data acc =>
              v ← real_flow_value t flow_real_data;
              Ok (dict_setitem acc (flow_id flow_real_data) v)) row0;
     Ok (row, foldl append_if_new ids0 (flow_id <$> records))).
Proof.
  revert row0 ids0. induction records as [|r records IH]; intros row0 ids0.
  - reflexivity.
  - cbn [for_each]. rewrite real_flow_per_time_step_eq.
    destruct (real_flow_value t r) as [v|e]; [|reflexivity].
    rewrite !bind_Ok, IH. reflexivity.
Qed.

(** So does the first outer loop: after the first listed time the
    detector list is complete. *)
Lemma real_flow_time_loop (ds : AimsunFlowRealDataSet) (tl : list time)
    (per_time0 : dict time (dict ExternalId Float)) (ids0 : list ExternalId) :
  for_each tl
    (fun t '(real_flow_per_time, detector_external_id_list) =>
       '(flow_per_time_dict, detector_external_id_list) ←
         for_each (flow_data_set ds)
           (real_flow_per_time_step t) ([], detector_external_id_list);
       Ok (dict_setitem real_flow_per_time t flow_per_time_dict,
           detector_external_id_list))
    (per_time0, ids0)
  = (per_time ← for_each tl (fun t acc =>
         row ← real_flow_row ds t; Ok (dict_setitem acc t row)) per_time0;
     Ok (per_time,
         match tl with
         | [] => ids0
         | _ => foldl append_if_new ids0 (flow_id <$> flow_data_set ds)
         end)).
Proof.
  revert per_time0 ids0. induction tl as [|t tl IH]; intros per_time0 ids0.
  - reflexivity.
  - cbn [for_each]. rewrite real_flow_row_loop. fold (real_flow_row ds t).
    destruct (real_flow_row ds t) as [row|e]; [|reflexivity].
    rewrite !bind_Ok, IH.
    destruct (for_each tl (fun t acc =>
         row ← real_flow_row ds t; Ok (dict_setitem acc t row))
         (dict_setitem per_time0 t row)) as [per_time|e]; [|reflexivity].
    rewrite !bind_Ok. destruct tl; [done|].
    by rewrite foldl_append_if_new_twice.
Qed.

Lemma py_min_max_Ok (tl : list time) :
  tl <> [] -> exists lowest highest,
    py_min tl = Ok lowest /\ py_max tl = Ok highest.
Proof. destruct tl; [done|]. intros _. simpl. eauto. Qed.

(** The body of the innermost loop when the time list is not empty. *)
Lemma real_flow_per_detector_step_eq (tl : list time) tk v (d : dict time Float) :
  tl <> [] ->
  real_flow_per_detector_step tl (tk, v) d
  = if in_time_range tl (time_of_timedelta tk)
    then Ok (dict_setitem d (time_of_timedelta tk) (fmul v (float_of_Z 4)))
    else Ok d.
Proof.
  intros (lowest & highest & Hmin & Hmax)%py_min_max_Ok.
  unfold real_flow_per_detector_step, in_time_range.
  rewrite Hmin, Hmax. simpl.
  by destruct (time_leb lowest _), (time_leb _ highest).
Qed.

(** The row of a detector is a keyed loop over the items in range. *)
Lemma real_flow_detector_row_eq (ds : AimsunFlowRealDataSet) (tl : list time)
    (id : ExternalId) :
  tl <> [] ->
  real_flow_detector_row ds tl id
  = for_each
      (filter (fun item => Is_true (in_time_range tl (time_of_timedelta item.1)))
         (detector_items ds id))
      (fun item acc =>
         v ← Ok (fmul item.2 (float_of_Z 4));
         Ok (dict_setitem acc (time_of_timedelta item.1) v))
      [].
Proof.
  intros Htl. unfold real_flow_detector_row, detector_items.
  rewrite (for_each_filter (fun r => bool_decide (flow_id r = id))
             (fun r d => for_each (dict_items (flow_data r))
                           (real_flow_per_detector_step tl) d)).
  rewrite (for_each_flat_map (fun r => dict_items (flow_data r))).
  rewrite <- (for_each_filter
    (fun item => in_time_range tl (time_of_timedelta item.1))).
  apply for_each_ext. intros [tk v] d _.
  by rewrite real_flow_per_detector_step_eq.
Qed.

(** The two parts of the function, separated. *)
Lemma process_real_flow_data_eq (ds : AimsunFlowRealDataSet) (tl : list time) :
  process_real_flow_data ds tl
  = (per_time ← real_flow_table ds tl;
     per_detector ←
       real_flow_detector_table ds tl (returned_detector_ids ds tl);
     Ok (per_time, per_detector, returned_detector_ids ds tl)).
Proof.
  unfold process_real_flow_data. rewrite real_flow_time_loop.
  fold (real_flow_table ds tl).
  destruct (real_flow_table ds tl) as [per_time|e]; [|reflexivity].
  rewrite !bind_Ok. by destruct tl.
Qed.

(** The second part never raises. *)
Lemma real_flow_detector_row_total ds tl id :
  tl <> [] -> exists row, real_flow_detector_row ds tl id = Ok row.
Proof.
  intros Htl. rewrite real_flow_detector_row_eq by done.
  destruct (for_each_total (fun _ => True)
    (fun (item : timedelta * Float) (acc : dict time Float) =>
       v ← Ok (fmul item.2 (float_of_Z 4));
       Ok (dict_setitem acc (time_of_timedelta item.1) v))
    (filter (fun item => Is_true (in_time_range tl (time_of_timedelta item.1)))
       (detector_items ds id)) []) as (row & Hrow & _); [done | | eauto].
  intros item acc _ _. simpl. eauto.
Qed.



Lemma real_flow_value_Ok t r w :
  real_flow_value t r = Ok w <->
  exists v, dict_get (flow_data r) (timedelta_of_time t + 15) = Some v /\
    w = fmul v (float_of_Z 4).
Proof.
  unfold real_flow_value. split.
  - intros (v & Hv%dict_getitem_Ok & [= <-])%bind_inv_Ok. eauto.
  - intros (v & Hv%dict_getitem_Ok & ->). by rewrite Hv.
Qed.



(** The keys of the result of a keyed loop, whatever the values. *)
Lemma keyed_loop_keys {K V A : Type} `{EqDecision K}
    (key : A -> K) (g : A -> result V) (xs : list A) (acc d : dict K V) :
  for_each xs (fun x acc => v ← g x; Ok (dict_setitem acc (key x) v)) acc
    = Ok d ->
  dict_wf acc ->
  dict_wf d /\
  forall k, k ∈ dict_keys d <-> k ∈ dict_keys acc \/ k ∈ key <$> xs.
Proof.
  revert acc. induction xs as [|x xs IH]; intros acc Hrun Hwf.
  - injection Hrun as <-. split; [done|]. intros k.
    rewrite fmap_nil, elem_of_nil. tauto.
  - cbn [for_each] in Hrun.
    apply bind_inv_Ok in Hrun as (acc' & Hacc' & Hrun).
    apply bind_inv_Ok in Hacc' as (v & _ & [= <-]).
    destruct (IH _ Hrun (dict_wf_setitem _ _ _ Hwf)) as [Hd Hkeys].
    split; [done|]. intros k.
    rewrite Hkeys, dict_keys_setitem, fmap_cons, elem_of_cons.
    destruct (decide (key x ∈ dict_keys acc)) as [Hin|Hnin].
    + split; [tauto|]. intros [?|[->|?]]; tauto.
    + rewrite elem_of_app, list_elem_of_singleton. tauto.
Qed.

Lemma NoDup_fmap_inj_on {A B : Type} (f : A -> B) (l : list A) (x y : A) :
  NoDup (f <$> l) -> x ∈ l -> y ∈ l -> f x = f y -> x = y.
Proof.
  induction l as [|a l IH]; intros Hnd Hx Hy Hf.
  - by apply elem_of_nil in Hx.
  - rewrite fmap_cons in Hnd. apply NoDup_cons in Hnd as [Ha Hnd].
    apply elem_of_cons in Hx as [->|Hx], Hy as [->|Hy]; [done | | | auto].
    + exfalso. apply Ha. rewrite Hf. by apply list_elem_of_fmap_2.
    + exfalso. apply Ha. rewrite <- Hf. by apply list_elem_of_fmap_2.
Qed.

Lemma flow_id_inj (r1 r2 : FlowRealData) :
  flow_id r1 = flow_id r2 -> external_id r1 = external_id r2.
Proof. unfold flow_id. simpl. intros [= Heq]. exact Heq. Qed.

(** In a data set with distinct detectors an identifier names one
    record. *)
Lemma distinct_detectors_record (ds : AimsunFlowRealDataSet) r1 r2 :
  distinct_detectors ds ->
  r1 ∈ flow_data_set ds -> r2 ∈ flow_data_set ds ->
  flow_id r1 = flow_id r2 -> r1 = r2.
Proof.
  intros Hnd H1 H2 Hid%flow_id_inj.
  by apply (NoDup_fmap_inj_on external_id (flow_data_set ds)).
Qed.

Lemma detector_ids_elem (ds : AimsunFlowRealDataSet) id :
  id ∈ detector_ids ds <->
  exists r, r ∈ flow_data_set ds /\ flow_id r = id.
Proof.
  unfold detector_ids. rewrite foldl_append_if_new_elem, elem_of_nil.
  rewrite list_elem_of_fmap. split.
  - intros [[]|(r & -> & Hr)]. eauto.
  - intros (r & Hr & <-). right. eauto.
Qed.

Lemma returned_detector_ids_elem (ds : AimsunFlowRealDataSet) tl id :
  id ∈ returned_detector_ids ds tl <->
  tl <> [] /\ exists r, r ∈ flow_data_set ds /\ flow_id r = id.
Proof.
  destruct tl as [|t tl]; simpl.
  - rewrite elem_of_nil. split; [done | by intros [? _]].
  - rewrite detector_ids_elem. split; [by intros ? | by intros [_ ?]].
Qed.

Lemma returned_detector_ids_NoDup (ds : AimsunFlowRealDataSet) tl :
  NoDup (returned_detector_ids ds tl).
Proof.
  destruct tl; [apply NoDup_nil_2|].
  apply foldl_append_if_new_NoDup, NoDup_nil_2.
Qed.

(** What the function returns, part by part. *)
Lemma process_real_flow_data_Ok_inv ds tl per_time per_detector ids :
  process_real_flow_data ds tl = Ok (per_time, per_detector, ids) ->
  real_flow_table ds tl = Ok per_time /\
  real_flow_detector_table ds tl ids = Ok per_detector /\
  ids = returned_detector_ids ds tl.
Proof.
  rewrite process_real_flow_data_eq. intros Hrun.
  apply bind_inv_Ok in Hrun as (pt & Hpt & Hrun).
  apply bind_inv_Ok in Hrun as (pd & Hpd & [= <- <- <-]). done.
Qed.

(** X18: in what the function returns, the detector list holds each
    detector of the data set once (none when the time list is empty);
    the per-time table has the listed times as keys and each of its rows
    has the listed detectors as keys, the per-detector table has the
    listed detectors as keys, and no key occurs twice anywhere. *)
Theorem X18_process_real_flow_data_keys
    (real_flow_dataset : AimsunFlowRealDataSet) (time_list : list time)
    (real_flow_per_time : dict time (dict ExternalId Float))
    (real_flow_per_detector : dict ExternalId (dict time Float))
    (detector_external_id_list : list ExternalId) :
  process_real_flow_data real_flow_dataset time_list
    = Ok (real_flow_per_time, real_flow_per_detector,
          detector_external_id_list) ->
  (NoDup detector_external_id_list /\
   forall id, id ∈ detector_external_id_list <->
     time_list <> [] /\
     exists r, r ∈ flow_data_set real_flow_dataset /\ flow_id r = id) /\
  (table_wf real_flow_per_time /\
   (forall t, t ∈ dict_keys real_flow_per_time <-> t ∈ time_list) /\
   forall row id, row ∈ dict_values real_flow_per_time ->
     (id ∈ dict_keys row <-> id ∈ detector_external_id_list)) /\
  (dict_wf real_flow_per_detector /\
   forall id, id ∈ dict_keys real_flow_per_detector <->
     id ∈ detector_external_id_list).
Proof.
  intros (Hpt & Hpd & ->)%process_real_flow_data_Ok_inv.
  split; [split; [apply returned_detector_ids_NoDup |
                  apply returned_detector_ids_elem]|].
  destruct (keyed_loop_keys (fun t : time => t)
    (real_flow_row real_flow_dataset) _ _ _ Hpt (NoDup_nil_2))
    as [Hptwf Hptkeys].
  destruct (keyed_loop_keys (fun id : ExternalId => id)
    (real_flow_detector_row real_flow_dataset time_list) _ _ _ Hpd
    (NoDup_nil_2)) as [Hpdwf Hpdkeys].
  assert (forall row, row ∈ dict_values real_flow_per_time ->
    dict_wf row /\ time_list <> [] /\
    forall id, id ∈ dict_keys row <->
      exists r, r ∈ flow_data_set real_flow_dataset /\ flow_id r = id)
    as Hrows.
  { intros row Hrow. destruct (table_value_elem _ _ Hrow) as [t Ht].
    assert (t ∈ time_list) as Htl.
    { assert (t ∈ dict_keys real_flow_per_time) as Hk
        by (apply list_elem_of_fmap; by exists (t, row)).
      apply Hptkeys in Hk as [[]%elem_of_nil|Hk].
      by rewrite list_fmap_id in Hk. }
    apply (dict_wf_elem_get _ _ _ Hptwf) in Ht.
    assert (real_flow_row real_flow_dataset t = Ok row) as Hr.
    { destruct (keyed_loop_Ok_inv (fun t : time => t)
        (real_flow_row real_flow_dataset) _ _ _ Hpt t Htl) as [row' Hrow'].
      destruct (keyed_loop (fun t : time => t)
        (real_flow_row real_flow_dataset) time_list)
        as (pt' & Hpt' & _ & Hget).
      - by apply (keyed_loop_Ok_inv _ _ _ _ _ Hpt).
      - by intros x y _ _ ->.
      - assert (pt' = real_flow_per_time) as ->
          by (unfold real_flow_table in Hpt; congruence).
        by apply Hget in Ht as (x & _ & -> & Hx). }
    destruct (keyed_loop_keys flow_id (real_flow_value t) _ _ _ Hr
      (NoDup_nil_2)) as [Hwf Hkeys].
    split; [done|]. split; [by intros ->; apply elem_of_nil in Htl|].
    intros id. rewrite Hkeys, elem_of_nil, list_elem_of_fmap. split.
    - intros [[]|(r & -> & Hr')]. eauto.
    - intros (r & Hr' & <-). right. eauto. }
  split; [split; [split|split]|split].
  - done.
  - apply Forall_forall. intros row Hrow. by apply Hrows.
  - intros t. rewrite Hptkeys, elem_of_nil, list_fmap_id. tauto.
  - intros row id Hrow. destruct (Hrows row Hrow) as (_ & Htl & Hkeys).
    rewrite Hkeys, returned_detector_ids_elem. tauto.
  - done.
  - intros id. rewrite Hpdkeys, elem_of_nil, list_fmap_id. tauto.
Qed.

Lemma X18_witness_sample_dataset :
  (NoDup ["flow_d1"%string; "flow_d2"%string] /\
   forall id, id ∈ ["flow_d1"%string; "flow_d2"%string] <->
     [t0900] <> [] /\
     exists r, r ∈ flow_data_set sample_real_dataset /\ flow_id r = id) /\
  (table_wf [(t0900, [("flow_d1"%string, float_of_Z 20);
                      ("flow_d2"%string, float_of_Z 16)])] /\
   (forall t, t ∈ dict_keys [(t0900, [("flow_d1"%string, float_of_Z 20);
                                      ("flow_d2"%string, float_of_Z 16)])]
      <-> t ∈ [t0900]) /\
   forall row id,
     row ∈ dict_values [(t0900, [("flow_d1"%string, float_of_Z 20);
                                 ("flow_d2"%string, float_of_Z 16)])] ->
     (id ∈ dict_keys row <-> id ∈ ["flow_d1"%string; "flow_d2"%string])) /\
  (dict_wf [("flow_d1"%string, [(t0900, float_of_Z 12)]);
            ("flow_d2"%string, [(t0900, float_of_Z 8)])] /\
   forall id,
     id ∈ dict_keys [("flow_d1"%string, [(t0900, float_of_Z 12)]);
                     ("flow_d2"%string, [(t0900, float_of_Z 8)])] <->
     id ∈ ["flow_d1"%string; "flow_d2"%string]).
Proof.
  apply (X18_process_real_flow_data_keys sample_real_dataset [t0900]).
  vm_compute. reflexivity.
Defined.

Lemma option_eq_Some {A : Type} (o1 o2 : option A) :
  (forall a, o1 = Some a <-> o2 = Some a) -> o1 = o2.
Proof.
  intros H. destruct o1 as [a|].
  - symmetry. by apply H.
  - destruct o2 as [b|]; [|done]. by apply H.
Qed.

(** The rows of the per-time table of a data set with distinct
    detectors. *)
Lemma real_flow_row_get (ds : AimsunFlowRealDataSet) t row :
  distinct_detectors ds ->
  real_flow_row ds t = Ok row ->
  forall id w, dict_get row id = Some w <->
    exists r v, r ∈ flow_data_set ds /\ flow_id r = id /\
      dict_get (flow_data r) (timedelta_of_time t + 15) = Some v /\
      w = fmul v (float_of_Z 4).
Proof.
  intros Hnd Hrow.
  destruct (keyed_loop flow_id (real_flow_value t) (flow_data_set ds))
    as (row' & Hrow' & _ & Hget).
  - by apply (keyed_loop_Ok_inv _ _ _ _ _ Hrow).
  - intros r1 r2 H1 H2 Hid.
    by rewrite (distinct_detectors_record ds r1 r2 Hnd H1 H2 Hid).
  - assert (row' = row) as -> by (unfold real_flow_row in Hrow; congruence).
    intros id w. rewrite Hget. split.
    + intros (r & Hr & Hid & (v & Hv & ->)%real_flow_value_Ok). eauto 7.
    + intros (r & v & Hr & Hid & Hv & ->). exists r.
      split; [done|]. split; [done|]. apply real_flow_value_Ok. eauto.
Qed.

Lemma real_flow_table_get (ds : AimsunFlowRealDataSet) tl per_time :
  real_flow_table ds tl = Ok per_time ->
  forall t row, dict_get per_time t = Some row <->
    t ∈ tl /\ real_flow_row ds t = Ok row.
Proof.
  intros Hpt.
  destruct (keyed_loop (fun t : time => t) (real_flow_row ds) tl)
    as (pt' & Hpt' & _ & Hget).
  - by apply (keyed_loop_Ok_inv _ _ _ _ _ Hpt).
  - by intros x y _ _ ->.
  - assert (pt' = per_time) as ->
      by (unfold real_flow_table in Hpt; congruence).
    intros t row. rewrite Hget. split.
    + by intros (x & Hx & -> & Hrow).
    + intros [Ht Hrow]. by exists t.
Qed.

Lemma real_flow_per_time_get
    (ds : AimsunFlowRealDataSet) (tl : list time)
    (per_time : dict time (dict ExternalId Float)) :
  distinct_detectors ds -> real_flow_table ds tl = Ok per_time ->
  forall t id w,
    dict_get2 per_time t id = Some w <->
    t ∈ tl /\
    exists r v, r ∈ flow_data_set ds /\ flow_id r = id /\
      dict_get (flow_data r) (timedelta_of_time t + 15) = Some v /\
      w = fmul v (float_of_Z 4).
Proof.
  intros Hnd Hpt t id w.
  pose proof (real_flow_table_get _ _ _ Hpt) as Hget.
  unfold dict_get2.
  destruct (dict_get per_time t) as [row|] eqn:Hrow; simpl.
  - apply Hget in Hrow as [Ht Hrow].
    rewrite (real_flow_row_get _ _ _ Hnd Hrow). tauto.
  - split; [done|]. intros [Ht _].
    destruct (keyed_loop_Ok_inv (fun t : time => t)
      (real_flow_row ds) _ _ _ Hpt t Ht) as [row Hr].
    assert (dict_get per_time t = Some row) as Hc by (by apply Hget).
    congruence.
Qed.

(** X19: over a data set with distinct detectors, the per-time table
    holds, for a listed time and a detector, four times the count the
    record of the detector holds a quarter of an hour after that time,
    and it holds nothing else. *)
Theorem X19_process_real_flow_data_per_time
    (real_flow_dataset : AimsunFlowRealDataSet) (time_list : list time)
    (real_flow_per_time : dict time (dict ExternalId Float))
    (real_flow_per_detector : dict ExternalId (dict time Float))
    (detector_external_id_list : list ExternalId) :
  distinct_detectors real_flow_dataset ->
  process_real_flow_data real_flow_dataset time_list
    = Ok (real_flow_per_time, real_flow_per_detector,
          detector_external_id_list) ->
  forall t id w,
    dict_get2 real_flow_per_time t id = Some w <->
    t ∈ time_list /\
    exists r v, r ∈ flow_data_set real_flow_dataset /\ flow_id r = id /\
      dict_get (flow_data r) (timedelta_of_time t + 15) = Some v /\
      w = fmul v (float_of_Z 4).
Proof.
  intros Hnd (Hpt & _ & _)%process_real_flow_data_Ok_inv.
  by apply real_flow_per_time_get.
Qed.

Lemma sample_real_dataset_distinct : distinct_detectors sample_real_dataset.
Proof. unfold distinct_detectors. solve_by_decide. Defined.

Lemma X19_witness_sample_dataset :
  dict_get2 [(t0900, [("flow_d1"%string, float_of_Z 20);
                      ("flow_d2"%string, float_of_Z 16)])]
    t0900 "flow_d1"%string = Some (float_of_Z 20) <->
  t0900 ∈ [t0900] /\
  exists r v, r ∈ flow_data_set sample_real_dataset /\
    flow_id r = "flow_d1"%string /\
    dict_get (flow_data r) (timedelta_of_time t0900 + 15) = Some v /\
    float_of_Z 20 = fmul v (float_of_Z 4).
Proof.
  apply (X19_process_real_flow_data_per_time sample_real_dataset [t0900]
    _ [("flow_d1"%string, [(t0900, float_of_Z 12)]);
       ("flow_d2"%string, [(t0900, float_of_Z 8)])]
    ["flow_d1"%string; "flow_d2"%string]).
  - exact sample_real_dataset_distinct.
  - vm_compute. reflexivity.
Defined.

(** Below one day, a duration is determined by its time of day. *)
Lemma time_of_timedelta_inj (a b : timedelta) :
  a < 1440 -> b < 1440 ->
  time_of_timedelta a = time_of_timedelta b -> a = b.
Proof.
  intros Ha Hb Heq.
  pose proof (f_equal hour Heq) as Hh. pose proof (f_equal minute Heq) as Hm.
  unfold time_of_timedelta in Hh, Hm. cbn [hour minute] in Hh, Hm.
  assert (a / 60 < 24) by (apply Nat.Div0.div_lt_upper_bound; lia).
  assert (b / 60 < 24) by (apply Nat.Div0.div_lt_upper_bound; lia).
  rewrite !Nat.mod_small in Hh by done.
  rewrite (Nat.div_mod_eq a 60), (Nat.div_mod_eq b 60). lia.
Qed.

Lemma detector_items_elem (ds : AimsunFlowRealDataSet) id tk v :
  (tk, v) ∈ detector_items ds id <->
  exists r, r ∈ flow_data_set ds /\ flow_id r = id /\ (tk, v) ∈ flow_data r.
Proof.
  unfold detector_items. rewrite list_elem_of_In, in_flat_map. split.
  - intros (r & Hr%list_elem_of_In & Hin%list_elem_of_In).
    apply list_elem_of_filter in Hr as [Hid%bool_decide_unpack Hr]. eauto.
  - intros (r & Hr & Hid & Hin). exists r.
    split; apply list_elem_of_In; [|done].
    apply list_elem_of_filter. split; [by apply bool_decide_pack | done].
Qed.

(** The rows of the per-detector table. *)
Lemma real_flow_detector_row_get (ds : AimsunFlowRealDataSet) tl id row :
  distinct_detectors ds -> keyed_within_a_day ds -> tl <> [] ->
  real_flow_detector_row ds tl id = Ok row ->
  forall tm w, dict_get row tm = Some w <->
    in_time_range tl tm = true /\
    exists r tk v, r ∈ flow_data_set ds /\ flow_id r = id /\
      dict_get (flow_data r) tk = Some v /\
      time_of_timedelta tk = tm /\ w = fmul v (float_of_Z 4).
Proof.
  intros Hnd Hday Htl Hrow.
  rewrite real_flow_detector_row_eq in Hrow by done.
  destruct (keyed_loop
    (fun item : timedelta * Float => time_of_timedelta item.1)
    (fun item => Ok (fmul item.2 (float_of_Z 4)))
    (filter (fun item => Is_true (in_time_range tl (time_of_timedelta item.1)))
       (detector_items ds id))) as (row' & Hrow' & _ & Hget).
  - intros item _. eauto.
  - intros [tk1 v1] [tk2 v2] [_ H1]%list_elem_of_filter
      [_ H2]%list_elem_of_filter Hk. simpl in Hk |- *.
    apply detector_items_elem in H1 as (r1 & Hr1 & Hid1 & Hin1).
    apply detector_items_elem in H2 as (r2 & Hr2 & Hid2 & Hin2).
    assert (r1 = r2) as ->
      by (apply (distinct_detectors_record ds); congruence).
    destruct (Hday r2 Hr2) as [Hwf Hlt].
    assert (tk1 = tk2) as ->.
    { apply time_of_timedelta_inj; [| |done].
      - apply Hlt, list_elem_of_fmap. by exists (tk1, v1).
      - apply Hlt, list_elem_of_fmap. by exists (tk2, v2). }
    apply (dict_wf_elem_get _ _ _ Hwf) in Hin1, Hin2. congruence.
  - assert (row' = row) as -> by congruence.
    intros tm w. rewrite Hget. split.
    + intros ([tk v] & [Hrange Hin]%list_elem_of_filter & Hk & [= <-]).
      simpl in *. subst tm. split; [by apply Is_true_true|].
      apply detector_items_elem in Hin as (r & Hr & Hid & Hin).
      exists r, tk, v. repeat split; try done.
      apply dict_wf_elem_get; [|done]. by apply (Hday r).
    + intros (Hrange & r & tk & v & Hr & Hid & Hv & <- & ->).
      exists (tk, v). split; [|done].
      apply list_elem_of_filter. split; [by apply Is_true_true|].
      apply detector_items_elem. exists r.
      split; [done|]. split; [done|]. by apply dict_get_Some_elem.
Qed.

Lemma real_flow_detector_table_get (ds : AimsunFlowRealDataSet) tl ids
    per_detector :
  tl <> [] ->
  real_flow_detector_table ds tl ids = Ok per_detector ->
  forall id row, dict_get per_detector id = Some row <->
    id ∈ ids /\ real_flow_detector_row ds tl id = Ok row.
Proof.
  intros Htl Hpd.
  destruct (keyed_loop (fun id : ExternalId => id)
    (real_flow_detector_row ds tl) ids) as (pd' & Hpd' & _ & Hget).
  - intros id _. by apply real_flow_detector_row_total.
  - by intros x y _ _ ->.
  - assert (pd' = per_detector) as ->
      by (unfold real_flow_detector_table in Hpd; congruence).
    intros id row. rewrite Hget. split.
    + by intros (x & Hx & -> & Hrow).
    + intros [Hid Hrow]. by exists id.
Qed.

Lemma real_flow_per_detector_get
    (ds : AimsunFlowRealDataSet) (tl : list time)
    (per_detector : dict ExternalId (dict time Float)) :
  distinct_detectors ds -> keyed_within_a_day ds ->
  real_flow_detector_table ds tl (returned_detector_ids ds tl)
    = Ok per_detector ->
  forall id tm w,
    dict_get2 per_detector id tm = Some w <->
    in_time_range tl tm = true /\
    exists r tk v, r ∈ flow_data_set ds /\ flow_id r = id /\
      dict_get (flow_data r) tk = Some v /\
      time_of_timedelta tk = tm /\ w = fmul v (float_of_Z 4).
Proof.
  intros Hnd Hday Hpd id tm w.
  destruct tl as [|t0 tl].
  { injection Hpd as <-. split; [done | by intros [? _]]. }
  assert (t0 :: tl <> []) as Htl by done.
  pose proof (real_flow_detector_table_get _ _ _ _ Htl Hpd) as Hget.
  unfold dict_get2.
  destruct (dict_get per_detector id) as [row|] eqn:Hrow.
  - apply Hget in Hrow as [Hid Hrow]. cbn [mbind option_bind].
    by rewrite (real_flow_detector_row_get _ _ _ _ Hnd Hday Htl Hrow).
  - split; [done|]. intros (_ & r & tk & v & Hr & Hid & _).
    destruct (real_flow_detector_row_total ds (t0 :: tl) id Htl)
      as [row Hr'].
    assert (dict_get per_detector id = Some row) as Hc.
    { apply Hget. split; [|done].
      apply returned_detector_ids_elem. eauto. }
    congruence.
Qed.

(** X20: over a data set with distinct detectors whose counts are keyed
    within one day, the per-detector table holds, for a detector and a
    time of day, four times the count the record holds at that very time,
    provided the time lies between the smallest and the largest listed
    time; it holds nothing else. *)
Theorem X20_process_real_flow_data_per_detector
    (real_flow_dataset : AimsunFlowRealDataSet) (time_list : list time)
    (real_flow_per_time : dict time (dict ExternalId Float))
    (real_flow_per_detector : dict ExternalId (dict time Float))
    (detector_external_id_list : list ExternalId) :
  distinct_detectors real_flow_dataset ->
  keyed_within_a_day real_flow_dataset ->
  process_real_flow_data real_flow_dataset time_list
    = Ok (real_flow_per_time, real_flow_per_detector,
          detector_external_id_list) ->
  forall id tm w,
    dict_get2 real_flow_per_detector id tm = Some w <->
    in_time_range time_list tm = true /\
    exists r tk v, r ∈ flow_data_set real_flow_dataset /\ flow_id r = id /\
      dict_get (flow_data r) tk = Some v /\
      time_of_timedelta tk = tm /\ w = fmul v (float_of_Z 4).
Proof.
  intros Hnd Hday (_ & Hpd & ->)%process_real_flow_data_Ok_inv.
  by apply real_flow_per_detector_get.
Qed.

Lemma sample_real_dataset_within_a_day : keyed_within_a_day sample_real_dataset.
Proof.
  intros r Hr. unfold sample_real_dataset in Hr. cbn [flow_data_set] in Hr.
  repeat (apply elem_of_cons in Hr as [->|Hr]);
    [| |by apply elem_of_nil in Hr];
    (split; [solve_by_decide|]); intros tk Htk;
    unfold dict_keys in Htk; cbn in Htk;
    repeat (apply elem_of_cons in Htk as [->|Htk]); try lia;
    by apply elem_of_nil in Htk.
Defined.

Lemma X20_witness_sample_dataset :
  dict_get2 [("flow_d1"%string, [(t0900, float_of_Z 12)]);
             ("flow_d2"%string, [(t0900, float_of_Z 8)])]
    "flow_d1"%string t0900 = Some (float_of_Z 12) <->
  in_time_range [t0900] t0900 = true /\
  exists r tk v, r ∈ flow_data_set sample_real_dataset /\
    flow_id r = "flow_d1"%string /\
    dict_get (flow_data r) tk = Some v /\
    time_of_timedelta tk = t0900 /\ float_of_Z 12 = fmul v (float_of_Z 4).
Proof.
  apply (X20_process_real_flow_data_per_detector sample_real_dataset [t0900]
    [(t0900, [("flow_d1"%string, float_of_Z 20);
              ("flow_d2"%string, float_of_Z 16)])] _
    ["flow_d1"%string; "flow_d2"%string]).
  - exact sample_real_dataset_distinct.
  - exact sample_real_dataset_within_a_day.
  - vm_compute. reflexivity.
Defined.

(** X21: the two tables are a quarter of an hour apart.  For a listed
    time [t] whose next quarter of an hour is still within the day and
    between the smallest and the largest listed time, the per-detector
    table holds at that later time, for every detector, the sample the
    per-time table holds at [t]. *)
Theorem X21_process_real_flow_data_tables_shifted
    (real_flow_dataset : AimsunFlowRealDataSet) (time_list : list time)
    (real_flow_per_time : dict time (dict ExternalId Float))
    (real_flow_per_detector : dict ExternalId (dict time Float))
    (detector_external_id_list : list ExternalId) :
  distinct_detectors real_flow_dataset ->
  keyed_within_a_day real_flow_dataset ->
  process_real_flow_data real_flow_dataset time_list
    = Ok (real_flow_per_time, real_flow_per_detector,
          detector_external_id_list) ->
  forall t id,
    t ∈ time_list ->
    timedelta_of_time t + 15 < 1440 ->
    in_time_range time_list (time_of_timedelta (timedelta_of_time t + 15))
      = true ->
    dict_get2 real_flow_per_detector id
      (time_of_timedelta (timedelta_of_time t + 15))
    = dict_get2 real_flow_per_time t id.
Proof.
  intros Hnd Hday (Hpt & Hpd & ->)%process_real_flow_data_Ok_inv
    t id Ht Hlt Hrange.
  apply option_eq_Some. intros w.
  rewrite (real_flow_per_detector_get _ _ _ Hnd Hday Hpd).
  rewrite (real_flow_per_time_get _ _ _ Hnd Hpt). split.
  - intros (_ & r & tk & v & Hr & Hid & Hv & Htk & ->).
    split; [done|]. exists r, v. repeat split; try done.
    assert (tk = timedelta_of_time t + 15) as <-; [|done].
    apply time_of_timedelta_inj; [|done|done].
    destruct (Hday r Hr) as [_ Hkeys]. apply Hkeys.
    apply dict_get_is_Some. eauto.
  - intros (_ & r & v & Hr & Hid & Hv & ->).
    split; [done|]. exists r, (timedelta_of_time t + 15), v. done.
Qed.

Lemma X21_witness_sample_dataset :
  dict_get2 [("flow_d1"%string,
              [(t0900, float_of_Z 12); (t0915, float_of_Z 20)]);
             ("flow_d2"%string,
              [(t0900, float_of_Z 8); (t0915, float_of_Z 16)])]
    "flow_d1"%string (time_of_timedelta (timedelta_of_time t0900 + 15))
  = dict_get2 [(t0900, [("flow_d1"%string, float_of_Z 20);
                        ("flow_d2"%string, float_of_Z 16)]);
               (t0915, [("flow_d1"%string, float_of_Z 28);
                        ("flow_d2"%string, float_of_Z 24)])]
      t0900 "flow_d1"%string.
Proof.
  apply (X21_process_real_flow_data_tables_shifted sample_real_dataset
    [t0900; t0915] _ _ ["flow_d1"%string; "flow_d2"%string]).
  - exact sample_real_dataset_distinct.
  - exact sample_real_dataset_within_a_day.
  - vm_compute. reflexivity.
  - left.
  - vm_compute. lia.
  - reflexivity.
Defined.

(** On the sample data set the per-detector table is not the transpose
    of the per-time table: at 09:00 the first holds the count of 09:00
    and the second the count of 09:15. *)
Example process_real_flow_data_sample :
  exists per_time per_detector ids,
    process_real_flow_data sample_real_dataset [t0900; t0915]
      = Ok (per_time, per_detector, ids) /\
    dict_get2 per_time t0900 "flow_d1"%string = Some (float_of_Z 20) /\
    dict_get2 per_detector "flow_d1"%string t0900 = Some (float_of_Z 12).
Proof. do 3 eexists. split; [vm_compute; reflexivity|]. split; reflexivity. Qed.

(** ** The profile file: what reading and writing leave alone *)

Lemma import_world_unchanged (self : ExternalDemandProfile) filepath w :
  (__import_from_file self filepath w).2 = w.
Proof.
  destruct (fs w !! filepath) as [[payload| |]|] eqn:Hfile.
  - rewrite (import_from_pickled self filepath w payload Hfile).
    destruct (import_type_check payload) as [[]|e]; [|done|done].
    by destruct payload.
  - unfold __import_from_file, mbind, IO_bind, open_rb, pickle_load.
    by rewrite Hfile, Hfile.
  - unfold __import_from_file, mbind, IO_bind, open_rb, pickle_load.
    by rewrite Hfile.
  - unfold __import_from_file, mbind, IO_bind, open_rb, pickle_load.
    by rewrite Hfile.
Qed.

(** X22: constructing a profile from a path, and importing into one,
    never writes: whether they return or raise, the file system and the
    warnings are afterwards what they were.  With the empty path the
    constructor reads nothing and returns the empty profile. *)
Theorem X22_import_never_writes
    (self : ExternalDemandProfile) (filepath : string) (w : world) :
  (__import_from_file self filepath w).2 = w /\
  (ExternalDemandProfile_init filepath w).2 = w /\
  ExternalDemandProfile_init EmptyString w
    = (Ok {| ext_demand_matrix := [] |}, w).
Proof.
  split; [apply import_world_unchanged|]. split; [|reflexivity].
  unfold ExternalDemandProfile_init.
  destruct (bool_decide (filepath = EmptyString)); [done|].
  apply import_world_unchanged.
Qed.


